(** * musepsf: a shallow embedding of [image.py] and [musepsf.py]

    The development follows the two source files of the package:
    [Image] (resampling, catalogue curation, star-table construction,
    empirical PSF build) and [MUSEImage] (flux calibration and the
    cross-convolution fit).  External collaborators (astropy, reproject,
    MPDAF, photutils, scipy) and the helpers of [utils.py] are gathered in
    one record of functions, [Collab]; the methods of the two classes are
    written in a state-and-exception monad whose state survives a raised
    exception, as the attributes of a Python object do. *)

From Stdlib Require Import ZArith QArith Qabs Qround String Ascii List Bool Lia Lqa.
Import ListNotations.
Open Scope Z_scope.

Set Implicit Arguments.

(** ** Pixel values

    A pixel is a NumPy float.  Finite values are kept as exact rationals
    (rounding is abstracted away, and zero carries no sign); the three
    special values of IEEE 754 are kept apart, with their arithmetic. *)

Module Num.

Inductive float : Type :=
| Fin (q : Q)
| PInf
| NInf
| NaN.

Definition zero : float := Fin 0.
Definition one : float := Fin 1.

Definition isnan (x : float) : bool :=
  match x with NaN => true | _ => false end.

Definition isfinite (x : float) : bool :=
  match x with Fin _ => true | _ => false end.

Definition Qltb (a b : Q) : bool := negb (Qle_bool b a).

(** Sign of a rational as a comparison with zero. *)
Definition Qsgn (q : Q) : comparison := Qcompare q 0.

Definition neg (x : float) : float :=
  match x with
  | Fin q => Fin (- q)
  | PInf => NInf
  | NInf => PInf
  | NaN => NaN
  end.

Definition add (x y : float) : float :=
  match x, y with
  | NaN, _ | _, NaN => NaN
  | Fin a, Fin b => Fin (a + b)
  | PInf, NInf | NInf, PInf => NaN
  | PInf, _ | _, PInf => PInf
  | NInf, _ | _, NInf => NInf
  end.

Definition sub (x y : float) : float := add x (neg y).

(** An infinity scaled by a value of the given sign. *)
Definition scale_inf (pos : bool) (s : comparison) : float :=
  match s with
  | Eq => NaN
  | Gt => if pos then PInf else NInf
  | Lt => if pos then NInf else PInf
  end.

Definition mul (x y : float) : float :=
  match x, y with
  | NaN, _ | _, NaN => NaN
  | Fin a, Fin b => Fin (a * b)
  | Fin a, PInf | PInf, Fin a => scale_inf true (Qsgn a)
  | Fin a, NInf | NInf, Fin a => scale_inf false (Qsgn a)
  | PInf, PInf | NInf, NInf => PInf
  | PInf, NInf | NInf, PInf => NaN
  end.

(** NumPy division: dividing by zero does not raise, it yields an
    infinity, or NaN for 0/0. *)
Definition div (x y : float) : float :=
  match x, y with
  | NaN, _ | _, NaN => NaN
  | Fin a, Fin b =>
      match Qsgn b with
      | Eq => scale_inf true (Qsgn a)
      | _ => Fin (a / b)
      end
  | Fin _, (PInf | NInf) => Fin 0
  | PInf, Fin b =>
      match Qsgn b with Lt => NInf | _ => PInf end
  | NInf, Fin b =>
      match Qsgn b with Lt => PInf | _ => NInf end
  | (PInf | NInf), (PInf | NInf) => NaN
  end.

Definition abs (x : float) : float :=
  match x with
  | Fin q => Fin (Qabs q)
  | PInf | NInf => PInf
  | NaN => NaN
  end.

(** Comparisons; every comparison with NaN is false, except [!=]. *)
Definition ltb (x y : float) : bool :=
  match x, y with
  | NaN, _ | _, NaN => false
  | Fin a, Fin b => Qltb a b
  | NInf, NInf => false
  | NInf, _ => true
  | _, NInf => false
  | PInf, _ => false
  | _, PInf => true
  end.

Definition leb (x y : float) : bool :=
  match x, y with
  | NaN, _ | _, NaN => false
  | Fin a, Fin b => Qle_bool a b
  | NInf, _ => true
  | _, NInf => false
  | _, PInf => true
  | PInf, _ => false
  end.

Definition eqb (x y : float) : bool :=
  match x, y with
  | Fin a, Fin b => Qeq_bool a b
  | PInf, PInf | NInf, NInf => true
  | _, _ => false
  end.

Definition neb (x y : float) : bool := negb (eqb x y).

(** [np.sum] of a flat sequence. *)
Definition sum (l : list float) : float := fold_left add l zero.

(** [np.around(x, 3)]: scale by 1000, round half to even, scale back.
    The rounding is that of the exact value; the code rounds the double
    product, which next to a tie can fall on the other side.  No property
    below depends on which way a scale is rounded. *)
Definition rint (q : Q) : Z :=
  let f := Qfloor q in
  let r := (q - inject_Z f)%Q in
  match Qcompare r (1 # 2) with
  | Lt => f
  | Gt => f + 1
  | Eq => if Z.even f then f else f + 1
  end.

Definition around (x : float) (decimals : Z) : float :=
  match x with
  | Fin q =>
      let s := inject_Z (10 ^ decimals) in
      Fin (inject_Z (rint (q * s)) / s)
  | _ => x
  end.

(** [int(x)] of a finite value truncates towards zero. *)
Definition trunc (q : Q) : Z := Z.quot (Qnum q) (Z.pos (Qden q)).

(** [x // y] of NumPy floats: a zero divisor gives an infinity or NaN, an
    infinite divisor gives 0 or -1. *)
Definition floordiv (x y : float) : float :=
  match x, y with
  | Fin a, Fin b =>
      match Qsgn b with
      | Eq => scale_inf true (Qsgn a)
      | _ => Fin (inject_Z (Qfloor (a / b)))
      end
  | Fin a, PInf => match Qsgn a with Lt => Fin (-1) | _ => Fin 0 end
  | Fin a, NInf => match Qsgn a with Gt => Fin (-1) | _ => Fin 0 end
  | _, _ => NaN
  end.

End Num.

(** ** Arrays

    A 2-D NumPy array is a list of rows.  [self.data] is either a plain
    [ndarray] (what [fits.open] gives) or a [numpy.ma.MaskedArray] (what
    MPDAF gives): [mask = None] is the plain array, which has no [mask]
    attribute. *)

Definition grid (A : Type) : Type := list (list A).

Record ndarray : Type := mkArray {
  values : grid Num.float;
  mask : option (grid bool)
}.

Definition plain (v : grid Num.float) : ndarray := mkArray v None.

Definition gmap2 {A B : Type} (f : A -> B) (g : grid A) : grid B :=
  map (map f) g.

(** Element-wise operation with a scalar; the mask, if any, is kept. *)
Definition amap (f : Num.float -> Num.float) (a : ndarray) : ndarray :=
  mkArray (gmap2 f (values a)) (mask a).

(** [a.shape] of a 2-D array: rows, then columns of the first row. *)
Definition gshape {A : Type} (g : grid A) : Z * Z :=
  (Z.of_nat (List.length g),
   match g with [] => 0 | r :: _ => Z.of_nat (List.length r) end).

Definition shape (a : ndarray) : Z * Z := gshape (values a).

Definition row_lengths {A : Type} (g : grid A) : list nat := map (@List.length A) g.

Definition same_shape {A B : Type} (g : grid A) (h : grid B) : bool :=
  if list_eq_dec Nat.eq_dec (row_lengths g) (row_lengths h) then true else false.

Fixpoint zip_with {A B C : Type} (f : A -> B -> C) (l : list A) (m : list B)
  : list C :=
  match l, m with
  | x :: l', y :: m' => f x y :: zip_with f l' m'
  | _, _ => []
  end.

(** Element-wise operation on two grids of one shape ([None] where NumPy
    raises for operands that cannot be combined; broadcasting of unequal
    shapes is not modelled). *)
Definition gzip {A B C : Type} (f : A -> B -> C) (g : grid A) (h : grid B)
  : option (grid C) :=
  if same_shape g h then Some (zip_with (zip_with f) g h) else None.

(** [a[m]] with a boolean array [m] of the shape of [a]: the selected
    elements in row-major order. *)
Fixpoint select {A : Type} (l : list A) (m : list bool) : list A :=
  match l, m with
  | x :: l', b :: m' => if b then x :: select l' m' else select l' m'
  | _, _ => []
  end.

Definition bool_index {A : Type} (l : list A) (m : list bool) : option (list A) :=
  if Nat.eqb (List.length l) (List.length m) then Some (select l m) else None.

Definition gselect {A : Type} (g : grid A) (m : grid bool) : option (list A) :=
  if same_shape g m then Some (select (concat g) (concat m)) else None.

(** [m.sum()] of a boolean array. *)
Definition count_true (m : grid bool) : Z :=
  Z.of_nat (List.length (filter (fun b => b) (concat m))).

(** The values of a masked array that are not flagged, in row-major order
    (all of them for a plain array). *)
Definition unmasked (a : ndarray) : list Num.float :=
  match mask a with
  | None => concat (values a)
  | Some m => select (concat (values a)) (map negb (concat m))
  end.

(** The result of a reduction such as [.all()], which on a masked array
    whose elements are all flagged is the constant [numpy.ma.masked]. *)
Inductive reduced (A : Type) : Type :=
| Value (a : A)
| MaskedConstant.
Arguments MaskedConstant {A}.

(** [np.isfinite(a).all()]: flagged elements count as true. *)
Definition isfinite_all (a : ndarray) : reduced bool :=
  match mask a with
  | None => Value (forallb Num.isfinite (concat (values a)))
  | Some m =>
      if forallb (fun b => b) (concat m) && negb (Nat.eqb (List.length (concat m)) 0)
      then MaskedConstant
      else Value (forallb Num.isfinite (unmasked a))
  end.

(** Truth value of a reduction: [bool(numpy.ma.masked)] is [False]. *)
Definition truth (r : reduced bool) : bool :=
  match r with Value b => b | MaskedConstant => false end.

(** [np.nanmax(a)]: the largest value that is neither flagged nor NaN
    (NaN when there is none). *)
Definition fmax (x y : Num.float) : Num.float :=
  match x, y with
  | Num.NaN, _ => y
  | _, Num.NaN => x
  | _, _ => if Num.ltb x y then y else x
  end.

Definition nanmax (a : ndarray) : Num.float :=
  fold_left fmax (unmasked a) Num.NaN.

(** [a.argmax()]: the flat index of the first largest element, a NaN
    counting as largest; on a masked array the flagged elements are first
    filled with the smallest value. *)
Definition filled_min (a : ndarray) : list Num.float :=
  match mask a with
  | None => concat (values a)
  | Some m => zip_with (fun x (b : bool) => if b then Num.NInf else x)
                (concat (values a)) (concat m)
  end.

Definition gtb_nan (x y : Num.float) : bool :=
  match x, y with
  | _, Num.NaN => false
  | Num.NaN, _ => true
  | _, _ => Num.ltb y x
  end.

Fixpoint argmax_from (l : list Num.float) (i : Z) (best : Num.float) (besti : Z)
  : Z :=
  match l with
  | [] => besti
  | x :: l' =>
      if gtb_nan x best then argmax_from l' (i + 1) x i
      else argmax_from l' (i + 1) best besti
  end.

Definition argmax (a : ndarray) : Z :=
  match filled_min a with
  | [] => 0
  | x :: l => argmax_from l 1 x 0
  end.

(** [np.unravel_index(i, shape)] for a 2-D shape. *)
Definition unravel_index (i : Z) (shp : Z * Z) : Z * Z :=
  (i / snd shp, i mod snd shp).

(** ** Paths and files *)

Open Scope string_scope.

Fixpoint replace_fuel (n : nat) (old new s : string) : string :=
  match n with
  | O => s
  | S n' =>
      match s with
      | EmptyString => EmptyString
      | String c rest =>
          if String.prefix old s
          then new ++ replace_fuel n' old new
                        (substring (String.length old) (String.length s - String.length old) s)
          else String c (replace_fuel n' old new rest)
      end
  end.

(** [s.replace(old, new)] for a non-empty [old]. *)
Definition replace (old new s : string) : string :=
  replace_fuel (S (String.length s)) old new s.

Definition ends_with_slash (s : string) : bool :=
  match String.get (String.length s - 1) s with
  | Some c => Ascii.eqb c "/"%char
  | None => false
  end.

(** [os.path.join(a, b)]. *)
Definition path_join (a b : string) : string :=
  if String.prefix "/" b then b
  else if orb (String.eqb a "") (ends_with_slash a) then a ++ b
  else a ++ "/" ++ b.

Close Scope string_scope.

(** ** Exceptions and the method monad *)

Inductive exn : Type :=
| ValueError (msg : string)
| AssertionError (msg : string)
| UnboundLocalError (name : string)
| AttributeError (msg : string)
| TypeError (msg : string)
| KeyError (key : string)
| IndexError (msg : string)
| OverflowError (msg : string)
| FileNotFoundError (path : string)
| SystemExit (msg : string).

(** A method either returns or raises; in both cases the attributes
    assigned so far are kept. *)
Inductive outcome (S A : Type) : Type :=
| Ok (a : A) (s : S)
| Raise (e : exn) (s : S).
Arguments Raise {S A} e s.

Definition M (S A : Type) : Type := S -> outcome S A.

Definition ret {S A : Type} (a : A) : M S A := fun s => Ok a s.

Definition bind {S A B : Type} (m : M S A) (k : A -> M S B) : M S B :=
  fun s => match m s with
           | Ok a s' => k a s'
           | Raise e s' => Raise e s'
           end.

Definition raise {S A : Type} (e : exn) : M S A := fun s => Raise e s.

Definition modify {S : Type} (f : S -> S) : M S unit := fun s => Ok tt (f s).

(** A value that may be missing, with the exception raised when it is. *)
Definition orelse {S A : Type} (o : option A) (e : exn) : M S A :=
  match o with Some a => ret a | None => raise e end.

Declare Scope method_scope.
Delimit Scope method_scope with method.
Notation "x <- c ;; k" := (bind c (fun x => k))
  (at level 61, c at next level, right associativity) : method_scope.
Notation "' p <- c ;; k" := (bind c (fun x => let p := x in k))
  (at level 61, p pattern, c at next level, right associativity) : method_scope.
Notation "c ;;; k" := (bind c (fun _ => k))
  (at level 61, right associativity) : method_scope.

Definition final_state {S A : Type} (o : outcome S A) : S :=
  match o with Ok _ s => s | Raise _ s => s end.

Definition raised {S A : Type} (o : outcome S A) : option exn :=
  match o with Ok _ _ => None | Raise e _ => Some e end.

(** ** Headers, coordinates, files *)

Inductive card : Type :=
| CardStr (s : string)
| CardNum (x : Num.float).

(** A FITS header, as the cards the code reads and writes. *)
Definition Header : Type := list (string * card).

Fixpoint header_get (h : Header) (key : string) : option card :=
  match h with
  | [] => None
  | (k, c) :: h' => if String.eqb k key then Some c else header_get h' key
  end.

Record SkyCoord : Type := mkSky { ra : Num.float; dec : Num.float }.

(** [EllipseSkyRegion(center, width, height, angle)]. *)
Record Region : Type := mkRegion {
  region_center : SkyCoord;
  region_width : Num.float;
  region_height : Num.float;
  region_angle : Num.float
}.

(** A row of the Gaia catalogue. *)
Record GaiaRow : Type := mkRow {
  row_coord : SkyCoord;
  phot_g_mean_mag : Num.float
}.

(** [self.stars]: the curated Gaia table, or the two columns read from a
    star file. *)
Inductive catalog : Type :=
| GaiaTable (rows : list GaiaRow)
| RaDecTable (rows : list SkyCoord).

Definition catalog_coords (c : catalog) : list SkyCoord :=
  match c with
  | GaiaTable rows => map row_coord rows
  | RaDecTable rows => rows
  end.

(** A row of the star table of [build_startable]. *)
Record StarRow : Type := mkStarRow {
  star_x : Num.float;
  star_y : Num.float;
  star_ra : Num.float;
  star_dec : Num.float
}.

Inductive file : Type :=
| FitsFile (hdus : list (ndarray * Header))
| AsciiFile (rows : list (Num.float * Num.float))
| Figure (name : string).

Definition Disk : Type := string -> option file.

Definition write_file (d : Disk) (path : string) (f : file) : Disk :=
  fun p => if String.eqb p path then Some f else d p.

(** A star cutout of photutils ([EPSFStar]). *)
Record Star : Type := mkStar {
  star_data : grid Num.float;
  cutout_center : Num.float * Num.float
}.

(** ** Collaborators

    What the two classes call and do not define: astropy ([WCS],
    [Cutout2D], units, regions), reproject, MPDAF, photutils, scipy, the
    Gaia service, and the helpers imported from [utils.py], which is not
    among the two files.  They are taken as total functions of their
    arguments (a failure inside one of them is outside the model);
    [Cutout2D] alone reports the one exception the code catches.

    Four conventions are read off the call sites: [remove_close_stars]
    gives the boolean index of [gaia_cat[good_stars]]; [find_peaks_2d]
    gives each peak as the pair [(peak[0], peak[1])]; [bin_image] gives
    the array of medians and the array of standard deviations of the
    blocks; [odr_run x y sx sy beta0] is [output.beta] of
    [ODR(RealData(x, y, sx=sx, sy=sy), Model(linear_function),
    beta0=beta0).run()], as the pair [(beta[0], beta[1])].
    [EPSFBuilder] gives the ePSF and the fitted stars with their
    [n_good_stars]. *)

Class Collab : Type := {
  Wcs : Type;
  Units : Type;
  Equivalency : Type;
  MImage : Type;
  Epsf : Type;
  StarPos : Type;
  FitItem : Type;
  Extra : Type;

  (* astropy.wcs *)
  WCS : Header -> Wcs;
  proj_plane_pixel_area : Wcs -> Num.float;
  proj_plane_pixel_scales : Wcs -> Num.float * Num.float;
  pixel_scale_matrix : Wcs -> (Num.float * Num.float) * (Num.float * Num.float);
  world_to_pixel : Wcs -> SkyCoord -> Num.float * Num.float;
  pixel_to_world : Wcs -> Num.float -> Num.float -> SkyCoord;
  footprint_contains : Wcs -> SkyCoord -> bool;
  (* regions, astropy.units *)
  region_contains : Region -> SkyCoord -> Wcs -> bool;
  units_eq : Units -> Units -> bool;
  unit_to : Units -> Units -> option Equivalency -> Num.float -> Num.float;
  (* reproject *)
  reproject_interp : ndarray -> Header -> Header -> ndarray;
  (* mpdaf.obj.Image *)
  mpdaf_open : file -> MImage;
  mpdaf_crop : MImage -> MImage;
  mpdaf_get_step : MImage -> Num.float * Num.float;
  mpdaf_shape : MImage -> Z * Z;
  mpdaf_resample : MImage -> Z * Z -> Num.float -> bool -> Z -> MImage;
  mpdaf_data : MImage -> ndarray;
  mpdaf_data_header : MImage -> Header;
  mpdaf_wcs : MImage -> Wcs;
  (* astropy.nddata.Cutout2D: [None] is [NoOverlapError] *)
  Cutout2D : ndarray -> SkyCoord -> Num.float -> Wcs -> option (ndarray * Wcs);
  (* photutils, astropy.stats, numpy *)
  extract_stars : ndarray -> list (Num.float * Num.float) -> Z -> list Star;
  sigma_clipped_stats : grid Num.float -> Num.float
                        -> Num.float * Num.float * Num.float;
  EPSFBuilder : Z -> Num.float -> Z -> list Star -> Epsf * (list Star * Z);
  epsf_evaluate : Epsf -> grid Num.float -> grid Num.float
                  -> Num.float -> Num.float -> Num.float -> grid Num.float;
  compute_residual_image : Star -> Epsf -> grid Num.float;
  median_axis0 : list (grid Num.float) -> grid Num.float;
  arctan2 : Num.float -> Num.float -> Num.float;
  pi : Num.float;
  (* scipy.ndimage, scipy.odr *)
  rotate : grid Num.float -> Num.float -> grid Num.float;
  zoom : grid Num.float -> Z -> grid Num.float;
  odr_run : list Num.float -> list Num.float -> list Num.float -> list Num.float
            -> Num.float * Num.float -> Num.float * Num.float;
  (* utils.py *)
  query_gaia : SkyCoord -> Num.float -> list GaiaRow;
  remove_close_stars : list SkyCoord -> list bool;
  find_peaks_2d : ndarray -> Num.float -> list (Num.float * Num.float);
  bin_image : ndarray -> Z -> grid Num.float * grid Num.float;
  locate_stars : ndarray -> option file -> Extra -> option StarPos * grid bool;
  star_pos_file : StarPos -> file;
  run_measure_psf :
    ndarray -> ndarray -> grid Num.float -> option StarPos -> grid bool
    -> grid bool -> Z -> string -> bool -> Num.float -> Num.float -> bool
    -> Num.float -> bool -> bool -> Z -> Num.float -> Num.float -> Extra
    -> list FitItem * option StarPos * grid bool
}.

Section Classes.

Context {C : Collab}.

(** ** The [Image] class *)

Record Image : Type := mkImage {
  filename : string;
  input_dir : string;
  output_dir : string;
  data : ndarray;
  header : Header;
  main_header : option Header;
  wcs : Wcs;
  units : Units;
  galaxy : option Region;
  debug : bool;
  psf : option (grid Num.float);
  stars : option catalog;
  (* set by [build_psf], [recover_SDSS_PSF] and [open_psf] only *)
  psfscale : option Num.float
}.

Definition set_data (d : ndarray) (i : Image) : Image :=
  mkImage (filename i) (input_dir i) (output_dir i) d (header i)
    (main_header i) (wcs i) (units i) (galaxy i) (debug i) (psf i) (stars i)
    (psfscale i).

Definition set_header (h : Header) (i : Image) : Image :=
  mkImage (filename i) (input_dir i) (output_dir i) (data i) h
    (main_header i) (wcs i) (units i) (galaxy i) (debug i) (psf i) (stars i)
    (psfscale i).

Definition set_wcs (w : Wcs) (i : Image) : Image :=
  mkImage (filename i) (input_dir i) (output_dir i) (data i) (header i)
    (main_header i) w (units i) (galaxy i) (debug i) (psf i) (stars i)
    (psfscale i).

Definition set_units (u : Units) (i : Image) : Image :=
  mkImage (filename i) (input_dir i) (output_dir i) (data i) (header i)
    (main_header i) (wcs i) u (galaxy i) (debug i) (psf i) (stars i)
    (psfscale i).

Definition set_galaxy (g : option Region) (i : Image) : Image :=
  mkImage (filename i) (input_dir i) (output_dir i) (data i) (header i)
    (main_header i) (wcs i) (units i) g (debug i) (psf i) (stars i)
    (psfscale i).

Definition set_psf (p : option (grid Num.float)) (i : Image) : Image :=
  mkImage (filename i) (input_dir i) (output_dir i) (data i) (header i)
    (main_header i) (wcs i) (units i) (galaxy i) (debug i) p (stars i)
    (psfscale i).

Definition set_stars (c : option catalog) (i : Image) : Image :=
  mkImage (filename i) (input_dir i) (output_dir i) (data i) (header i)
    (main_header i) (wcs i) (units i) (galaxy i) (debug i) (psf i) c
    (psfscale i).

Definition set_psfscale (s : option Num.float) (i : Image) : Image :=
  mkImage (filename i) (input_dir i) (output_dir i) (data i) (header i)
    (main_header i) (wcs i) (units i) (galaxy i) (debug i) (psf i) (stars i) s.

(** The state a method of [Image] runs in: the object and the files. *)
Record IState : Type := mkIState {
  self : Image;
  disk : Disk
}.

Definition on_self (f : Image -> Image) : M IState unit :=
  modify (fun s => mkIState (f (self s)) (disk s)).

Definition write (path : string) (f : file) : M IState unit :=
  modify (fun s => mkIState (self s) (write_file (disk s) path f)).

Definition the_self : M IState Image := fun s => Ok (self s) s.

Definition the_disk : M IState Disk := fun s => Ok (disk s) s.

Open Scope method_scope.

Definition Fz (z : Z) : Num.float := Num.Fin (inject_Z z).

(** [int(x)] of a float. *)
Definition to_int (x : Num.float) : M IState Z :=
  match x with
  | Num.Fin q => ret (Num.trunc q)
  | Num.NaN => raise (ValueError "cannot convert float NaN to integer")
  | _ => raise (OverflowError "cannot convert float infinity to integer")
  end.

(** *** [Image.resample] *)

Definition resample_pixscale (pixscale : option Num.float) (inplace : bool)
  : M IState (option (ndarray * Wcs * Header)) :=
  match pixscale with
  | Some p =>
      s <- the_self ;;
      d <- the_disk ;;
      let path := path_join (input_dir s) (filename s) in
      f <- orelse (d path) (FileNotFoundError path) ;;
      let image := mpdaf_crop (mpdaf_open f) in
      let scale := (Num.mul (fst (mpdaf_get_step image)) (Fz 3600),
                    Num.mul (snd (mpdaf_get_step image)) (Fz 3600)) in
      newdim_y <- to_int (Num.floordiv
                    (Num.mul (Fz (fst (mpdaf_shape image))) (fst scale)) p) ;;
      newdim_x <- to_int (Num.floordiv
                    (Num.mul (Fz (snd (mpdaf_shape image))) (snd scale)) p) ;;
      let image := mpdaf_resample image (newdim_y, newdim_x)
                     (Num.Fin (2 # 10)) true 3 in
      if inplace then
        on_self (set_data (mpdaf_data image)) ;;;
        on_self (set_header (mpdaf_data_header image)) ;;;
        on_self (set_wcs (mpdaf_wcs image)) ;;;
        ret None
      else
        ret (Some (mpdaf_data image, mpdaf_wcs image, mpdaf_data_header image))
  | None => ret None
  end.

Definition resample (hdr : option Header) (pixscale : option Num.float)
  (inplace : bool) : M IState (option (ndarray * Wcs * Header)) :=
  match hdr, pixscale with
  | None, None =>
      raise (ValueError "One between header and pixscale must be defined")
  | Some _, Some _ =>
      raise (ValueError "Only one between header and pixscale can be defined")
  | Some h, None =>
      s <- the_self ;;
      on_self (set_data (reproject_interp (data s) (header s) h)) ;;;
      let area_old := proj_plane_pixel_area (wcs s) in
      let area_new := proj_plane_pixel_area (WCS h) in
      let factor := Num.div area_new area_old in
      if inplace then
        on_self (fun i => set_data (amap (fun x => Num.mul x factor) (data i)) i) ;;;
        on_self (set_wcs (WCS h)) ;;;
        on_self (set_header h) ;;;
        resample_pixscale pixscale inplace
      else
        s' <- the_self ;;
        ret (Some (amap (fun x => Num.mul x factor) (data s'), WCS h, h))
  | None, Some _ => resample_pixscale pixscale inplace
  end.

(** *** [Image.mask_galaxy] (the debug plot is a sink) *)

Definition mask_galaxy (center : SkyCoord) (amax amin pa : Num.float)
  : M IState unit :=
  on_self (set_galaxy (Some (mkRegion center (Num.mul (Fz 2) amin)
                               (Num.mul (Fz 2) amax) pa))).

(** *** [Image.get_gaia_catalog] *)

Definition index_by {A : Type} (l : list A) (m : list bool) : M IState (list A) :=
  orelse (bool_index l m)
    (IndexError "boolean index did not match indexed array").

Definition margin : Z := 15.

Definition get_gaia_catalog (center : SkyCoord) (gmin gmax radius : Num.float)
  : M IState unit :=
  s <- the_self ;;
  let gaia_cat := query_gaia center radius in
  let coords := map row_coord gaia_cat in
  (* removing very nearby sources from the catalog *)
  let good_stars := remove_close_stars coords in
  gaia_cat <- index_by gaia_cat good_stars ;;
  coords <- index_by coords good_stars ;;
  (* selecting based on the G magnitude *)
  let mask1 := map (fun r => Num.leb gmin (phot_g_mean_mag r)
                             && Num.leb (phot_g_mean_mag r) gmax) gaia_cat in
  gaia_cat <- index_by gaia_cat mask1 ;;
  coords <- index_by coords mask1 ;;
  (* filter to remove objects near the edges of the image *)
  let xy := map (world_to_pixel (wcs s)) coords in
  let valid_x := map (fun p => Num.leb (Fz margin) (fst p)
                     && Num.ltb (fst p) (Fz (snd (shape (data s)) - margin))) xy in
  let valid_y := map (fun p => Num.leb (Fz margin) (snd p)
                     && Num.ltb (snd p) (Fz (fst (shape (data s)) - margin))) xy in
  let valid_mask := zip_with andb valid_x valid_y in
  (* making sure the stars are inside the image *)
  let inside := map (footprint_contains (wcs s)) coords in
  (* [mask2] is a local that is bound in the branch only *)
  let mask2 := match galaxy s with
               | Some g => Some (map (fun c => region_contains g c (wcs s)) coords)
               | None => None
               end in
  mask2 <- orelse mask2 (UnboundLocalError "mask2") ;;
  gaia_cat <- index_by gaia_cat
                (zip_with andb (zip_with andb inside (map negb mask2)) valid_mask) ;;
  on_self (set_stars (Some (GaiaTable gaia_cat))).

(** *** [Image.build_startable] *)

(** The body of the loop, first part: the cutout and the three tests on
    it.  [None] is [continue]; [Some cut] goes on to the peak detection. *)
Definition usable_cutout (data_ : ndarray) (wcs_ : Wcs) (coord : SkyCoord)
  : M IState (option (ndarray * Wcs)) :=
  match Cutout2D data_ coord (Fz 7) wcs_ with
  | None => ret None
  | Some cut =>
      if negb (truth (isfinite_all (fst cut))) then ret None
      else
        m <- orelse (mask (fst cut))
               (AttributeError "'numpy.ndarray' object has no attribute 'mask'") ;;
        if 5 <=? count_true m then ret None
        else ret (Some cut)
  end.

(** Second part: the peaks of the cutout and the centre chosen from them
    ([None] is [continue]). *)
Definition peak_threshold (a : ndarray) : Num.float :=
  Num.mul (Num.Fin (5 # 100)) (nanmax a).

Definition refined_center (a : ndarray) : option (Num.float * Num.float) :=
  let peaks := find_peaks_2d a (peak_threshold a) in
  if (1 <? length peaks)%nat then None
  else if (length peaks =? 0)%nat then
    let guess := unravel_index (argmax a) (shape a) in
    Some (Fz (fst guess), Fz (snd guess))
  else
    match peaks with
    | p :: _ => Some (fst p, snd p)
    | [] => None
    end.

Definition star_row (data_ : ndarray) (wcs_ : Wcs) (coord : SkyCoord)
  : M IState (option StarRow) :=
  c <- usable_cutout data_ wcs_ coord ;;
  match c with
  | None => ret None
  | Some cut =>
      match refined_center (fst cut) with
      | None => ret None
      | Some guess =>
          let newcoord := pixel_to_world (snd cut) (snd guess) (fst guess) in
          let newpix := world_to_pixel wcs_ newcoord in
          ret (Some (mkStarRow (fst newpix) (snd newpix)
                       (ra newcoord) (dec newcoord)))
      end
  end.

Fixpoint star_rows (data_ : ndarray) (wcs_ : Wcs) (coords : list SkyCoord)
  : M IState (list StarRow) :=
  match coords with
  | [] => ret []
  | coord :: rest =>
      r <- star_row data_ wcs_ coord ;;
      rs <- star_rows data_ wcs_ rest ;;
      ret (match r with Some row => row :: rs | None => rs end)
  end.

Definition build_startable (coords : list SkyCoord) (data_ : ndarray)
  (wcs_ : Wcs) (save show : bool) : M IState (list StarRow) :=
  stars_tbl <- star_rows data_ wcs_ coords ;;
  (* plotting some diagnostics results *)
  s <- the_self ;;
  _ <- orelse (galaxy s)
         (AttributeError "'NoneType' object has no attribute 'to_pixel'") ;;
  (if save
   then write (path_join (output_dir s)
                 (replace ".fits" ".stars.png" (filename s)))
              (Figure "stars")
   else ret tt) ;;;
  ret stars_tbl.

(** *** [Image.build_psf] *)

(** [np.indices(shape, dtype=float)]: the row index and the column index
    of every pixel. *)
Definition indices (shp : Z * Z) : grid Num.float * grid Num.float :=
  let rows := map Z.of_nat (seq 0 (Z.to_nat (fst shp))) in
  let cols := map Z.of_nat (seq 0 (Z.to_nat (snd shp))) in
  (map (fun i => map (fun _ => Fz i) cols) rows,
   map (fun _ => map Fz cols) rows).

(** The last step of the build: the kernel that is stored and written.
    The sum, the test and the division are those of [Num], exact on
    finite values where the code has doubles; the properties of the
    normalisation are stated for the kernels on which doubles do not
    round either: all zeros, or with an infinity or NaN. *)
Definition psf_flux (new_psf : grid Num.float) : Num.float :=
  Num.sum (concat new_psf).

Definition normalized (new_psf : grid Num.float) : grid Num.float :=
  if Num.ltb (Num.abs (Num.sub Num.one (psf_flux new_psf))) (Num.Fin (1 # 10000))
  then new_psf
  else gmap2 (fun x => Num.div x (psf_flux new_psf)) new_psf.

Definition psf_path (i : Image) : string :=
  path_join (output_dir i) (replace ".fits" ".psf.fits" (filename i)).

Definition stars_path (i : Image) : string :=
  path_join (output_dir i) (replace ".fits" ".stars.dat" (filename i)).

Definition psf_file (kernel : grid Num.float) (scale : Num.float) : file :=
  FitsFile [(plain kernel, [("PSFSCALE"%string, CardNum scale)])].

Definition subtract_background (star : Star) : Star :=
  let '(_, median, _) := sigma_clipped_stats (star_data star) (Fz 2) in
  mkStar (gmap2 (fun x => Num.sub x median) (star_data star))
         (cutout_center star).

(** The pixel grid the stars are measured on, and the scale recorded
    with the PSF. *)
Definition working_grid (pixscale : option Num.float) : M IState (ndarray * Wcs) :=
  match pixscale with
  | Some p =>
      r <- resample None (Some p) false ;;
      match r with
      | Some (d, w, _) => on_self (set_psfscale (Some p)) ;;; ret (d, w)
      | None => raise (TypeError "cannot unpack non-iterable NoneType object")
      end
  | None =>
      s <- the_self ;;
      on_self (set_psfscale (Some (Num.around
        (Num.mul (fst (proj_plane_pixel_scales (wcs s))) (Fz 3600)) 3))) ;;;
      ret (data s, wcs s)
  end.

(** The pixel positions of the stars: curated from Gaia and recentred, or
    read from a star file. *)
Definition star_positions (center : SkyCoord) (gmin gmax : Num.float)
  (stars_file : option string) (radius : Num.float) (data_ : ndarray)
  (wcs_ : Wcs) (save show : bool) : M IState (list (Num.float * Num.float)) :=
  match stars_file with
  | None =>
      get_gaia_catalog center gmin gmax radius ;;;
      s <- the_self ;;
      cat <- orelse (stars s)
               (TypeError "'NoneType' object is not subscriptable") ;;
      tbl <- build_startable (catalog_coords cat) data_ wcs_ save show ;;
      (* saving the table in ra and dec *)
      write (stars_path s)
        (AsciiFile (map (fun r => (star_ra r, star_dec r)) tbl)) ;;;
      ret (map (fun r => (star_x r, star_y r)) tbl)
  | Some sf =>
      d <- the_disk ;;
      f <- orelse (d sf) (FileNotFoundError sf) ;;
      rows <- match f with
              | AsciiFile rows => ret rows
              | _ => raise (ValueError "not a table of two columns")
              end ;;
      let cat := map (fun r => mkSky (fst r) (snd r)) rows in
      on_self (set_stars (Some (RaDecTable cat))) ;;;
      s <- the_self ;;
      ret (map (world_to_pixel (wcs s)) cat)
  end.

(** The stars handed to the builder, local background removed. *)
Definition cutouts (data_ : ndarray) (stars_tbl : list (Num.float * Num.float))
  (npix : Z) : list Star :=
  map subtract_background (extract_stars data_ stars_tbl npix).

(** What the builder returns for them. *)
Definition built (stars_ : list Star) (oversampling : Z)
  : Epsf * (list Star * Z) :=
  EPSFBuilder oversampling (Num.Fin (1 # 10)) 50 stars_.

Definition n_good_stars (stars_ : list Star) (oversampling : Z) : Z :=
  snd (snd (built stars_ oversampling)).

(** The ePSF evaluated on the grid of the first star. *)
Definition evaluated (epsf : Epsf) (star0 : Star) : grid Num.float :=
  let '(yy, xx) := indices (gshape (star_data star0)) in
  let xx := gmap2 (fun x => Num.sub x (fst (cutout_center star0))) xx in
  let yy := gmap2 (fun y => Num.sub y (snd (cutout_center star0))) yy in
  epsf_evaluate epsf xx yy Num.one Num.zero Num.zero.

(** From the star table on: build, check, normalise, store, write.  (The
    residual image is computed for the plot of [plot_psf] alone.) *)
Definition build_from (data_ : ndarray) (stars_tbl : list (Num.float * Num.float))
  (npix oversampling : Z) : M IState unit :=
  let stars_ := cutouts data_ stars_tbl npix in
  (* rebuilding the ePSF with the proper sampling *)
  let epsf := fst (built stars_ oversampling) in
  star0 <- orelse (hd_error stars_) (IndexError "list index out of range") ;;
  let new_psf := evaluated epsf star0 in
  (if 0 <? n_good_stars stars_ oversampling then ret tt
   else raise (SystemExit "No stars were used for the fit.")) ;;;
  (* saving the ePSF as a fits file, making sure it is normalized to 1 *)
  on_self (set_psf (Some (normalized new_psf))) ;;;
  s <- the_self ;;
  scale <- orelse (psfscale s)
             (AttributeError "'Image' object has no attribute 'psfscale'") ;;
  write (psf_path s) (psf_file (normalized new_psf) scale).

(** The two steps before the builder, with what they hand to it. *)
Definition build_inputs (center : SkyCoord) (gmin gmax : Num.float)
  (stars_file : option string) (radius : Num.float)
  (pixscale : option Num.float) (save show : bool)
  : M IState (ndarray * list (Num.float * Num.float)) :=
  dw <- working_grid pixscale ;;
  stars_tbl <- star_positions center gmin gmax stars_file radius
                 (fst dw) (snd dw) save show ;;
  ret (fst dw, stars_tbl).

Definition build_psf (center : SkyCoord) (gmin gmax : Num.float)
  (stars_file : option string) (radius : Num.float) (npix : Z)
  (pixscale : option Num.float) (oversampling : Z) (save show : bool)
  : M IState unit :=
  inp <- build_inputs center gmin gmax stars_file radius pixscale save show ;;
  build_from (fst inp) (snd inp) npix oversampling.

(** *** [Image.convert_units], [Image.open_psf]

    [open_psf] is modelled on the files the package writes, whose
    [PSFSCALE] card is a number.  A card that holds a string is stored as
    it is by the code; the model has no such scale and gives that case
    the outcome of the missing card, and no property below is stated
    for it. *)

Definition convert_units (out_units : Units) (equivalency : option Equivalency)
  : M IState unit :=
  s <- the_self ;;
  on_self (set_data (amap (unit_to (units s) out_units equivalency) (data s))) ;;;
  on_self (set_units out_units).

Definition open_psf (name : string) : M IState unit :=
  d <- the_disk ;;
  f <- orelse (d name) (FileNotFoundError name) ;;
  match f with
  | FitsFile ((psf_, head) :: _) =>
      on_self (set_psf (Some (values psf_))) ;;;
      match header_get head "PSFSCALE" with
      | Some (CardNum x) => on_self (set_psfscale (Some x))
      | _ => raise (KeyError "Keyword 'PSFSCALE' not found.")
      end
  | _ => raise (IndexError "list index out of range")
  end.

(** ** The [MUSEImage] class *)

Record MUSEImage : Type := mkMUSE {
  base : Image;
  scale : Num.float;
  region_dir : string;
  (* set by [measure_psf] only *)
  res : option (list FitItem);
  star_pos : option (option StarPos);
  starmask : option (grid bool);
  best_fit : option FitItem
}.

Definition set_base (i : Image) (m : MUSEImage) : MUSEImage :=
  mkMUSE i (scale m) (region_dir m) (res m) (star_pos m) (starmask m)
    (best_fit m).

Definition set_fit (r : list FitItem) (p : option StarPos) (k : grid bool)
  (m : MUSEImage) : MUSEImage :=
  mkMUSE (base m) (scale m) (region_dir m) (Some r) (Some p) (Some k)
    (best_fit m).

Definition set_best_fit (b : FitItem) (m : MUSEImage) : MUSEImage :=
  mkMUSE (base m) (scale m) (region_dir m) (res m) (star_pos m) (starmask m)
    (Some b).

(** The state of a method that is given a reference image: the MUSE
    object, the reference object, the files. *)
Record MState : Type := mkMState {
  muse : MUSEImage;
  reference : Image;
  mdisk : Disk
}.

Definition the_muse : M MState MUSEImage := fun s => Ok (muse s) s.
Definition the_reference : M MState Image := fun s => Ok (reference s) s.
Definition the_mdisk : M MState Disk := fun s => Ok (mdisk s) s.

Definition on_muse (f : MUSEImage -> MUSEImage) : M MState unit :=
  modify (fun s => mkMState (f (muse s)) (reference s) (mdisk s)).

Definition mwrite (path : string) (f : file) : M MState unit :=
  modify (fun s => mkMState (muse s) (reference s) (write_file (mdisk s) path f)).

(** A method of [Image] called on the reference object. *)
Definition on_reference {A : Type} (m : M IState A) : M MState A :=
  fun s =>
    match m (mkIState (reference s) (mdisk s)) with
    | Ok a s' => Ok a (mkMState (muse s) (self s') (disk s'))
    | Raise e s' => Raise e (mkMState (muse s) (self s') (disk s'))
    end.

(** *** [MUSEImage.get_rot] *)

Definition get_rot (m : MUSEImage) : Num.float :=
  let cd_matrix := pixel_scale_matrix (wcs (base m)) in
  let theta_rad := arctan2 (Num.neg (snd (fst cd_matrix))) (snd (snd cd_matrix)) in
  Num.div (Num.mul theta_rad (Fz 180)) pi.

(** *** [MUSEImage.check_flux_calibration] *)

(** The [reference] argument: an array, or the reference [Image] itself
    (to be used with [resample=True]). *)
Inductive ref_arg : Type :=
| RefArray (a : ndarray)
| RefImage.

(** [~isnan(m) & ~isnan(r) & (m != 0) & (r != 0)] *)
Definition valid_block (m r : Num.float) : bool :=
  negb (Num.isnan m) && negb (Num.isnan r)
  && Num.neb m Num.zero && Num.neb r Num.zero.

Definition calibrated (gamma offset : Num.float) (x : Num.float) : Num.float :=
  Num.add (Num.mul gamma x) offset.

Definition broadcast_error : exn :=
  ValueError "operands could not be broadcast together".

Definition mask_error : exn :=
  IndexError "boolean index did not match indexed array".

Definition check_flux_calibration (ref : ref_arg) (bin_size : Z)
  (plot save show resample_ : bool) : M MState unit :=
  ref <- (if resample_ then
            match ref with
            | RefImage =>
                m <- the_muse ;;
                on_reference (resample (Some (header (base m))) None true) ;;;
                r <- the_reference ;;
                ret (data r)
            | RefArray _ =>
                raise (AttributeError
                         "'numpy.ndarray' object has no attribute 'resample'")
            end
          else
            match ref with
            | RefArray a => ret a
            | RefImage => raise (TypeError "an Image is not an array")
            end) ;;
  m <- the_muse ;;
  let '(MUSE_median, MUSE_std) := bin_image (data (base m)) bin_size in
  let '(reference_median, reference_std) := bin_image ref bin_size in
  (* removing nans and 0s *)
  valid_mask <- orelse (gzip valid_block MUSE_median reference_median)
                  broadcast_error ;;
  MUSE_median <- orelse (gselect MUSE_median valid_mask) mask_error ;;
  MUSE_std <- orelse (gselect MUSE_std valid_mask) mask_error ;;
  reference_median <- orelse (gselect reference_median valid_mask) mask_error ;;
  reference_std <- orelse (gselect reference_std valid_mask) mask_error ;;
  (* using scipy ODR because I have errors on the x and y measurements *)
  let beta := odr_run MUSE_median reference_median MUSE_std reference_std
                (Num.one, Num.zero) in
  (if plot && save
   then mwrite (path_join (output_dir (base m))
                  (replace ".fits" "_scatter.png" (filename (base m))))
               (Figure "scatter")
   else ret tt) ;;;
  _ <- orelse (gzip Num.div (values (data (base m))) (values ref))
         broadcast_error ;;
  on_muse (fun m => set_base
     (set_data (amap (calibrated (fst beta) (snd beta)) (data (base m))) (base m))
     m).

(** *** [MUSEImage.measure_psf] *)

(** [**kwargs]: the keys the method pops, and whatever else is passed on
    to [locate_stars] and [run_measure_psf]. *)
Record Kwargs : Type := mkKwargs {
  kw_edge : option Z;
  kw_dx0 : option Num.float;
  kw_dy0 : option Num.float;
  kw_fwhm0 : option Num.float;
  kw_mask_stars : option bool;
  kw_rest : Extra
}.

Definition pop {A : Type} (o : option A) (default : A) : A :=
  match o with Some a => a | None => default end.

Definition assert {S : Type} (b : bool) (msg : string) : M S unit :=
  if b then ret tt else raise (AssertionError msg).

Definition card_is (c : card) (s : string) : bool :=
  match c with CardStr t => String.eqb t s | CardNum _ => false end.

Definition target_scale (m : MUSEImage) : Num.float :=
  Num.around (Num.mul (fst (proj_plane_pixel_scales (wcs (base m)))) (Fz 3600)) 3.

(** The three assertions that open the method. *)
Definition preconditions : M MState unit :=
  m <- the_muse ;;
  r <- the_reference ;;
  assert (units_eq (units (base m)) (units r))
    "The two images are not in the same units" ;;;
  assert (match psf r with Some _ => true | None => false end)
    "The reference PSF is missing" ;;;
  ps <- orelse (psfscale r)
          (AttributeError "'Image' object has no attribute 'psfscale'") ;;
  assert (Num.eqb ps (target_scale m))
    "The PSF has been created with a different pixel scale".

Definition nan_to_zero (x : Num.float) : Num.float :=
  if Num.isnan x then Num.zero else x.

(** The method after the reference has been resampled. *)
Definition fit_resampled (fit_alpha plot save show offset : bool)
  (oversample : option Z) (kwargs : Kwargs) : M MState unit :=
  m <- the_muse ;;
  (* where the image is zero or NaN, to erode it before minimization *)
  let zeromask := gmap2 (fun x => Num.eqb x Num.zero || negb (Num.isfinite x))
                    (values (data (base m))) in
  (* rescaling the flux *)
  r <- the_reference ;;
  check_flux_calibration (RefArray (data r)) 15 plot save show false ;;;
  m <- the_muse ;;
  let figname := path_join (output_dir (base m))
                   (replace ".fits" "_final.png" (filename (base m))) in
  mh <- orelse (main_header (base m))
          (TypeError "'NoneType' object is not subscriptable") ;;
  tpl <- orelse (header_get mh "HIERARCH ESO TPL ID")
           (KeyError "Keyword 'HIERARCH ESO TPL ID' not found.") ;;
  let alpha := if card_is tpl "MUSE_wfm-ao_obs_genericoffsetLGS"
               then Num.Fin (23 # 10) else Num.Fin (28 # 10) in
  let edge := pop (kw_edge kwargs) 50 in
  let dx0 := pop (kw_dx0 kwargs) Num.zero in
  let dy0 := pop (kw_dy0 kwargs) Num.zero in
  let fwhm0 := pop (kw_fwhm0 kwargs) (Num.Fin (8 # 10)) in
  let data_ := data (base m) in
  let reg_name := path_join (region_dir m)
                    (replace ".fits" "_regions.reg" (filename (base m))) in
  let mask_stars := pop (kw_mask_stars kwargs) true in
  located <- (if mask_stars then
                d <- the_mdisk ;;
                match d reg_name with
                | Some f => ret (locate_stars data_ (Some f) (kw_rest kwargs))
                | None =>
                    let found := locate_stars data_ None (kw_rest kwargs) in
                    match fst found with
                    | Some p => mwrite reg_name (star_pos_file p)
                    | None => ret tt
                    end ;;;
                    ret found
                end
              else ret (None, gmap2 (fun _ => false) (values data_))) ;;
  (* get the rotation of the image, apply it to the PSF *)
  let img_rot := get_rot m in
  r <- the_reference ;;
  ref_psf <- orelse (psf r) (TypeError "the reference PSF is None") ;;
  let psf_ := if Num.neb img_rot Num.zero then rotate ref_psf img_rot
              else ref_psf in
  match (match oversample with Some o => 1 <? o | None => false end),
        oversample with
  | true, Some o =>
      (* [data[np.isnan(data)] = 0] writes into the array of [self.data] *)
      on_muse (fun m => set_base (set_data (amap nan_to_zero (data (base m)))
                                    (base m)) m) ;;;
      let o2 := Fz (o * o) in
      let data_ := plain (gmap2 (fun x => Num.div x o2)
                            (zoom (gmap2 nan_to_zero (values data_)) o)) in
      let ref_data := plain (gmap2 (fun x => Num.div x o2)
                               (zoom (values (data r)) o)) in
      let psf_ := zoom psf_ o in
      let psf_ := gmap2 (fun x => Num.div x (Num.sum (concat psf_))) psf_ in
      let scale_ := Num.div (scale m) (Fz o) in
      let out := run_measure_psf data_ ref_data psf_ (fst located) (snd located)
                   zeromask o figname fit_alpha alpha fwhm0 offset scale_
                   plot save edge dx0 dy0 (kw_rest kwargs) in
      on_muse (set_fit (fst (fst out)) (snd (fst out)) (snd out)) ;;;
      b <- orelse (hd_error (fst (fst out))) (IndexError "index out of range") ;;
      on_muse (set_best_fit b)
  | _, _ =>
      let out := run_measure_psf data_ (data r) psf_ (fst located) (snd located)
                   zeromask 1 figname fit_alpha alpha fwhm0 offset (scale m)
                   plot save edge dx0 dy0 (kw_rest kwargs) in
      on_muse (set_fit (fst (fst out)) (snd (fst out)) (snd out)) ;;;
      b <- orelse (hd_error (fst (fst out))) (IndexError "index out of range") ;;
      on_muse (set_best_fit b)
  end.

Definition measure_psf (fit_alpha plot save show offset : bool)
  (oversample : option Z) (kwargs : Kwargs) : M MState unit :=
  preconditions ;;;
  (* resampling the reference to the MUSE WCS *)
  m <- the_muse ;;
  on_reference (resample (Some (header (base m))) None true) ;;;
  fit_resampled fit_alpha plot save show offset oversample kwargs.

(** ** Notions used in the statements *)

(** What a method hands back: its value, or the exception. *)
Definition returned {S A : Type} (o : outcome S A) : A + exn :=
  match o with Ok a _ => inl a | Raise e _ => inr e end.

Definition area_ratio (i : Image) (h : Header) : Num.float :=
  Num.div (proj_plane_pixel_area (WCS h)) (proj_plane_pixel_area (wcs i)).

(** The image after [resample(header=h)] in place. *)
Definition resampled_onto (h : Header) (i : Image) : Image :=
  set_header h (set_wcs (WCS h)
    (set_data (amap (fun x => Num.mul x (area_ratio i h))
                 (reproject_interp (data i) (header i) h)) i)).

(** The MPDAF image of [resample(pixscale=p)], from the file alone. *)
Definition mpdaf_newdim (image : MImage) (p : Num.float) : Num.float * Num.float :=
  (Num.floordiv (Num.mul (Fz (fst (mpdaf_shape image)))
                   (Num.mul (fst (mpdaf_get_step image)) (Fz 3600))) p,
   Num.floordiv (Num.mul (Fz (snd (mpdaf_shape image)))
                   (Num.mul (snd (mpdaf_get_step image)) (Fz 3600))) p).

(** [int(x)], as a value. *)
Definition int_of_float (x : Num.float) : Z + exn :=
  match x with
  | Num.Fin q => inl (Num.trunc q)
  | Num.NaN => inr (ValueError "cannot convert float NaN to integer")
  | _ => inr (OverflowError "cannot convert float infinity to integer")
  end.

(** The image MPDAF makes of a file for the pixel scale [p], or the
    exception of the size computation. *)
Definition mpdaf_resampled (f : file) (p : Num.float) : MImage + exn :=
  let image := mpdaf_crop (mpdaf_open f) in
  match int_of_float (fst (mpdaf_newdim image p)) with
  | inr e => inr e
  | inl newdim_y =>
      match int_of_float (snd (mpdaf_newdim image p)) with
      | inr e => inr e
      | inl newdim_x =>
          inl (mpdaf_resample image (newdim_y, newdim_x) (Num.Fin (2 # 10)) true 3)
      end
  end.

Definition image_path (i : Image) : string :=
  path_join (input_dir i) (filename i).

Definition with_mpdaf (image : MImage) (i : Image) : Image :=
  set_wcs (mpdaf_wcs image)
    (set_header (mpdaf_data_header image) (set_data (mpdaf_data image) i)).

(** A cutout that the loop drops before the peak detection: some pixel
    that is not flagged is not finite, or every pixel is flagged, or five
    pixels or more are flagged. *)
Definition rejected (a : ndarray) (m : grid bool) : Prop :=
  (exists x, In x (unmasked a) /\ Num.isfinite x = false)
  \/ (concat m <> [] /\ Forall (fun b => b = true) (concat m))
  \/ 5 <= count_true m.

Definition not_nan (x : Num.float) : Prop := Num.isnan x = false.

(** A method that keeps the relation [R] between the state it starts in
    and the state it ends in, returning or raising. *)
Definition keeps {S A : Type} (R : S -> S -> Prop) (m : M S A) : Prop :=
  forall s, R s (final_state (m s)).

(** No FITS file on the second disk that was not on the first. *)
Definition no_new_fits (d d1 : Disk) : Prop :=
  forall p hdus, d1 p = Some (FitsFile hdus) -> d p = Some (FitsFile hdus).

Definition psf_untouched (s s1 : IState) : Prop :=
  psf (self s1) = psf (self s) /\ no_new_fits (disk s) (disk s1).

Definition same_psfscale (s s1 : IState) : Prop :=
  psfscale (self s1) = psfscale (self s).

Definition unchanged (s s1 : IState) : Prop := s1 = s.

(** The three checks of [measure_psf], as one test. *)
Definition fit_preconditions (s : MState) : bool :=
  units_eq (units (base (muse s))) (units (reference s))
  && match psf (reference s) with Some _ => true | None => false end
  && match psfscale (reference s) with
     | Some ps => Num.eqb ps (target_scale (muse s))
     | None => false
     end.

Definition same_reference (s s1 : MState) : Prop :=
  reference s1 = reference s.

(** The test of a block, on the pair of its two medians. *)
Definition valid_pair (p : Num.float * Num.float) : bool :=
  valid_block (fst p) (snd p).

(** A built kernel the normalisation cannot bring to a flux of 1: every
    pixel is zero, or some pixel is an infinity or NaN. *)
Definition degenerate (g : grid Num.float) : Prop :=
  (concat g <> [] /\ Forall (fun x => Num.eqb x Num.zero = true) (concat g))
  \/ Exists (fun x => Num.isfinite x = false) (concat g).

(* statement-notions-end *)

End Classes.

(** ** A small instance of the collaborators

    Used to run the methods on concrete inputs: a sky that is its own
    pixel grid, a reprojection that falls outside the footprint (all
    NaN), blocks of one pixel, and a regression that always answers
    [gamma = 2, offset = 1].  The cutout, the peaks, the built kernel and
    the number of good stars are left to choose. *)

Definition first_hdu (f : file) : ndarray * Header :=
  match f with
  | FitsFile (h :: _) => h
  | _ => (plain [], [])
  end.

Definition arcsec02 : Num.float := Num.Fin (2 # 36000).

Definition toy (cut : option ndarray) (peaks : list (Num.float * Num.float))
  (kernel : grid Num.float) (n_good : Z) : Collab := {|
  Wcs := unit;
  Units := string;
  Equivalency := unit;
  MImage := file;
  Epsf := unit;
  StarPos := unit;
  FitItem := Num.float;
  Extra := unit;
  WCS := fun _ => tt;
  proj_plane_pixel_area := fun _ => Num.one;
  proj_plane_pixel_scales := fun _ => (arcsec02, arcsec02);
  pixel_scale_matrix := fun _ => ((arcsec02, Num.zero), (Num.zero, arcsec02));
  world_to_pixel := fun _ c => (ra c, dec c);
  pixel_to_world := fun _ x y => mkSky x y;
  footprint_contains := fun _ _ => true;
  region_contains := fun _ _ _ => false;
  units_eq := String.eqb;
  unit_to := fun _ _ _ x => Num.mul x (Num.Fin 10);
  reproject_interp := fun d _ _ => plain (gmap2 (fun _ => Num.NaN) (values d));
  mpdaf_open := fun f => f;
  mpdaf_crop := fun f => f;
  mpdaf_get_step := fun _ => (arcsec02, arcsec02);
  mpdaf_shape := fun f => shape (fst (first_hdu f));
  mpdaf_resample := fun f _ _ _ _ => f;
  mpdaf_data := fun f => fst (first_hdu f);
  mpdaf_data_header := fun f => snd (first_hdu f);
  mpdaf_wcs := fun _ => tt;
  Cutout2D := fun _ _ _ _ =>
    match cut with Some a => Some (a, tt) | None => None end;
  extract_stars := fun _ tbl _ =>
    map (fun _ => mkStar [[Num.one]] (Num.zero, Num.zero)) tbl;
  sigma_clipped_stats := fun _ _ => (Num.zero, Num.zero, Num.zero);
  EPSFBuilder := fun _ _ _ st => (tt, (st, n_good));
  epsf_evaluate := fun _ _ _ _ _ _ => kernel;
  compute_residual_image := fun _ _ => [[Num.zero]];
  median_axis0 := fun l => hd [] l;
  arctan2 := fun _ _ => Num.zero;
  pi := Num.Fin (355 # 113);
  rotate := fun p _ => p;
  zoom := fun g _ => g;
  odr_run := fun _ _ _ _ _ => (Num.Fin 2, Num.Fin 1);
  query_gaia := fun c _ => [mkRow c (Num.Fin 15)];
  remove_close_stars := map (fun _ => true);
  find_peaks_2d := fun _ _ => peaks;
  bin_image := fun a _ => (values a, gmap2 (fun _ => Num.one) (values a));
  locate_stars := fun _ _ _ => (None, []);
  star_pos_file := fun _ => AsciiFile [];
  run_measure_psf := fun _ _ _ _ _ _ _ _ _ _ _ _ _ _ _ _ _ _ _ =>
    ([Num.Fin (8 # 10)], None, [])
|}.

(** A 3 x 3 cutout, all finite, with exactly five flagged pixels. *)
Definition ones3 : grid Num.float :=
  [[Num.one; Num.one; Num.one];
   [Num.one; Num.Fin 9; Num.one];
   [Num.one; Num.one; Num.one]].

Definition five_flags : grid bool :=
  [[true; true; true]; [true; false; false]; [true; false; false]].

Definition cut5 : ndarray := mkArray ones3 (Some five_flags).

Definition four_flags : grid bool :=
  [[true; true; true]; [true; false; false]; [false; false; false]].

Definition cut4 : ndarray := mkArray ones3 (Some four_flags).

(** The same cutout with one NaN pixel, which is flagged. *)
Definition nan_corner : grid Num.float :=
  [[Num.NaN; Num.one; Num.one];
   [Num.one; Num.Fin 9; Num.one];
   [Num.one; Num.one; Num.one]].

Definition corner_flag : grid bool :=
  [[true; false; false]; [false; false; false]; [false; false; false]].

Definition cut_nan : ndarray := mkArray nan_corner (Some corner_flag).

Definition toy0 : Collab := toy None [] [[Num.one]] 1.

Open Scope string_scope.

(** A 2 x 2 image on disk and in memory. *)
Definition pixels : ndarray :=
  plain [[Num.Fin 1; Num.Fin 2]; [Num.Fin 3; Num.Fin 4]].

Definition image_header : Header := [("BUNIT", CardStr "adu")].

Definition muse_header : Header :=
  [("BUNIT", CardStr "adu"); ("EXTNAME", CardStr "DATA")].

Definition primary_header : Header :=
  [("HIERARCH ESO TPL ID", CardStr "MUSE_wfm-noao_obs_genericoffset")].

Definition image0 {C : Collab} (w : Wcs) (u : Units) : Image :=
  mkImage "img.fits" "./" "./" pixels image_header None w u None false None
    None None.

Definition disk0 : Disk :=
  fun p => if String.eqb p "./img.fits"
           then Some (FitsFile [(pixels, image_header)])
           else if String.eqb p "stars.dat"
           then Some (AsciiFile [(Num.Fin 1, Num.Fin 1)])
           else None.

Definition state0 (C : Collab) (w : @Wcs C) (u : @Units C) : @IState C :=
  mkIState (image0 w u) disk0.

Close Scope string_scope.

(** The same instance with a cutout of five flagged pixels, of four, of
    one flagged NaN, with a kernel of flux 4, with a blank kernel, and
    with no good star. *)
Definition toy_five : Collab := toy (Some cut5) [] [[Num.one]] 1.
Definition toy_four : Collab := toy (Some cut4) [] [[Num.one]] 1.
Definition toy_nan : Collab := toy (Some cut_nan) [] [[Num.one]] 1.
Definition toy_flux4 : Collab := toy None [] [[Num.one; Num.Fin 3]] 1.
Definition toy_blank : Collab :=
  toy None [] [[Num.zero; Num.zero]; [Num.zero; Num.zero]] 1.
Definition toy_no_good : Collab := toy None [] [[Num.one]] 0.

Definition here : SkyCoord := mkSky Num.one Num.one.

Definition scale02 : Num.float := Num.Fin (2 # 10).

(** The image with the scale of its PSF recorded. *)
Definition state_scaled (C : Collab) (w : @Wcs C) (u : @Units C) : @IState C :=
  mkIState (set_psfscale (Some scale02) (image0 w u)) disk0.

(** The state of [state0] after the two steps before the builder, with
    the stars read from the star file. *)
Definition state_inputs (C : Collab) (w : @Wcs C) (u : @Units C) : @IState C :=
  mkIState
    (set_stars (Some (RaDecTable [here]))
       (set_psfscale
          (Some (Num.around (Num.mul arcsec02 (Fz 3600)) 3)) (image0 w u)))
    disk0.

Open Scope string_scope.

(** A MUSE image with a pixel at zero and a NaN, and two references: one
    that carries a PSF made at 0.2 arcsec per pixel, one that has none. *)
Definition muse_pixels : ndarray :=
  plain [[Num.Fin 1; Num.zero]; [Num.NaN; Num.Fin 4]].

Definition muse0 (C : Collab) (w : @Wcs C) (u : @Units C) : @MUSEImage C :=
  mkMUSE
    (mkImage "muse.fits" "./" "./" muse_pixels muse_header
       (Some primary_header) w u None false None None None)
    scale02 "./regions" None None None None.

Definition reference_with_psf (C : Collab) (w : @Wcs C) (u : @Units C)
  : @Image C :=
  set_psfscale (Some scale02) (set_psf (Some [[Num.one]]) (image0 w u)).

Definition fit_state (C : Collab) (w : @Wcs C) (u : @Units C) : @MState C :=
  mkMState (muse0 C w u) (reference_with_psf C w u) disk0.

Definition fit_state_no_psf (C : Collab) (w : @Wcs C) (u : @Units C)
  : @MState C :=
  mkMState (muse0 C w u) (image0 w u) disk0.

Definition no_kwargs (C : Collab) (rest : @Extra C) : @Kwargs C :=
  mkKwargs None None None None None rest.

Close Scope string_scope.

(** ** The rest of the two classes *)

Section Construction.

Context {C : Collab}.

Open Scope method_scope.

(** [u.Unit(card)] ([None] is the [ValueError] of a value that is no
    unit) and the product with [u.pix]. *)
Variable Unit : card -> option Units.
Variable times_pix : Units -> Units.

(** [hdu[i]]: a negative index counts from the end. *)
Definition hdu_at (hdus : list (ndarray * Header)) (i : Z)
  : option (ndarray * Header) :=
  if 0 <=? i then nth_error hdus (Z.to_nat i)
  else if 0 <=? Z.of_nat (length hdus) + i
       then nth_error hdus (Z.to_nat (Z.of_nat (length hdus) + i))
       else None.

(** What [Image(...)] leaves: an object with every attribute, or one on
    which [units] was not set, or an exception ([NotFits] is the
    [OSError] of [fits.open] on a file that is no FITS file). *)
Inductive constructed : Type :=
| Built (i : Image)
| BuiltWithoutUnits (rest : Units -> Image)
| NotBuilt (e : exn)
| NotFits.

(** *** [Image.__init__], on a FITS file *)

Definition init (filename_ input_dir_ output_dir_ : string) (datahdu : Z)
  (headerhdu : option Z) (debug_ : bool) (units_ : option Units) (d : Disk)
  : constructed :=
  let path := path_join input_dir_ filename_ in
  match d path with
  | Some (FitsFile hdus) =>
      match hdu_at hdus datahdu with
      | None => NotBuilt (IndexError "list index out of range")
      | Some (data_, header_) =>
          let finish (main : option Header) : constructed :=
            let rest := fun u =>
              mkImage filename_ input_dir_ output_dir_ data_ header_ main
                (WCS header_) u None debug_ None None None in
            match units_ with
            | Some u => Built (rest u)
            | None =>
                match header_get header_ "BUNIT" with
                | None => NotBuilt (KeyError "Keyword 'BUNIT' not found.")
                | Some c =>
                    match Unit c with
                    | Some u => Built (rest (times_pix u))
                    | None => BuiltWithoutUnits rest
                    end
                end
            end in
          match headerhdu with
          | None => finish None
          | Some k =>
              match hdu_at hdus k with
              | None => NotBuilt (IndexError "list index out of range")
              | Some (_, main) => finish (Some main)
              end
          end
      end
  | Some _ => NotFits
  | None => NotBuilt (FileNotFoundError path)
  end.

(** *** [Image.recover_SDSS_PSF]

    [create_sdss_psf] and [plot_psf] are helpers of [utils.py]: each
    either returns or raises, and both are called after [self.psfscale]
    has been assigned, the second one after [self.psf] too. *)

Variable create_sdss_psf :
  ndarray -> Header -> string -> Num.float -> grid Num.float + exn.
Variable plot_psf :
  grid Num.float -> string -> string -> bool -> bool -> option exn.

Definition recover_SDSS_PSF (save show : bool) (pixscale : option Num.float)
  : M IState unit :=
  dh <- match pixscale with
        | Some p =>
            r <- resample None (Some p) false ;;
            match r with
            | Some (d, _, h) => on_self (set_psfscale (Some p)) ;;; ret (d, h)
            | None => raise (TypeError "cannot unpack non-iterable NoneType object")
            end
        | None =>
            s <- the_self ;;
            on_self (set_psfscale (Some (Num.around
              (Num.mul (fst (proj_plane_pixel_scales (wcs s))) (Fz 3600)) 3))) ;;;
            ret (data s, header s)
        end ;;
  s <- the_self ;;
  scale <- orelse (psfscale s)
             (AttributeError "'Image' object has no attribute 'psfscale'") ;;
  new_psf <- match create_sdss_psf (fst dh) (snd dh) (output_dir s) scale with
             | inl k => ret k
             | inr e => raise e
             end ;;
  on_self (set_psf (Some (normalized new_psf))) ;;;
  match plot_psf new_psf (output_dir s)
          (replace ".fits" ".psf.png" (filename s)) save show with
  | Some e => raise e
  | None => ret tt
  end ;;;
  write (psf_path s) (psf_file (normalized new_psf) scale).

End Construction.

Section StatementNotions.

Context {C : Collab}.

(** The tests of the curation, on a row of the catalogue. *)
Definition in_magnitude (gmin gmax : Num.float) (r : GaiaRow) : bool :=
  Num.leb gmin (phot_g_mean_mag r) && Num.leb (phot_g_mean_mag r) gmax.

Definition away_from_edges (i : Image) (r : GaiaRow) : bool :=
  let p := world_to_pixel (wcs i) (row_coord r) in
  (Num.leb (Fz margin) (fst p)
   && Num.ltb (fst p) (Fz (snd (shape (data i)) - margin)))
  && (Num.leb (Fz margin) (snd p)
      && Num.ltb (snd p) (Fz (fst (shape (data i)) - margin))).

Definition well_placed (i : Image) (g : Region) (r : GaiaRow) : bool :=
  footprint_contains (wcs i) (row_coord r)
  && negb (region_contains g (row_coord r) (wcs i))
  && away_from_edges i r.

(** The rows the proximity mask keeps. *)
Definition isolated (center : SkyCoord) (radius : Num.float) : list GaiaRow :=
  select (query_gaia center radius)
    (remove_close_stars (map row_coord (query_gaia center radius))).

(** The array with its flagged elements filled with the smallest value,
    as [argmax] sees it. *)
Definition filled (a : ndarray) : grid Num.float :=
  match mask a with
  | None => values a
  | Some m =>
      zip_with (zip_with (fun x (b : bool) => if b then Num.NInf else x))
        (values a) m
  end.

Definition pixel_at {A : Type} (g : grid A) (r c : nat) : option A :=
  match nth_error g r with
  | Some row => nth_error row c
  | None => None
  end.

(** A rectangular grid of [n] columns. *)
Definition rectangular {A : Type} (n : nat) (g : grid A) : Prop :=
  Forall (fun row => length row = n) g.

End StatementNotions.

(** Whether [old] occurs in [s]. *)
Fixpoint occurs (old s : string) : bool :=
  match s with
  | EmptyString => String.prefix old EmptyString
  | String _ rest => String.prefix old s || occurs old rest
  end.

Open Scope string_scope.

(** An image whose file name has no ".fits" in it. *)
Definition fit_image {C : Collab} (w : Wcs) (u : Units) : Image :=
  mkImage "img.fit" "./" "./" pixels image_header None w u None false None
    None (Some scale02).

Definition fit_disk : Disk :=
  fun p => if String.eqb p "./img.fit"
           then Some (FitsFile [(pixels, image_header)])
           else None.

(** A disk with a PSF file that carries no scale. *)
Definition unscaled_psf_disk : Disk :=
  fun p => if String.eqb p "bare.psf.fits"
           then Some (FitsFile [(plain [[Num.Fin 7]], [])])
           else disk0 p.

(** The image of [image0] with an exclusion region around the origin. *)
Definition region0 : Region :=
  mkRegion (mkSky Num.zero Num.zero) Num.one Num.one Num.zero.

(** A unit parser that knows "adu" only. *)
Definition adu_only (c : card) : option string :=
  match c with
  | CardStr s => if String.eqb s "adu" then Some s else None
  | CardNum _ => None
  end.

Definition per_pix (u : string) : string := u ++ " pix".

Definition no_bunit_disk : Disk :=
  fun p => if String.eqb p "./bare.fits"
           then Some (FitsFile [(pixels, [])])
           else None.

Close Scope string_scope.

(** A 40 x 40 image with an exclusion region, and a star in its middle. *)
Definition wide_pixels : ndarray := plain (repeat (repeat Num.one 40) 40).

Definition wide_state (C : Collab) (w : @Wcs C) (u : @Units C) : @IState C :=
  mkIState
    (mkImage "wide.fits"%string "./"%string "./"%string wide_pixels
       image_header None w u (Some region0) false None None None)
    disk0.

Definition middle : SkyCoord := mkSky (Num.Fin 20) (Num.Fin 20).

(** The instance whose cutouts are plain arrays. *)
Definition toy_plain : Collab := toy (Some pixels) [] [[Num.one]] 1.

Definition same_galaxy {C : Collab} (s s1 : IState) : Prop :=
  galaxy (self s1) = galaxy (self s).

(** Whether [measure_psf] takes its oversampling branch. *)
Definition oversampled (oversample : option Z) : bool :=
  match oversample with Some o => 1 <? o | None => false end.

Open Scope string_scope.

(** The MUSE image of [fit_state] read without its primary header. *)
Definition headless_state (C : Collab) (w : @Wcs C) (u : @Units C) : @MState C :=
  mkMState
    (mkMUSE
       (mkImage "muse.fits" "./" "./" muse_pixels muse_header None w u None
          false None None None)
       scale02 "./regions" None None None None)
    (reference_with_psf C w u) disk0.

Close Scope string_scope.

(** What the three checks of [measure_psf] read. *)
Definition same_checked {C : Collab} (s s1 : MState) : Prop :=
  units (base (muse s1)) = units (base (muse s))
  /\ wcs (base (muse s1)) = wcs (base (muse s))
  /\ units (reference s1) = units (reference s)
  /\ psf (reference s1) = psf (reference s)
  /\ psfscale (reference s1) = psfscale (reference s).

(** * Properties *)

Unset Implicit Arguments.

(** ** Resampling *)

Section ResampleProperties.

Context {C : Collab}.

Lemma resample_header_inplace (i : Image) (d : Disk) (h : Header) :
  resample (Some h) None true (mkIState i d)
  = Ok None (mkIState (resampled_onto h i) d).
Proof. destruct i; reflexivity. Qed.

Lemma resample_header_copy (i : Image) (d : Disk) (h : Header) :
  resample (Some h) None false (mkIState i d)
  = Ok (Some (amap (fun x => Num.mul x (area_ratio i h))
                (reproject_interp (data i) (header i) h), WCS h, h))
       (mkIState (set_data (reproject_interp (data i) (header i) h) i) d).
Proof. destruct i; reflexivity. Qed.

Lemma to_int_spec (x : Num.float) (s : IState) :
  to_int x s = match int_of_float x with
               | inl z => Ok z s
               | inr e => Raise e s
               end.
Proof. destruct x; reflexivity. Qed.

(** [resample(pixscale=p)] written out: it depends on the object through
    its file name alone. *)
Lemma resample_pixscale_spec (p : Num.float) (inplace : bool) (i : Image)
  (d : Disk) :
  resample None (Some p) inplace (mkIState i d)
  = match d (image_path i) with
    | None => Raise (FileNotFoundError (image_path i)) (mkIState i d)
    | Some f =>
        match mpdaf_resampled f p with
        | inr e => Raise e (mkIState i d)
        | inl image =>
            if inplace then Ok None (mkIState (with_mpdaf image i) d)
            else Ok (Some (mpdaf_data image, mpdaf_wcs image,
                           mpdaf_data_header image)) (mkIState i d)
        end
    end.
Proof.
  unfold resample, resample_pixscale, bind, the_self, the_disk, orelse,
    mpdaf_resampled, mpdaf_newdim, image_path.
  cbn [self disk fst snd].
  destruct (d _) as [f|]; [|reflexivity].
  unfold ret at 1. rewrite !to_int_spec.
  destruct (int_of_float _) as [y|e]; [|reflexivity].
  rewrite !to_int_spec.
  destruct (int_of_float _) as [x|e]; [|reflexivity].
  destruct inplace; destruct i; reflexivity.
Qed.

Lemma resample_pixscale_copy_state (p : Num.float) (s : IState) :
  final_state (resample None (Some p) false s) = s.
Proof.
  destruct s as [i d]. rewrite resample_pixscale_spec.
  destruct (d _); [|reflexivity].
  destruct (mpdaf_resampled _ _); reflexivity.
Qed.

(** C2, the path that breaks it.  [resample(header=h, inplace=False)]
    does not leave the object as it was: [self.data] is overwritten by the
    reprojected array (not yet scaled by the area ratio), while [self.wcs]
    and [self.header] still describe the old grid. *)
Theorem resample_header_copy_overwrites_data (i : Image) (d : Disk) (h : Header) :
  let s' := final_state (resample (Some h) None false (mkIState i d)) in
  data (self s') = reproject_interp (data i) (header i) h
  /\ wcs (self s') = wcs i
  /\ header (self s') = header i
  /\ disk s' = d.
Proof. rewrite resample_header_copy. destruct i; simpl; auto. Qed.

(** C10.  [resample(pixscale=p)] reads the file again: run on the image
    with any other data array in memory, it returns the same value or
    raises the same exception, and in place it leaves the same object. *)
Theorem resample_pixscale_ignores_data (i : Image) (d' : ndarray) (dk : Disk)
  (p : Num.float) (inplace : bool) :
  match resample None (Some p) inplace (mkIState i dk) with
  | Ok r s' =>
      resample None (Some p) inplace (mkIState (set_data d' i) dk)
      = Ok r (if inplace then s' else mkIState (set_data d' i) dk)
  | Raise e _ =>
      resample None (Some p) inplace (mkIState (set_data d' i) dk)
      = Raise e (mkIState (set_data d' i) dk)
  end.
Proof.
  rewrite !resample_pixscale_spec.
  replace (image_path (set_data d' i)) with (image_path i)
    by (destruct i; reflexivity).
  destruct (dk _); [|reflexivity].
  destruct (mpdaf_resampled _ _); [|reflexivity].
  destruct inplace; [|reflexivity].
  destruct i; reflexivity.
Qed.

(** The same after a unit conversion: what it did to the data is not in
    the resampled array. *)
Lemma resample_pixscale_after_convert_units (u : Units)
  (e : option Equivalency) (p : Num.float) (s : IState) :
  returned (resample None (Some p) false (final_state (convert_units u e s)))
  = returned (resample None (Some p) false s).
Proof.
  destruct s as [i d]. unfold convert_units, bind, the_self, on_self, modify.
  cbn [self disk final_state].
  rewrite !resample_pixscale_spec.
  replace (image_path (set_units u (set_data _ i))) with (image_path i)
    by (destruct i; reflexivity).
  destruct (d _); [|reflexivity].
  destruct (mpdaf_resampled _ _); reflexivity.
Qed.

End ResampleProperties.

(** ** Catalogue curation *)

Section CurationProperties.

Context {C : Collab}.

Lemma index_by_cases {A : Type} (l : list A) (m : list bool) (s : IState) :
  index_by l m s = Ok (select l m) s
  \/ index_by l m s = Raise mask_error s.
Proof.
  unfold index_by, bool_index, orelse.
  destruct (Nat.eqb _ _); [left|right]; reflexivity.
Qed.

Lemma index_by_same_length {A : Type} (l : list A) (m : list bool) (s : IState) :
  length m = length l -> index_by l m s = Ok (select l m) s.
Proof.
  intros H. unfold index_by, bool_index, orelse.
  rewrite H, Nat.eqb_refl. reflexivity.
Qed.

Lemma select_map {A B : Type} (f : A -> B) (l : list A) (m : list bool) :
  select (map f l) m = map f (select l m).
Proof.
  revert m; induction l as [|x l IH]; intros [|b m]; simpl; try reflexivity.
  destruct b; simpl; rewrite IH; reflexivity.
Qed.

Ltac step_index :=
  match goal with
  | |- context [index_by ?l ?m ?s] =>
      destruct (index_by_cases l m s) as [-> | ->];
      [cbn beta iota | eexists; split; [reflexivity | right; reflexivity]]
  end.

(** C1, the path that breaks it.  With no exclusion region set the method
    never returns: the local [mask2] is read without having been bound,
    and [self.stars] is not assigned. *)
Theorem get_gaia_catalog_without_galaxy (i : Image) (d : Disk)
  (center : SkyCoord) (gmin gmax radius : Num.float) :
  let s := mkIState (set_galaxy None i) d in
  exists e, get_gaia_catalog center gmin gmax radius s = Raise e s
            /\ (e = UnboundLocalError "mask2" \/ e = mask_error).
Proof.
  intros s. unfold get_gaia_catalog, bind, the_self.
  cbn beta iota.
  do 4 step_index.
  subst s. destruct i; cbn.
  eexists; split; [reflexivity | left; reflexivity].
Qed.

Lemma zip_with_length {A B D : Type} (f : A -> B -> D) (l : list A) (m : list B) :
  length m = length l -> length (zip_with f l m) = length l.
Proof.
  revert m; induction l as [|x l IH]; intros [|y m]; simpl; try discriminate;
    try reflexivity.
  intros H; injection H as H. rewrite IH; auto.
Qed.

(** With a mask of the right length from [remove_close_stars], the
    exception is the unbound local. *)
Lemma get_gaia_catalog_unbound (i : Image) (d : Disk)
  (center : SkyCoord) (gmin gmax radius : Num.float) :
  length (remove_close_stars (map row_coord (query_gaia center radius)))
  = length (query_gaia center radius) ->
  get_gaia_catalog center gmin gmax radius (mkIState (set_galaxy None i) d)
  = Raise (UnboundLocalError "mask2") (mkIState (set_galaxy None i) d).
Proof.
  intros H. unfold get_gaia_catalog, bind, the_self. cbn beta iota.
  rewrite index_by_same_length by exact H. cbn beta iota.
  rewrite index_by_same_length by (rewrite length_map; exact H). cbn beta iota.
  rewrite index_by_same_length by apply length_map. cbn beta iota.
  rewrite index_by_same_length
    by (rewrite select_map, !length_map; reflexivity).
  destruct i; reflexivity.
Qed.

(** The branch that binds [mask2]: with an exclusion region the method
    returns and assigns the curated table. *)
Lemma get_gaia_catalog_with_galaxy (g : Region) (i : Image) (d : Disk)
  (center : SkyCoord) (gmin gmax radius : Num.float) :
  length (remove_close_stars (map row_coord (query_gaia center radius)))
  = length (query_gaia center radius) ->
  exists rows,
    get_gaia_catalog center gmin gmax radius
      (mkIState (set_galaxy (Some g) i) d)
    = Ok tt (mkIState (set_stars (Some (GaiaTable rows))
                         (set_galaxy (Some g) i)) d).
Proof.
  intros H. unfold get_gaia_catalog, bind, the_self. cbn beta iota.
  rewrite index_by_same_length by exact H. cbn beta iota.
  rewrite index_by_same_length by (rewrite length_map; exact H). cbn beta iota.
  rewrite index_by_same_length by apply length_map. cbn beta iota.
  rewrite index_by_same_length
    by (rewrite select_map, !length_map; reflexivity).
  destruct i; cbn [self galaxy set_galaxy orelse ret].
  rewrite index_by_same_length.
  - eexists; reflexivity.
  - rewrite !zip_with_length; rewrite ?zip_with_length, ?length_map;
      rewrite ?select_map, ?length_map; reflexivity.
Qed.

(** So curation returns once [mask_galaxy] has been called. *)
Lemma get_gaia_catalog_after_mask_galaxy (i : Image) (d : Disk)
  (c : SkyCoord) (amax amin pa : Num.float)
  (center : SkyCoord) (gmin gmax radius : Num.float) :
  length (remove_close_stars (map row_coord (query_gaia center radius)))
  = length (query_gaia center radius) ->
  raised (bind (mask_galaxy c amax amin pa)
            (fun _ => get_gaia_catalog center gmin gmax radius)
            (mkIState i d)) = None.
Proof.
  intros H. unfold bind, mask_galaxy, on_self, modify. cbn [self disk].
  destruct (get_gaia_catalog_with_galaxy
              (mkRegion c (Num.mul (Fz 2) amin) (Num.mul (Fz 2) amax) pa)
              i d center gmin gmax radius H) as [rows ->].
  reflexivity.
Qed.

End CurationProperties.

(** ** Star cutouts and centres *)

Section CutoutProperties.

Context {C : Collab}.

Lemma forallb_false {A : Type} (f : A -> bool) (l : list A) :
  forallb f l = false <-> exists x, In x l /\ f x = false.
Proof.
  induction l as [|y l IH]; simpl.
  - split; [discriminate | intros [x [[] _]]].
  - rewrite andb_false_iff, IH. split.
    + intros [H | [x [Hx Hf]]]; eauto.
    + intros [x [[-> | Hx] Hf]]; eauto.
Qed.

Lemma forallb_id (l : list bool) :
  forallb (fun b => b) l = true <-> Forall (fun b => b = true) l.
Proof.
  rewrite forallb_forall, Forall_forall. reflexivity.
Qed.

(** The test [not np.isfinite(a).all()] on a masked array. *)
Lemma not_all_finite_masked (a : ndarray) (m : grid bool) :
  mask a = Some m ->
  negb (truth (isfinite_all a)) = true
  <-> (exists x, In x (unmasked a) /\ Num.isfinite x = false)
      \/ (concat m <> [] /\ Forall (fun b => b = true) (concat m)).
Proof.
  intros Hm. unfold isfinite_all. rewrite Hm.
  destruct (forallb (fun b => b) (concat m)) eqn:Hall; simpl.
  - destruct (concat m) as [|b l] eqn:Hc; simpl.
    + rewrite negb_true_iff, forallb_false. split; [auto|].
      intros [H | [H _]]; [exact H | contradiction].
    + split; [|reflexivity]. intros _. right. split; [discriminate|].
      apply forallb_id. exact Hall.
  - rewrite negb_true_iff, forallb_false. split; [auto|].
    intros [H | [_ H]]; [exact H|].
    apply forallb_id in H. congruence.
Qed.

(** C4, as the code has it.  When [Cutout2D] raises [NoOverlapError] the
    entry is dropped; on a masked cutout the entry is dropped exactly
    when the cutout is [rejected], and goes on to the peak detection
    otherwise; nothing is raised. *)
Theorem usable_cutout_decision (data_ : ndarray) (wcs_ : Wcs)
  (coord : SkyCoord) (s : IState) :
  match Cutout2D data_ coord (Fz 7) wcs_ with
  | None => usable_cutout data_ wcs_ coord s = Ok None s
  | Some cut =>
      match mask (fst cut) with
      | Some m =>
          (rejected (fst cut) m
           /\ usable_cutout data_ wcs_ coord s = Ok None s)
          \/ (~ rejected (fst cut) m
              /\ usable_cutout data_ wcs_ coord s = Ok (Some cut) s)
      | None => True
      end
  end.
Proof.
  unfold usable_cutout.
  destruct (Cutout2D _ _ _ _) as [cut|]; [|reflexivity].
  destruct (mask (fst cut)) as [m|] eqn:Hm; [|exact I].
  pose proof (not_all_finite_masked (fst cut) m Hm) as Hfin.
  destruct (negb (truth (isfinite_all (fst cut)))) eqn:Hn.
  - left. split; [|reflexivity].
    destruct (proj1 Hfin eq_refl) as [H | H]; [left | right; left]; exact H.
  - unfold bind, orelse, ret. cbn beta iota.
    destruct (5 <=? count_true m) eqn:H5.
    + left. split; [|reflexivity]. right; right. apply Z.leb_le. exact H5.
    + right. split; [|reflexivity].
      intros [H | [H | H]].
      * assert (false = true) by (apply Hfin; left; exact H). discriminate.
      * assert (false = true) by (apply Hfin; right; exact H). discriminate.
      * apply Z.leb_gt in H5. lia.
Qed.

(** On a plain array the [mask] attribute is missing: a finite cutout
    raises. *)
Lemma usable_cutout_plain (data_ : ndarray) (wcs_ : Wcs) (coord : SkyCoord)
  (s : IState) (cut : ndarray * Wcs) :
  Cutout2D data_ coord (Fz 7) wcs_ = Some cut ->
  mask (fst cut) = None ->
  forallb Num.isfinite (concat (values (fst cut))) = true ->
  exists msg, usable_cutout data_ wcs_ coord s = Raise (AttributeError msg) s.
Proof.
  intros Hc Hm Hf. unfold usable_cutout, isfinite_all. rewrite Hc, Hm, Hf.
  simpl. unfold bind, orelse. eexists; reflexivity.
Qed.

(** *** [argmax] returns the first place of the largest value *)

Lemma Qltb_lt (a b : Q) : Num.Qltb a b = true <-> (a < b)%Q.
Proof.
  unfold Num.Qltb. rewrite negb_true_iff.
  destruct (Qle_bool b a) eqn:H.
  - apply Qle_bool_iff in H. split; [discriminate|]. intros; lra.
  - split; [intros _ | reflexivity].
    destruct (Qlt_le_dec a b) as [Hlt|Hle]; [exact Hlt|].
    apply Qle_bool_iff in Hle. congruence.
Qed.

Lemma Qltb_ge (a b : Q) : Num.Qltb a b = false <-> (b <= a)%Q.
Proof.
  unfold Num.Qltb. rewrite negb_false_iff. apply Qle_bool_iff.
Qed.

Ltac order_cases :=
  repeat match goal with
         | x : Num.float |- _ => destruct x
         end;
  simpl in *; try discriminate; try reflexivity; try assumption;
  repeat match goal with
         | H : Num.Qltb _ _ = true |- _ => apply Qltb_lt in H
         | H : Num.Qltb _ _ = false |- _ => apply Qltb_ge in H
         | H : Qle_bool _ _ = true |- _ => apply Qle_bool_iff in H
         end;
  try (apply Qltb_lt; lra); try (apply Qltb_ge; lra);
  try (apply Qle_bool_iff; lra).

Lemma ltb_irrefl (x : Num.float) : Num.ltb x x = false.
Proof. order_cases. Qed.

Lemma ltb_trans (a b c : Num.float) :
  Num.ltb a b = true -> Num.ltb b c = true -> Num.ltb a c = true.
Proof. intros; order_cases. Qed.

Lemma ltb_asym (a b : Num.float) : Num.ltb a b = true -> Num.ltb b a = false.
Proof. intros; order_cases. Qed.

Lemma le_lt_trans (x b v : Num.float) :
  Num.isnan x = false ->
  Num.ltb b x = false -> Num.ltb b v = true -> Num.ltb x v = true.
Proof. intros; order_cases. Qed.

Lemma ltb_false_leb (x v : Num.float) :
  Num.isnan x = false -> Num.isnan v = false ->
  Num.ltb v x = false -> Num.leb x v = true.
Proof. intros; order_cases. Qed.

Lemma gtb_nan_ltb (x b : Num.float) :
  Num.isnan x = false -> Num.isnan b = false -> gtb_nan x b = Num.ltb b x.
Proof. intros; order_cases. Qed.

Lemma argmax_from_spec (l : list Num.float) :
  forall (i : Z) (best : Num.float) (besti : Z),
    not_nan best -> Forall not_nan l ->
    (argmax_from l i best besti = besti
     /\ Forall (fun x => Num.ltb best x = false) l)
    \/ (exists (k : nat) (v : Num.float),
          argmax_from l i best besti = i + Z.of_nat k
          /\ nth_error l k = Some v
          /\ Num.ltb best v = true
          /\ Forall (fun x => Num.ltb v x = false) l
          /\ forall (j : nat) (x : Num.float),
               (j < k)%nat -> nth_error l j = Some x -> Num.ltb x v = true).
Proof.
  induction l as [|x l IH]; intros i best besti Hb Hl; simpl.
  - left; split; [reflexivity | constructor].
  - inversion Hl as [|? ? Hx Hl']; subst.
    rewrite (gtb_nan_ltb x best Hx Hb).
    destruct (Num.ltb best x) eqn:Hlt.
    + right. destruct (IH (i + 1) x i Hx Hl') as [[Hr Hall] | (k & v & Hr & Hn & Hv & Hall & Hfirst)].
      * exists O, x. rewrite Hr. repeat split; try assumption.
        -- lia.
        -- constructor; [apply ltb_irrefl | exact Hall].
        -- intros j y Hj; inversion Hj.
      * exists (S k), v. rewrite Hr. repeat split; try assumption.
        -- lia.
        -- eapply ltb_trans; eassumption.
        -- constructor; [apply ltb_asym; exact Hv | exact Hall].
        -- intros [|j] y Hj Hy; simpl in Hy.
           ++ injection Hy as <-. exact Hv.
           ++ apply (Hfirst j); [lia | exact Hy].
    + destruct (IH (i + 1) best besti Hb Hl') as [[Hr Hall] | (k & v & Hr & Hn & Hv & Hall & Hfirst)].
      * left. split; [exact Hr | constructor; assumption].
      * right. exists (S k), v. rewrite Hr. repeat split; try assumption.
        -- lia.
        -- constructor; [|exact Hall].
           apply ltb_asym. eapply le_lt_trans; eassumption.
        -- intros [|j] y Hj Hy; simpl in Hy.
           ++ injection Hy as <-. eapply le_lt_trans; eassumption.
           ++ apply (Hfirst j); [lia | exact Hy].
Qed.

(** The flat index [argmax] returns is in range, no value of the array is
    larger than the one it points at, and every value before it is
    smaller. *)
Lemma argmax_is_first_largest (a : ndarray) :
  filled_min a <> [] ->
  Forall not_nan (filled_min a) ->
  exists v,
    nth_error (filled_min a) (Z.to_nat (argmax a)) = Some v
    /\ 0 <= argmax a
    /\ Forall (fun x => Num.leb x v = true) (filled_min a)
    /\ forall (j : nat) (x : Num.float),
         (j < Z.to_nat (argmax a))%nat ->
         nth_error (filled_min a) j = Some x -> Num.ltb x v = true.
Proof.
  unfold argmax. destruct (filled_min a) as [|x l]; [congruence|].
  intros _ Hall. inversion Hall as [|? ? Hx Hl]; subst.
  assert (Hle : forall v, not_nan v -> Forall (fun y => Num.ltb v y = false) l ->
                          Forall (fun y => Num.leb y v = true) l).
  { intros v Hv H. rewrite Forall_forall in *. intros y Hy.
    apply ltb_false_leb; [apply Hl; exact Hy | exact Hv | apply H; exact Hy]. }
  destruct (argmax_from_spec l 1 x 0 Hx Hl) as [[Hr Hmax] | (k & v & Hr & Hn & Hv & Hmax & Hfirst)].
  - exists x. rewrite Hr. simpl. repeat split.
    + lia.
    + constructor; [apply ltb_false_leb; auto; apply ltb_irrefl | auto].
    + intros j y Hj; inversion Hj.
  - exists v. rewrite Hr.
    assert (Hnv : not_nan v).
    { rewrite Forall_forall in Hl. apply Hl. eapply nth_error_In; eassumption. }
    replace (Z.to_nat (1 + Z.of_nat k)) with (S k) by lia.
    cbn [nth_error]. repeat split.
    + exact Hn.
    + lia.
    + constructor; [|auto].
      apply ltb_false_leb; auto. apply ltb_asym; exact Hv.
    + intros [|j] y Hj Hy; simpl in Hy.
      * injection Hy as <-. exact Hv.
      * apply (Hfirst j); [lia | exact Hy].
Qed.

End CutoutProperties.

(** ** Building the PSF *)

Section NormalizationProperties.

(** *** Sums of pixel values

    The lemmas are about the kernels on which no rounding takes place:
    sums of zeros, and sums and quotients with an infinity or NaN. *)

Lemma add_not_finite_l (x y : Num.float) :
  Num.isfinite x = false -> Num.isfinite (Num.add x y) = false.
Proof. destruct x, y; simpl; congruence. Qed.

Lemma add_not_finite_r (x y : Num.float) :
  Num.isfinite y = false -> Num.isfinite (Num.add x y) = false.
Proof. destruct x, y; simpl; congruence. Qed.

Lemma fold_add_not_finite (l : list Num.float) (acc : Num.float) :
  Num.isfinite acc = false -> Num.isfinite (fold_left Num.add l acc) = false.
Proof.
  revert acc; induction l as [|x l IH]; intros acc H; simpl; [exact H|].
  apply IH. apply add_not_finite_l. exact H.
Qed.

Lemma sum_not_finite (l : list Num.float) (acc : Num.float) :
  Exists (fun x => Num.isfinite x = false) l ->
  Num.isfinite (fold_left Num.add l acc) = false.
Proof.
  intros H. revert acc. induction H as [x l Hx | x l _ IH]; intros acc; simpl.
  - apply fold_add_not_finite. apply add_not_finite_r. exact Hx.
  - apply IH.
Qed.

Lemma fold_add_nan (l : list Num.float) :
  fold_left Num.add l Num.NaN = Num.NaN.
Proof. induction l as [|x l IH]; simpl; [reflexivity | exact IH]. Qed.

Lemma sum_with_nan (l : list Num.float) (acc : Num.float) :
  In Num.NaN l -> fold_left Num.add l acc = Num.NaN.
Proof.
  revert acc. induction l as [|x l IH]; intros acc H; [destruct H|].
  simpl. destruct H as [-> | H].
  - replace (Num.add acc Num.NaN) with Num.NaN by (destruct acc; reflexivity).
    apply fold_add_nan.
  - apply IH. exact H.
Qed.

Lemma is_zero_Fin (x : Num.float) :
  Num.eqb x Num.zero = true -> exists p, x = Num.Fin p /\ (p == 0)%Q.
Proof.
  destruct x as [p| | |]; simpl; try discriminate.
  intros H. exists p. split; [reflexivity | apply Qeq_bool_iff; exact H].
Qed.

Lemma sum_of_zeros (l : list Num.float) :
  Forall (fun x => Num.eqb x Num.zero = true) l ->
  forall a, (a == 0)%Q ->
    exists q, fold_left Num.add l (Num.Fin a) = Num.Fin q /\ (q == 0)%Q.
Proof.
  induction 1 as [|x l Hx _ IH]; intros a Ha; simpl.
  - exists a. split; [reflexivity | exact Ha].
  - destruct (is_zero_Fin x Hx) as (p & -> & Hp). simpl.
    apply IH. rewrite Ha, Hp. reflexivity.
Qed.

(** *** The normalisation of a degenerate kernel *)

Lemma far_from_one (q : Q) :
  (q == 0)%Q ->
  Num.ltb (Num.abs (Num.sub Num.one (Num.Fin q))) (Num.Fin (1 # 10000)) = false.
Proof.
  intros Hq.
  cbv beta iota delta [Num.sub Num.one Num.neg Num.add Num.abs Num.ltb Num.Qltb].
  apply negb_false_iff. apply Qle_bool_iff. rewrite Hq.
  unfold Qle. simpl. lia.
Qed.

Lemma far_from_one_not_finite (f : Num.float) :
  Num.isfinite f = false ->
  Num.ltb (Num.abs (Num.sub Num.one f)) (Num.Fin (1 # 10000)) = false.
Proof. destruct f; simpl; try discriminate; reflexivity. Qed.

Lemma zero_by_zero (x : Num.float) (q : Q) :
  Num.eqb x Num.zero = true -> (q == 0)%Q ->
  Num.div x (Num.Fin q) = Num.NaN.
Proof.
  intros Hx Hq. destruct (is_zero_Fin x Hx) as (p & -> & Hp).
  unfold Num.div, Num.Qsgn.
  assert (E : Qcompare q 0 = Eq) by (apply Qeq_alt; exact Hq).
  assert (E' : Qcompare p 0 = Eq) by (apply Qeq_alt; exact Hp).
  rewrite E. unfold Num.scale_inf, Num.Qsgn. rewrite E'. reflexivity.
Qed.

Lemma not_finite_by_not_finite (x f : Num.float) :
  Num.isfinite x = false -> Num.isfinite f = false -> Num.div x f = Num.NaN.
Proof. destruct x, f; simpl; try discriminate; reflexivity. Qed.

(** What the normalisation makes of a degenerate kernel has a NaN pixel,
    so its flux is NaN. *)
Lemma normalized_degenerate (g : grid Num.float) :
  degenerate g ->
  In Num.NaN (concat (normalized g)) /\ psf_flux (normalized g) = Num.NaN.
Proof.
  intros Hg.
  assert (Hin : In Num.NaN (concat (normalized g))).
  { unfold normalized, psf_flux, Num.sum, Num.zero.
    destruct Hg as [[Hne Hzero] | Hbad].
    - destruct (sum_of_zeros _ Hzero 0 (Qeq_refl 0)) as (q & Hsum & Hq).
      rewrite Hsum, (far_from_one q Hq).
      unfold gmap2. rewrite <- concat_map.
      destruct (concat g) as [|x l]; [congruence|].
      left. apply zero_by_zero; [|exact Hq].
      inversion Hzero; assumption.
    - pose proof (sum_not_finite _ (Num.Fin 0) Hbad) as Hflux.
      rewrite (far_from_one_not_finite _ Hflux).
      unfold gmap2. rewrite <- concat_map.
      apply Exists_exists in Hbad as (x & Hx & Hxf).
      apply in_map_iff. exists x. split; [|exact Hx].
      apply not_finite_by_not_finite; assumption. }
  split; [exact Hin|].
  unfold psf_flux, Num.sum. apply sum_with_nan. exact Hin.
Qed.

End NormalizationProperties.

(** ** Steps that keep a relation between the states *)

Section Frame.

Variable S : Type.
Variable R : S -> S -> Prop.
Hypothesis R_refl : forall s, R s s.
Hypothesis R_trans : forall s t u, R s t -> R t u -> R s u.

Lemma keeps_ret {A : Type} (a : A) : keeps R (ret a).
Proof. intros s; apply R_refl. Qed.

Lemma keeps_raise {A : Type} (e : exn) : keeps R (@raise S A e).
Proof. intros s; apply R_refl. Qed.

Lemma keeps_orelse {A : Type} (o : option A) (e : exn) : keeps R (orelse o e).
Proof. destruct o; [apply keeps_ret | apply keeps_raise]. Qed.

Lemma keeps_assert (b : bool) (msg : string) : keeps R (assert b msg).
Proof. destruct b; [apply keeps_ret | apply keeps_raise]. Qed.

Lemma keeps_bind {A B : Type} (m : M S A) (k : A -> M S B) :
  keeps R m -> (forall a, keeps R (k a)) -> keeps R (bind m k).
Proof.
  intros Hm Hk s. unfold bind. specialize (Hm s).
  destruct (m s) as [a s'|e s']; simpl in *; [|exact Hm].
  eapply R_trans; [exact Hm | apply Hk].
Qed.

Lemma keeps_unchanged {A : Type} (m : M S A) :
  (forall s, final_state (m s) = s) -> keeps R m.
Proof. intros H s. rewrite H. apply R_refl. Qed.

End Frame.

(** The steps of a method, one at a time; what is left is what the steps
    that assign or write have to show. *)
Ltac frame R_refl R_trans :=
  repeat first
    [ apply (keeps_ret _ _ R_refl)
    | apply (keeps_raise _ _ R_refl)
    | apply (keeps_orelse _ _ R_refl)
    | apply (keeps_assert _ _ R_refl)
    | apply (keeps_unchanged _ _ R_refl);
      solve [ intros ?; reflexivity
            | intros ?;
              match goal with
              | |- context [to_int ?x] => destruct x; reflexivity
              end ]
    | apply (keeps_bind _ _ R_trans); [|intros ?]
    | match goal with
      | |- keeps _ (match ?x with _ => _ end) => destruct x
      | |- keeps _ (if ?x then _ else _) => destruct x
      | |- keeps _ (let '(_, _) := ?x in _) => destruct x
      end ].

(** ** From the catalogue to the stored kernel *)

Section BuildProperties.

Context {C : Collab}.

Lemma psf_untouched_refl (s : IState) : psf_untouched s s.
Proof. split; [reflexivity | intros p hdus H; exact H]. Qed.

Lemma psf_untouched_trans (s t u : IState) :
  psf_untouched s t -> psf_untouched t u -> psf_untouched s u.
Proof.
  intros [H1 H2] [H3 H4]. split; [congruence|].
  intros p hdus H. apply H2, H4, H.
Qed.

Lemma same_psfscale_refl (s : IState) : same_psfscale s s.
Proof. reflexivity. Qed.

Lemma same_psfscale_trans (s t u : IState) :
  same_psfscale s t -> same_psfscale t u -> same_psfscale s u.
Proof. unfold same_psfscale; congruence. Qed.

Lemma write_not_fits (s : IState) (path : string) (f : file) :
  (forall hdus, f <> FitsFile hdus) ->
  psf_untouched s (mkIState (self s) (write_file (disk s) path f)).
Proof.
  intros Hf. split; [reflexivity|]. intros p hdus. simpl. unfold write_file.
  destruct (String.eqb p path); [|auto].
  intros H; injection H as H. exfalso. exact (Hf _ H).
Qed.

Lemma unchanged_refl (s : IState) : unchanged s s.
Proof. reflexivity. Qed.

Lemma unchanged_trans (s t u : IState) :
  unchanged s t -> unchanged t u -> unchanged s u.
Proof. unfold unchanged; congruence. Qed.

(** The loop over the entries assigns nothing and writes nothing. *)
Lemma star_row_unchanged (data_ : ndarray) (wcs_ : Wcs) (coord : SkyCoord) :
  keeps unchanged (star_row data_ wcs_ coord).
Proof.
  unfold star_row, usable_cutout.
  frame unchanged_refl unchanged_trans.
Qed.

Lemma star_rows_unchanged (data_ : ndarray) (wcs_ : Wcs)
  (coords : list SkyCoord) (s : IState) :
  final_state (star_rows data_ wcs_ coords s) = s.
Proof.
  revert s. change (keeps unchanged (star_rows data_ wcs_ coords)).
  induction coords as [|c coords IH]; simpl.
  - apply (keeps_ret _ _ unchanged_refl).
  - apply (keeps_bind _ _ unchanged_trans); [apply star_row_unchanged|].
    intros r. apply (keeps_bind _ _ unchanged_trans); [exact IH|].
    intros rs. apply (keeps_ret _ _ unchanged_refl).
Qed.

(** Up to the builder nothing touches [self.psf], and no FITS file is
    written. *)
Lemma build_inputs_psf_untouched (center : SkyCoord) (gmin gmax : Num.float)
  (stars_file : option string) (radius : Num.float)
  (pixscale : option Num.float) (save show : bool) :
  keeps psf_untouched
    (build_inputs center gmin gmax stars_file radius pixscale save show).
Proof.
  unfold build_inputs, working_grid, star_positions, get_gaia_catalog,
    build_startable.
  frame psf_untouched_refl psf_untouched_trans;
    try (apply (keeps_unchanged _ _ psf_untouched_refl);
         first [apply resample_pixscale_copy_state | apply star_rows_unchanged]);
    try (intros st; apply write_not_fits; intros hdus; discriminate);
    (intros st; destruct st as [[] dk];
     split; [reflexivity | intros p hdus H; exact H]).
Qed.

Lemma star_positions_same_psfscale (center : SkyCoord) (gmin gmax : Num.float)
  (stars_file : option string) (radius : Num.float) (data_ : ndarray)
  (wcs_ : Wcs) (save show : bool) :
  keeps same_psfscale
    (star_positions center gmin gmax stars_file radius data_ wcs_ save show).
Proof.
  unfold star_positions, get_gaia_catalog, build_startable.
  frame same_psfscale_refl same_psfscale_trans;
    try (apply (keeps_unchanged _ _ same_psfscale_refl);
         apply star_rows_unchanged);
    intros st; destruct st as [[] dk]; reflexivity.
Qed.

Lemma working_grid_sets_scale (pixscale : option Num.float) (s s1 : IState)
  (dw : ndarray * Wcs) :
  working_grid pixscale s = Ok dw s1 ->
  exists scale, psfscale (self s1) = Some scale.
Proof.
  unfold working_grid. destruct pixscale as [p|].
  - unfold bind. destruct s as [i d]. rewrite resample_pixscale_spec.
    destruct (d _); [|discriminate].
    destruct (mpdaf_resampled _ _); [|discriminate].
    cbn. intros H; injection H as _ <-. destruct i; cbn. eauto.
  - cbn. intros H; injection H as _ <-. destruct s as [[] d]; cbn. eauto.
Qed.

(** When the two steps before the builder return, the scale to record
    with the PSF is set. *)
Lemma build_inputs_sets_scale (center : SkyCoord) (gmin gmax : Num.float)
  (stars_file : option string) (radius : Num.float)
  (pixscale : option Num.float) (save show : bool) (s s1 : IState)
  (inp : ndarray * list (Num.float * Num.float)) :
  build_inputs center gmin gmax stars_file radius pixscale save show s
  = Ok inp s1 ->
  exists scale, psfscale (self s1) = Some scale.
Proof.
  unfold build_inputs, bind.
  destruct (working_grid pixscale s) as [dw s0|e s0] eqn:Hw; [|discriminate].
  destruct (working_grid_sets_scale _ _ _ _ Hw) as [scale Hs].
  pose proof (star_positions_same_psfscale center gmin gmax stars_file radius
                (fst dw) (snd dw) save show s0) as Hk.
  destruct (star_positions _ _ _ _ _ _ _ _ _ s0) as [tbl s2|e s2];
    [|discriminate].
  cbn. intros H; injection H as _ <-.
  exists scale. cbn in Hk. unfold same_psfscale in Hk. congruence.
Qed.

Lemma psf_path_set_psf (k : option (grid Num.float)) (i : Image) :
  psf_path (set_psf k i) = psf_path i.
Proof. destruct i; reflexivity. Qed.

(** [build_from] written out. *)
Lemma build_from_spec (data_ : ndarray) (stars_tbl : list (Num.float * Num.float))
  (npix oversampling : Z) (s : IState) :
  let stars_ := cutouts data_ stars_tbl npix in
  build_from data_ stars_tbl npix oversampling s
  = match hd_error stars_ with
    | None => Raise (IndexError "list index out of range") s
    | Some star0 =>
        let kernel := normalized (evaluated (fst (built stars_ oversampling)) star0) in
        if 0 <? n_good_stars stars_ oversampling then
          match psfscale (self s) with
          | Some scale =>
              Ok tt (mkIState (set_psf (Some kernel) (self s))
                       (write_file (disk s) (psf_path (self s))
                          (psf_file kernel scale)))
          | None =>
              Raise (AttributeError "'Image' object has no attribute 'psfscale'")
                (mkIState (set_psf (Some kernel) (self s)) (disk s))
          end
        else Raise (SystemExit "No stars were used for the fit.") s
    end.
Proof.
  intros stars_. unfold build_from. fold stars_.
  unfold bind at 1. destruct (hd_error stars_) as [star0|]; [|reflexivity].
  cbn [orelse ret]. unfold bind at 1.
  destruct (0 <? n_good_stars stars_ oversampling); [|reflexivity].
  destruct s as [[] d]. cbn. destruct psfscale0; reflexivity.
Qed.

(** C6.  In a run of [build_psf] that reaches the builder: if no star is
    accepted the run raises (it is [sys.exit] whenever there was a star
    to build from), [self.psf] is what it was before the call and no FITS
    file has appeared; if a star is accepted the run returns with the
    kernel stored and written. *)
Theorem build_psf_needs_good_star (center : SkyCoord) (gmin gmax : Num.float)
  (stars_file : option string) (radius : Num.float) (npix : Z)
  (pixscale : option Num.float) (oversampling : Z) (save show : bool)
  (s s1 : IState) (data_ : ndarray) (stars_tbl : list (Num.float * Num.float)) :
  build_inputs center gmin gmax stars_file radius pixscale save show s
  = Ok (data_, stars_tbl) s1 ->
  let stars_ := cutouts data_ stars_tbl npix in
  let run := build_psf center gmin gmax stars_file radius npix pixscale
               oversampling save show s in
  (n_good_stars stars_ oversampling <= 0 ->
   exists e, run = Raise e s1
             /\ (stars_ <> [] -> e = SystemExit "No stars were used for the fit.")
             /\ psf (self s1) = psf (self s)
             /\ no_new_fits (disk s) (disk s1))
  /\ (0 < n_good_stars stars_ oversampling ->
      forall star0, hd_error stars_ = Some star0 ->
      exists scale,
        let kernel := normalized (evaluated (fst (built stars_ oversampling)) star0) in
        psfscale (self s1) = Some scale
        /\ run = Ok tt (mkIState (set_psf (Some kernel) (self s1))
                          (write_file (disk s1) (psf_path (self s1))
                             (psf_file kernel scale)))).
Proof.
  intros Hin stars_ run.
  assert (Hrun : run = build_from data_ stars_tbl npix oversampling s1).
  { unfold run, build_psf, bind. rewrite Hin. reflexivity. }
  rewrite Hrun, build_from_spec. fold stars_.
  split.
  - intros Hn.
    pose proof (build_inputs_psf_untouched center gmin gmax stars_file radius
                  pixscale save show s) as [Hpsf Hfits].
    rewrite Hin in Hpsf, Hfits. cbn in Hpsf, Hfits.
    apply Z.ltb_ge in Hn. rewrite Hn.
    destruct (hd_error stars_) as [star0|] eqn:Hhd.
    + eexists; repeat split; auto.
    + eexists; repeat split; auto.
      intros Hne. destruct stars_; [congruence | discriminate].
  - intros Hn star0 Hhd. rewrite Hhd. apply Z.ltb_lt in Hn. rewrite Hn.
    destruct (build_inputs_sets_scale _ _ _ _ _ _ _ _ _ _ _ Hin) as [scale Hs].
    exists scale. rewrite Hs. split; reflexivity.
Qed.

(** C5, where the code breaks it.  The normalisation divides by the flux
    without looking at it.  When the built kernel is degenerate - all
    zeros, or with an infinity or NaN in it - a build that returns has
    stored and written a kernel with NaN in it: its flux is NaN, not 1
    within 1e-4. *)
Theorem degenerate_kernel_stored_as_nan (data_ : ndarray)
  (stars_tbl : list (Num.float * Num.float)) (npix oversampling : Z)
  (s s' : IState) (star0 : Star) :
  let stars_ := cutouts data_ stars_tbl npix in
  let new_psf := evaluated (fst (built stars_ oversampling)) star0 in
  build_from data_ stars_tbl npix oversampling s = Ok tt s' ->
  hd_error stars_ = Some star0 ->
  degenerate new_psf ->
  exists kernel scale,
    psf (self s') = Some kernel
    /\ disk s' (psf_path (self s')) = Some (psf_file kernel scale)
    /\ In Num.NaN (concat kernel)
    /\ psf_flux kernel = Num.NaN
    /\ Num.ltb (Num.abs (Num.sub Num.one (psf_flux kernel)))
         (Num.Fin (1 # 10000)) = false.
Proof.
  intros stars_ new_psf Hrun Hhd Hbad.
  rewrite build_from_spec in Hrun. fold stars_ in Hrun.
  rewrite Hhd in Hrun. cbv zeta in Hrun. fold new_psf in Hrun.
  destruct (0 <? n_good_stars stars_ oversampling); [|discriminate].
  destruct (psfscale (self s)) as [scale|]; [|discriminate].
  injection Hrun as <-.
  destruct (normalized_degenerate new_psf Hbad) as [Hin Hflux].
  exists (normalized new_psf), scale.
  split; [destruct s as [[] d]; reflexivity|].
  split.
  { cbn [disk self]. unfold write_file.
    rewrite psf_path_set_psf, String.eqb_refl. reflexivity. }
  split; [exact Hin|]. split; [exact Hflux|].
  rewrite Hflux. reflexivity.
Qed.

(** The file [build_from] writes is one [open_psf] reads back: kernel and
    scale are those the object already holds. *)
Lemma open_psf_reads_back (data_ : ndarray)
  (stars_tbl : list (Num.float * Num.float)) (npix oversampling : Z)
  (s s' : IState) :
  build_from data_ stars_tbl npix oversampling s = Ok tt s' ->
  open_psf (psf_path (self s')) s' = Ok tt s'.
Proof.
  rewrite build_from_spec.
  destruct (hd_error _) as [star0|]; [|discriminate]. cbv zeta.
  destruct (0 <? _); [|discriminate].
  destruct (psfscale (self s)) as [scale|] eqn:Hs; [|discriminate].
  intros H; injection H as <-.
  unfold open_psf, bind, the_disk, orelse. cbn [disk self].
  rewrite psf_path_set_psf.
  unfold write_file at 1. rewrite String.eqb_refl. cbn.
  destruct s as [[] d]. cbn in *. subst. reflexivity.
Qed.

End BuildProperties.

(** ** The cross-convolution fit *)

Section FitProperties.

Context {C : Collab}.

Lemma same_reference_refl (s : MState) : same_reference s s.
Proof. reflexivity. Qed.

Lemma same_reference_trans (s t u : MState) :
  same_reference s t -> same_reference t u -> same_reference s u.
Proof. unfold same_reference; congruence. Qed.

Lemma preconditions_ok (s : MState) :
  fit_preconditions s = true -> preconditions s = Ok tt s.
Proof.
  unfold fit_preconditions, preconditions, bind, the_muse, the_reference, assert.
  destruct (units_eq _ _); [|discriminate].
  destruct (psf (reference s)); [|discriminate].
  destruct (psfscale (reference s)) as [ps|]; [|discriminate].
  cbn. intros ->. reflexivity.
Qed.

Lemma preconditions_fail (s : MState) :
  fit_preconditions s = false ->
  exists e, preconditions s = Raise e s
            /\ (psfscale (reference s) <> None -> exists msg, e = AssertionError msg).
Proof.
  unfold fit_preconditions, preconditions, bind, the_muse, the_reference, assert.
  destruct (units_eq _ _); [|cbn; eauto].
  destruct (psf (reference s)); [|cbn; eauto].
  destruct (psfscale (reference s)) as [ps|].
  - cbn. intros ->. eauto.
  - cbn. intros _. eexists; split; [reflexivity | congruence].
Qed.

(** C7.  If the units differ, or the reference has no PSF, or its
    recorded pixel scale is not the scale of the target rounded to three
    decimals, [measure_psf] raises with the state as it found it: nothing
    resampled, nothing calibrated, no fit result.  The exception is the
    [AssertionError] of the failed check (when the reference has a
    [psfscale] attribute at all). *)
Theorem measure_psf_preconditions (fit_alpha plot save show offset : bool)
  (oversample : option Z) (kwargs : Kwargs) (s : MState) :
  units_eq (units (base (muse s))) (units (reference s)) = false
  \/ psf (reference s) = None
  \/ (forall ps, psfscale (reference s) = Some ps ->
                 Num.eqb ps (target_scale (muse s)) = false) ->
  exists e,
    measure_psf fit_alpha plot save show offset oversample kwargs s = Raise e s
    /\ (psfscale (reference s) <> None -> exists msg, e = AssertionError msg).
Proof.
  intros H.
  assert (Hpre : fit_preconditions s = false).
  { unfold fit_preconditions. destruct H as [H | [H | H]].
    - rewrite H. reflexivity.
    - rewrite H, andb_false_r. reflexivity.
    - destruct (psfscale (reference s)) as [ps|].
      + rewrite (H ps eq_refl). apply andb_false_r.
      + apply andb_false_r. }
  destruct (preconditions_fail s Hpre) as (e & He & Hkind).
  exists e. split; [|exact Hkind].
  unfold measure_psf, bind. rewrite He. reflexivity.
Qed.

(** Once the reference is resampled nothing assigns to it again. *)
Lemma check_flux_calibration_same_reference (r : ndarray) (bin_size : Z)
  (plot save show : bool) :
  keeps same_reference
    (check_flux_calibration (RefArray r) bin_size plot save show false).
Proof.
  unfold check_flux_calibration. cbv iota.
  frame same_reference_refl same_reference_trans; intros st; reflexivity.
Qed.

Lemma fit_resampled_same_reference (fit_alpha plot save show offset : bool)
  (oversample : option Z) (kwargs : Kwargs) :
  keeps same_reference
    (fit_resampled fit_alpha plot save show offset oversample kwargs).
Proof.
  unfold fit_resampled.
  apply (keeps_bind _ _ same_reference_trans);
    [frame same_reference_refl same_reference_trans | intros m].
  apply (keeps_bind _ _ same_reference_trans);
    [frame same_reference_refl same_reference_trans | intros r].
  apply (keeps_bind _ _ same_reference_trans);
    [apply check_flux_calibration_same_reference | intros _].
  frame same_reference_refl same_reference_trans; intros st; reflexivity.
Qed.

(** C3, as the code has it.  [measure_psf] resamples the reference in
    place: when the three checks pass, the reference the call leaves
    behind (returning or raising) is the one it was given resampled onto
    the header of the target; when a check fails it is the one it was
    given. *)
Theorem measure_psf_resamples_reference (fit_alpha plot save show offset : bool)
  (oversample : option Z) (kwargs : Kwargs) (s : MState) :
  reference (final_state
               (measure_psf fit_alpha plot save show offset oversample kwargs s))
  = if fit_preconditions s
    then resampled_onto (header (base (muse s))) (reference s)
    else reference s.
Proof.
  unfold measure_psf. unfold bind at 1.
  destruct (fit_preconditions s) eqn:Hpre.
  - rewrite (preconditions_ok s Hpre).
    unfold bind at 1. unfold the_muse at 1.
    unfold bind at 1. unfold on_reference at 1.
    rewrite resample_header_inplace. cbn [self disk].
    rewrite (fit_resampled_same_reference fit_alpha plot save show offset
               oversample kwargs _).
    reflexivity.
  - destruct (preconditions_fail s Hpre) as (e & -> & _). reflexivity.
Qed.

End FitProperties.

(** ** Flux calibration *)

Section CalibrationProperties.

Context {C : Collab}.

Lemma same_shape_iff {A B : Type} (g : grid A) (h : grid B) :
  same_shape g h = true <-> row_lengths g = row_lengths h.
Proof.
  unfold same_shape. destruct (list_eq_dec _ _ _); split; congruence.
Qed.

Lemma zip_with_app {A B D : Type} (f : A -> B -> D) (l1 l2 : list A)
  (m1 m2 : list B) :
  length l1 = length m1 ->
  zip_with f (l1 ++ l2) (m1 ++ m2) = zip_with f l1 m1 ++ zip_with f l2 m2.
Proof.
  revert m1; induction l1 as [|x l1 IH]; intros [|y m1] H; simpl in *;
    try discriminate; [reflexivity|].
  rewrite IH by congruence. reflexivity.
Qed.

Lemma zip_with_row_length {A B D : Type} (f : A -> B -> D) (l : list A)
  (m : list B) :
  length l = length m -> length (zip_with f l m) = length l.
Proof.
  revert m; induction l as [|x l IH]; intros [|y m] H; simpl in *;
    try discriminate; [reflexivity|].
  rewrite IH by congruence. reflexivity.
Qed.

(** An element-wise operation on two grids of one shape, flattened. *)
Lemma concat_zip_with {A B D : Type} (f : A -> B -> D) (g : grid A)
  (h : grid B) :
  row_lengths g = row_lengths h ->
  concat (zip_with (zip_with f) g h) = zip_with f (concat g) (concat h)
  /\ row_lengths (zip_with (zip_with f) g h) = row_lengths g.
Proof.
  revert h; induction g as [|r g IH]; intros [|r' h] H; simpl in *;
    try discriminate; [split; reflexivity|].
  injection H as Hr Hg. destruct (IH h Hg) as [IH1 IH2].
  rewrite IH1, IH2, zip_with_app, zip_with_row_length by exact Hr.
  split; reflexivity.
Qed.

Lemma zip_with_combine {A B D : Type} (f : A -> B -> D) (l : list A)
  (m : list B) :
  zip_with f l m = map (fun p => f (fst p) (snd p)) (combine l m).
Proof.
  revert m; induction l as [|x l IH]; intros [|y m]; simpl; try reflexivity.
  rewrite IH. reflexivity.
Qed.

(** Indexing by the mask of a test keeps the pairs that pass it. *)
Lemma select_filter {A B : Type} (p : A * B -> bool) (l : list A) (m : list B) :
  select l (map p (combine l m)) = map fst (filter p (combine l m))
  /\ select m (map p (combine l m)) = map snd (filter p (combine l m)).
Proof.
  revert m; induction l as [|x l IH]; intros [|y m]; simpl;
    try (split; reflexivity).
  destruct (IH m) as [IH1 IH2].
  destruct (p (x, y)); simpl; rewrite IH1, IH2; split; reflexivity.
Qed.

(** What the test of a block rejects: a NaN or a zero on either side. *)
Lemma valid_pair_false (p : Num.float * Num.float) :
  valid_pair p = false
  <-> Num.isnan (fst p) = true \/ Num.isnan (snd p) = true
      \/ Num.eqb (fst p) Num.zero = true \/ Num.eqb (snd p) Num.zero = true.
Proof.
  unfold valid_pair, valid_block, Num.neb.
  rewrite !andb_false_iff, !negb_false_iff. tauto.
Qed.

Lemma gselect_same {A B : Type} (g : grid A) (m : grid B) (k : grid bool) :
  row_lengths g = row_lengths m -> row_lengths k = row_lengths m ->
  gselect g k = Some (select (concat g) (concat k)).
Proof.
  intros H1 H2. unfold gselect.
  assert (E : same_shape g k = true) by (apply same_shape_iff; congruence).
  rewrite E. reflexivity.
Qed.

(** C8.  Both images are binned; the blocks that go to the regression
    are those whose two medians pass [valid_pair], that is, none is NaN or
    zero; the regression gets the medians and the standard deviations of
    these blocks; and the data of the target become
    [gamma * data + offset], pixel by pixel.  Nothing else of the object
    or of the reference changes. *)
Theorem check_flux_calibration_corrects (r : ndarray) (bin_size : Z)
  (plot save show : bool) (s : MState) :
  let target := data (base (muse s)) in
  let binned := bin_image target bin_size in
  let binned_ref := bin_image r bin_size in
  let blocks := combine (concat (fst binned)) (concat (fst binned_ref)) in
  let keep := map valid_pair blocks in
  let beta := odr_run (select (concat (fst binned)) keep)
                      (select (concat (fst binned_ref)) keep)
                      (select (concat (snd binned)) keep)
                      (select (concat (snd binned_ref)) keep)
                      (Num.one, Num.zero) in
  same_shape (fst binned_ref) (fst binned) = true ->
  same_shape (snd binned) (fst binned) = true ->
  same_shape (snd binned_ref) (fst binned) = true ->
  same_shape (values target) (values r) = true ->
  select (concat (fst binned)) keep = map fst (filter valid_pair blocks)
  /\ select (concat (fst binned_ref)) keep = map snd (filter valid_pair blocks)
  /\ (forall p, In p (filter valid_pair blocks) ->
        Num.isnan (fst p) = false /\ Num.isnan (snd p) = false
        /\ Num.eqb (fst p) Num.zero = false /\ Num.eqb (snd p) Num.zero = false)
  /\ exists d,
       check_flux_calibration (RefArray r) bin_size plot save show false s
       = Ok tt (mkMState
                  (set_base (set_data (amap (calibrated (fst beta) (snd beta)) target)
                               (base (muse s))) (muse s))
                  (reference s) d)
       /\ (plot && save = false -> d = mdisk s).
Proof.
  intros target binned binned_ref blocks keep beta H1 H2 H3 H4.
  apply same_shape_iff in H1, H2, H3.
  destruct (select_filter valid_pair (concat (fst binned))
              (concat (fst binned_ref))) as [Hx Hy].
  split; [exact Hx|]. split; [exact Hy|]. split.
  { intros p Hp. apply filter_In in Hp. destruct Hp as [_ Hp].
    unfold valid_pair, valid_block, Num.neb in Hp.
    rewrite !andb_true_iff, !negb_true_iff in Hp. tauto. }
  unfold check_flux_calibration. cbv iota.
  unfold bind at 1. cbn [ret].
  unfold bind at 1. unfold the_muse at 1.
  fold target. fold binned. fold binned_ref.
  destruct binned as [MUSE_median MUSE_std] eqn:Eb.
  destruct binned_ref as [reference_median reference_std] eqn:Er.
  cbn [fst snd] in *.
  destruct (concat_zip_with valid_block MUSE_median reference_median
              (eq_sym H1)) as [Hc Hrows].
  assert (Hmask : concat (zip_with (zip_with valid_block) MUSE_median
                            reference_median) = keep).
  { rewrite Hc, zip_with_combine. reflexivity. }
  unfold gzip at 1.
  assert (E1 : same_shape MUSE_median reference_median = true)
    by (apply same_shape_iff; congruence).
  rewrite E1. cbn [orelse]. unfold bind at 1. cbn [ret].
  rewrite (gselect_same MUSE_median MUSE_median _ eq_refl Hrows).
  cbn [orelse]. unfold bind at 1. cbn [ret].
  rewrite (gselect_same MUSE_std MUSE_median _ H2 Hrows).
  cbn [orelse]. unfold bind at 1. cbn [ret].
  rewrite (gselect_same reference_median MUSE_median _ H1 Hrows).
  cbn [orelse]. unfold bind at 1. cbn [ret].
  rewrite (gselect_same reference_std MUSE_median _ H3 Hrows).
  cbn [orelse]. unfold bind at 1. cbn [ret].
  rewrite Hmask. fold beta.
  unfold gzip. rewrite H4. cbn [orelse].
  destruct (plot && save).
  - eexists. split; [reflexivity | discriminate].
  - eexists. split; [reflexivity | reflexivity].
Qed.

End CalibrationProperties.

(** ** The methods on concrete inputs *)

Open Scope string_scope.

(** C1 at a concrete image with no exclusion region: the catalogue query
    answers, and the method raises [UnboundLocalError]. *)
Example get_gaia_catalog_no_galaxy_run :
  get_gaia_catalog (C:=toy0) here (Num.Fin 10) (Num.Fin 20) (Num.Fin 10)
    (state0 toy0 tt "adu")
  = Raise (UnboundLocalError "mask2") (state0 toy0 tt "adu").
Proof. reflexivity. Qed.

(** C2 at a concrete image: after [resample(header=h, inplace=False)] the
    data of the object are not the data it had, while its header still
    is. *)
Example resample_header_copy_run :
  let s := state0 toy0 tt "adu" in
  let s' := final_state (resample (C:=toy0) (Some muse_header) None false s) in
  data (self s') = plain [[Num.NaN; Num.NaN]; [Num.NaN; Num.NaN]]
  /\ data (self s') <> data (self s)
  /\ header (self s') = header (self s).
Proof. cbv zeta. repeat split. intros H. discriminate H. Qed.

(** C3 as stated fails: a fit that returns normally has replaced the data
    and the header of the reference. *)
Lemma measure_psf_mutates_reference :
  let s := fit_state toy0 tt "adu" in
  let run := measure_psf (C:=toy0) false false false false false None
               (no_kwargs toy0 tt) s in
  raised run = None
  /\ header (reference (final_state run)) = muse_header
  /\ header (reference s) = image_header
  /\ data (reference (final_state run)) <> data (reference s).
Proof. cbv zeta. repeat split. intros H. discriminate H. Qed.

(** C4 as stated fails, twice: a cutout inside the image, all finite, with
    exactly five flagged pixels (not more than five) is dropped; and a
    cutout with a non-finite pixel goes on to the peak detection, because
    that pixel is flagged and the masked test passes over it. *)
Lemma five_flagged_pixels_dropped :
  (let s := state0 toy_five tt "adu" in
   usable_cutout (C:=toy_five) pixels tt here s = Ok None s
   /\ Cutout2D (Collab:=toy_five) pixels here (Fz 7) tt = Some (cut5, tt)
   /\ forallb Num.isfinite (concat (values cut5)) = true
   /\ mask cut5 = Some five_flags
   /\ count_true five_flags = 5
   /\ ~ 5 < count_true five_flags)
  /\ (let s := state0 toy_nan tt "adu" in
      usable_cutout (C:=toy_nan) pixels tt here s = Ok (Some (cut_nan, tt)) s
      /\ In Num.NaN (concat (values cut_nan))
      /\ Num.isfinite Num.NaN = false).
Proof.
  split; cbv zeta.
  - repeat split. intros H. discriminate H.
  - repeat split. left. reflexivity.
Qed.

(** With four flagged pixels the same cutout goes on to the peak
    detection. *)
Example four_flagged_pixels_kept :
  let s := state0 toy_four tt "adu" in
  usable_cutout (C:=toy_four) pixels tt here s = Ok (Some (cut4, tt)) s
  /\ count_true four_flags = 4.
Proof. split; reflexivity. Qed.

(** C5 on a blank kernel: it is divided by its zero flux, and what is
    stored and written is NaN throughout. *)
Lemma degenerate_kernel_stored_as_nan_witness :
  let s := state_scaled toy_blank tt "adu" in
  let run := build_from (C:=toy_blank) pixels [(Num.one, Num.one)] 35 4 s in
  let kernel := [[Num.NaN; Num.NaN]; [Num.NaN; Num.NaN]] in
  raised run = None
  /\ psf (self (final_state run)) = Some kernel
  /\ disk (final_state run) "./img.psf.fits" = Some (psf_file kernel scale02)
  /\ exists stored scale,
       psf (self (final_state run)) = Some stored
       /\ disk (final_state run) (psf_path (self (final_state run)))
          = Some (psf_file stored scale)
       /\ psf_flux stored = Num.NaN.
Proof.
  cbv zeta. split; [reflexivity|]. split; [reflexivity|].
  split; [reflexivity|].
  destruct (degenerate_kernel_stored_as_nan (C:=toy_blank) pixels
              [(Num.one, Num.one)] 35 4 (state_scaled toy_blank tt "adu")
              (final_state (build_from (C:=toy_blank) pixels
                              [(Num.one, Num.one)] 35 4
                              (state_scaled toy_blank tt "adu")))
              (mkStar [[Num.one]] (Num.zero, Num.zero))
              eq_refl eq_refl)
    as (stored & scale & H1 & H2 & _ & H4 & _).
  - left. split; [discriminate | repeat constructor].
  - exists stored, scale. repeat split; assumption.
Defined.

(** C6 on two runs from a star file: with no good star the build exits
    and nothing is stored; with one, the kernel is stored and written. *)
Lemma build_psf_needs_good_star_witness :
  (let s := state0 toy_no_good tt "adu" in
   exists e,
     build_psf (C:=toy_no_good) here (Num.Fin 10) (Num.Fin 20)
       (Some "stars.dat") (Num.Fin 10) 35 None 4 true true s
     = Raise e (state_inputs toy_no_good tt "adu")
     /\ e = SystemExit "No stars were used for the fit."
     /\ psf (self (state_inputs toy_no_good tt "adu")) = psf (self s))
  /\ (let s := state0 toy0 tt "adu" in
      exists scale,
        build_psf (C:=toy0) here (Num.Fin 10) (Num.Fin 20)
          (Some "stars.dat") (Num.Fin 10) 35 None 4 true true s
        = Ok tt (mkIState
                   (set_psf (Some [[Num.one]]) (self (state_inputs toy0 tt "adu")))
                   (write_file disk0 "./img.psf.fits"
                      (psf_file [[Num.one]] scale)))).
Proof.
  split; cbv zeta.
  - destruct (build_psf_needs_good_star (C:=toy_no_good) here (Num.Fin 10)
                (Num.Fin 20) (Some "stars.dat") (Num.Fin 10) 35 None 4 true true
                (state0 toy_no_good tt "adu") (state_inputs toy_no_good tt "adu")
                pixels [(Num.one, Num.one)] eq_refl) as [Hnone _].
    destruct Hnone as (e & Hrun & Hexit & Hpsf & _).
    + intros H. discriminate H.
    + exists e. split; [exact Hrun|]. split; [|exact Hpsf].
      apply Hexit. intros H. discriminate H.
  - destruct (build_psf_needs_good_star (C:=toy0) here (Num.Fin 10)
                (Num.Fin 20) (Some "stars.dat") (Num.Fin 10) 35 None 4 true true
                (state0 toy0 tt "adu") (state_inputs toy0 tt "adu")
                pixels [(Num.one, Num.one)] eq_refl) as [_ Hsome].
    destruct (Hsome eq_refl (mkStar [[Num.one]] (Num.zero, Num.zero)) eq_refl)
      as (scale & _ & Hrun).
    exists scale. exact Hrun.
Defined.

(** C7 on a reference that carries no PSF. *)
Lemma measure_psf_preconditions_witness :
  let s := fit_state_no_psf toy0 tt "adu" in
  psf (reference s) = None
  /\ exists e,
       measure_psf (C:=toy0) false false false false false None
         (no_kwargs toy0 tt) s = Raise e s.
Proof.
  cbv zeta. split; [reflexivity|].
  destruct (measure_psf_preconditions (C:=toy0) false false false false false
              None (no_kwargs toy0 tt) (fit_state_no_psf toy0 tt "adu")
              (or_intror (or_introl eq_refl))) as (e & H & _).
  exists e. exact H.
Defined.

(** C8 on a target with a zero and a NaN: the two blocks they make are
    left out of the regression, and the data become [2 * data + 1]. *)
Lemma check_flux_calibration_corrects_witness :
  let s := fit_state toy0 tt "adu" in
  exists d,
    check_flux_calibration (C:=toy0) (RefArray pixels) 15 false false false
      false s
    = Ok tt (mkMState
               (set_base
                  (set_data (plain [[Num.Fin (2 * 1 + 1); Num.Fin (2 * 0 + 1)];
                                    [Num.NaN; Num.Fin (2 * 4 + 1)]])
                     (base (muse s))) (muse s))
               (reference s) d).
Proof.
  cbv zeta.
  destruct (check_flux_calibration_corrects (C:=toy0) pixels 15 false false
              false (fit_state toy0 tt "adu") eq_refl eq_refl eq_refl eq_refl)
    as (_ & _ & _ & d & H & _).
  exists d. exact H.
Defined.

Close Scope string_scope.

(** * Further properties of the two classes *)

(** ** Resampling: what a failure leaves *)

Section ResampleFailures.

Context {C : Collab}.

(** X1.  A call of [resample] that raises - no mode or both modes given,
    the file missing, a size that is no integer - leaves the object and
    the files exactly as they were. *)
Theorem resample_raise_leaves_state (hdr : option Header)
  (pixscale : option Num.float) (inplace : bool) (s s' : IState) (e : exn) :
  resample hdr pixscale inplace s = Raise e s' -> s' = s.
Proof.
  destruct s as [i d]. destruct hdr as [h|], pixscale as [p|].
  - cbn. intros H; injection H as _ <-. reflexivity.
  - destruct inplace.
    + rewrite resample_header_inplace. discriminate.
    + rewrite resample_header_copy. discriminate.
  - rewrite resample_pixscale_spec.
    destruct (d _); [|intros H; injection H as _ <-; reflexivity].
    destruct (mpdaf_resampled _ _); [destruct inplace; discriminate|].
    intros H; injection H as _ <-. reflexivity.
  - cbn. intros H; injection H as _ <-. reflexivity.
Qed.

Lemma floordiv_by_zero (x : Num.float) (q : Q) :
  (q == 0)%Q -> Num.isfinite (Num.floordiv x (Num.Fin q)) = false.
Proof.
  intros Hq. destruct x as [a| | |]; try reflexivity.
  unfold Num.floordiv, Num.Qsgn.
  assert (E : Qcompare q 0 = Eq) by (apply Qeq_alt; exact Hq).
  rewrite E. destruct (Qcompare a 0); reflexivity.
Qed.

Lemma int_of_not_finite (x : Num.float) :
  Num.isfinite x = false ->
  exists msg, int_of_float x = inr (OverflowError msg)
              \/ int_of_float x = inr (ValueError msg).
Proof.
  destruct x; simpl; try discriminate; intros _; eexists; eauto.
Qed.

(** X2.  A pixel scale of zero never resamples: whatever the file holds,
    [resample(pixscale=0)] raises [OverflowError] or [ValueError] (the
    size is an infinity or NaN) and changes nothing. *)
Theorem resample_zero_pixscale (q : Q) (inplace : bool) (i : Image) (d : Disk)
  (f : file) :
  (q == 0)%Q ->
  d (image_path i) = Some f ->
  exists msg,
    resample None (Some (Num.Fin q)) inplace (mkIState i d)
    = Raise (OverflowError msg) (mkIState i d)
    \/ resample None (Some (Num.Fin q)) inplace (mkIState i d)
       = Raise (ValueError msg) (mkIState i d).
Proof.
  intros Hq Hf. rewrite resample_pixscale_spec, Hf.
  unfold mpdaf_resampled.
  destruct (int_of_not_finite _
              (floordiv_by_zero
                 (Num.mul (Fz (fst (mpdaf_shape (mpdaf_crop (mpdaf_open f)))))
                    (Num.mul (fst (mpdaf_get_step (mpdaf_crop (mpdaf_open f))))
                       (Fz 3600))) q Hq)) as [msg [H | H]];
    unfold mpdaf_newdim; cbn [fst snd]; rewrite H; exists msg; auto.
Qed.

End ResampleFailures.

Open Scope string_scope.

Lemma resample_zero_pixscale_witness :
  exists msg,
    resample (C:=toy0) None (Some (Num.Fin 0)) true (state0 toy0 tt "adu")
    = Raise (OverflowError msg) (state0 toy0 tt "adu")
    \/ resample (C:=toy0) None (Some (Num.Fin 0)) true (state0 toy0 tt "adu")
       = Raise (ValueError msg) (state0 toy0 tt "adu").
Proof.
  apply (resample_zero_pixscale (C:=toy0) 0 true (image0 (C:=toy0) tt "adu") disk0
           (FitsFile [(pixels, image_header)])).
  - reflexivity.
  - reflexivity.
Defined.

Lemma resample_raise_leaves_state_witness :
  final_state (resample (C:=toy0) None None true (state0 toy0 tt "adu"))
  = state0 toy0 tt "adu".
Proof.
  apply (resample_raise_leaves_state (C:=toy0) None None true
           (state0 toy0 tt "adu") _
           (ValueError "One between header and pixscale must be defined")).
  reflexivity.
Defined.

Close Scope string_scope.

(** ** Curation: what the catalogue holds *)

Section CuratedCatalogue.

Context {C : Collab}.

Lemma select_by_test {A : Type} (p : A -> bool) (l : list A) :
  select l (map p l) = filter p l.
Proof.
  induction l as [|x l IH]; simpl; [reflexivity|].
  destruct (p x); rewrite IH; reflexivity.
Qed.

Lemma select_In {A : Type} (x : A) (l : list A) (m : list bool) :
  In x (select l m) -> In x l.
Proof.
  revert m; induction l as [|y l IH]; intros [|b m]; simpl; try tauto.
  destruct b; simpl; intros H.
  - destruct H as [H | H]; [left; exact H | right; eapply IH; exact H].
  - right; eapply IH; exact H.
Qed.

Lemma zip_with_map2 {A B D E : Type} (f : B -> D -> E) (g : A -> B)
  (h : A -> D) (l : list A) :
  zip_with f (map g l) (map h l) = map (fun x => f (g x) (h x)) l.
Proof.
  induction l as [|x l IH]; simpl; [reflexivity|]. rewrite IH. reflexivity.
Qed.

(** The method, when it returns: the table it assigns is the queried one
    passed through the proximity mask, the magnitude test and the
    placement test, in this order. *)
Lemma get_gaia_catalog_returns (center : SkyCoord)
  (gmin gmax radius : Num.float) (s s' : IState) :
  get_gaia_catalog center gmin gmax radius s = Ok tt s' ->
  exists g,
    galaxy (self s) = Some g
    /\ s' = mkIState
              (set_stars
                 (Some (GaiaTable
                          (filter (well_placed (self s) g)
                             (filter (in_magnitude gmin gmax)
                                (isolated center radius)))))
                 (self s))
              (disk s).
Proof.
  unfold get_gaia_catalog, bind, the_self. cbn beta iota.
  repeat match goal with
         | |- context [index_by ?l ?m s] =>
             destruct (index_by_cases l m s) as [-> | ->];
             [cbn beta iota | discriminate]
         end.
  destruct (galaxy (self s)) as [g|]; [|discriminate].
  cbn [orelse ret].
  match goal with
  | |- context [index_by ?l ?m s] =>
      destruct (index_by_cases l m s) as [-> | ->]; [|discriminate]
  end.
  unfold on_self, modify. intros H; injection H as <-.
  exists g. split; [reflexivity|]. f_equal. f_equal. f_equal. f_equal.
  unfold isolated.
  set (iso := select (query_gaia center radius) _).
  rewrite !select_map. fold iso.
  match goal with
  | |- context [select iso (map ?f iso)] =>
      change (select iso (map f iso))
        with (select iso (map (in_magnitude gmin gmax) iso))
  end.
  rewrite (select_by_test (in_magnitude gmin gmax) iso).
  set (kept := filter (in_magnitude gmin gmax) iso).
  rewrite !map_map, !zip_with_map2.
  rewrite <- (select_by_test (well_placed (self s) g) kept).
  f_equal.
Qed.

(** X3.  Every star of a curated catalogue comes from the query, has its
    magnitude in [[gmin, gmax]], lies in the footprint and outside the
    exclusion region, and is at least 15 pixels from the low edges and
    more than 15 from the high ones, on both axes. *)
Theorem curated_stars_sound (center : SkyCoord) (gmin gmax radius : Num.float)
  (s s' : IState) :
  get_gaia_catalog center gmin gmax radius s = Ok tt s' ->
  exists g rows,
    galaxy (self s) = Some g
    /\ stars (self s') = Some (GaiaTable rows)
    /\ forall r, In r rows ->
         let xy := world_to_pixel (wcs (self s)) (row_coord r) in
         In r (query_gaia center radius)
         /\ Num.leb gmin (phot_g_mean_mag r) = true
         /\ Num.leb (phot_g_mean_mag r) gmax = true
         /\ footprint_contains (wcs (self s)) (row_coord r) = true
         /\ region_contains g (row_coord r) (wcs (self s)) = false
         /\ Num.leb (Fz 15) (fst xy) = true
         /\ Num.ltb (fst xy) (Fz (snd (shape (data (self s))) - 15)) = true
         /\ Num.leb (Fz 15) (snd xy) = true
         /\ Num.ltb (snd xy) (Fz (fst (shape (data (self s))) - 15)) = true.
Proof.
  intros H. destruct (get_gaia_catalog_returns _ _ _ _ _ _ H) as (g & Hg & ->).
  exists g, (filter (well_placed (self s) g)
               (filter (in_magnitude gmin gmax) (isolated center radius))).
  split; [exact Hg|]. split.
  - destruct (self s); reflexivity.
  - intros r Hr. cbv zeta.
    apply filter_In in Hr. destruct Hr as [Hr Hplace].
    apply filter_In in Hr. destruct Hr as [Hr Hmag].
    unfold well_placed, away_from_edges, in_magnitude in *.
    rewrite !andb_true_iff, negb_true_iff in Hplace.
    rewrite andb_true_iff in Hmag.
    split; [eapply select_In; exact Hr|]. tauto.
Qed.

(** X4.  Curation loses no star it should keep, and touches nothing but
    [self.stars]: a row the proximity mask keeps, with its magnitude in
    range and well placed, is in the table; the other attributes and the
    files are as before. *)
Theorem curated_stars_complete (center : SkyCoord)
  (gmin gmax radius : Num.float) (s s' : IState) :
  get_gaia_catalog center gmin gmax radius s = Ok tt s' ->
  exists g rows,
    galaxy (self s) = Some g
    /\ s' = mkIState (set_stars (Some (GaiaTable rows)) (self s)) (disk s)
    /\ forall r, In r (isolated center radius) ->
         in_magnitude gmin gmax r = true ->
         well_placed (self s) g r = true ->
         In r rows.
Proof.
  intros H. destruct (get_gaia_catalog_returns _ _ _ _ _ _ H) as (g & Hg & ->).
  exists g, (filter (well_placed (self s) g)
               (filter (in_magnitude gmin gmax) (isolated center radius))).
  split; [exact Hg|]. split; [reflexivity|].
  intros r Hr Hmag Hplace.
  apply filter_In. split; [|exact Hplace].
  apply filter_In. split; assumption.
Qed.

End CuratedCatalogue.

Open Scope string_scope.

Lemma curated_stars_sound_witness :
  exists g rows,
    galaxy (self (wide_state toy0 tt "adu")) = Some g
    /\ stars (self (final_state
                      (get_gaia_catalog (C:=toy0) middle (Num.Fin 10)
                         (Num.Fin 20) (Num.Fin 10) (wide_state toy0 tt "adu"))))
       = Some (GaiaTable rows)
    /\ rows = [mkRow middle (Num.Fin 15)].
Proof.
  destruct (curated_stars_sound (C:=toy0) middle (Num.Fin 10) (Num.Fin 20)
              (Num.Fin 10) (wide_state toy0 tt "adu")
              (final_state
                 (get_gaia_catalog (C:=toy0) middle (Num.Fin 10) (Num.Fin 20)
                    (Num.Fin 10) (wide_state toy0 tt "adu"))) eq_refl)
    as (g & rows & Hg & Hrows & _).
  exists g, rows. split; [exact Hg|]. split; [exact Hrows|].
  vm_compute in Hrows. injection Hrows as <-. reflexivity.
Defined.

Lemma curated_stars_complete_witness :
  exists rows,
    get_gaia_catalog (C:=toy0) middle (Num.Fin 10) (Num.Fin 20) (Num.Fin 10)
      (wide_state toy0 tt "adu")
    = Ok tt (mkIState (set_stars (Some (GaiaTable rows))
                         (self (wide_state toy0 tt "adu"))) disk0)
    /\ In (mkRow middle (Num.Fin 15)) rows.
Proof.
  destruct (curated_stars_complete (C:=toy0) middle (Num.Fin 10) (Num.Fin 20)
              (Num.Fin 10) (wide_state toy0 tt "adu")
              (final_state
                 (get_gaia_catalog (C:=toy0) middle (Num.Fin 10) (Num.Fin 20)
                    (Num.Fin 10) (wide_state toy0 tt "adu"))) eq_refl)
    as (g & rows & Hg & Hs & Hin).
  exists rows. split.
  - transitivity
      (Ok (S:=@IState toy0) tt
         (final_state
            (get_gaia_catalog (C:=toy0) middle (Num.Fin 10) (Num.Fin 20)
               (Num.Fin 10) (wide_state toy0 tt "adu"))));
      [reflexivity | f_equal; exact Hs].
  - injection Hg as <-.
    apply Hin; [left; reflexivity | reflexivity | reflexivity].
Defined.

Close Scope string_scope.

(** ** The star table: one bad star, and the missing attributes *)

Section StarTable.

Context {C : Collab}.

(** An entry is dropped, kept, or stops the loop on the missing [mask]
    attribute; nothing else can happen, and the state is not touched. *)
Lemma star_row_outcomes (data_ : ndarray) (wcs_ : Wcs) (coord : SkyCoord)
  (s : IState) :
  (exists o, star_row data_ wcs_ coord s = Ok o s)
  \/ (exists msg, star_row data_ wcs_ coord s = Raise (AttributeError msg) s).
Proof.
  unfold star_row, usable_cutout, bind, orelse.
  destruct (Cutout2D _ _ _ _) as [cut|]; [|left; eexists; reflexivity].
  destruct (negb _); [left; eexists; reflexivity|].
  destruct (mask (fst cut)) as [m|]; [|right; eexists; reflexivity].
  cbn. destruct (5 <=? count_true m); cbn; [left; eexists; reflexivity|].
  destruct (refined_center (fst cut)); left; eexists; reflexivity.
Qed.

Lemma star_row_masked (data_ : ndarray) (wcs_ : Wcs) (coord : SkyCoord)
  (s : IState) :
  (forall cut, Cutout2D data_ coord (Fz 7) wcs_ = Some cut ->
               mask (fst cut) <> None) ->
  exists o, star_row data_ wcs_ coord s = Ok o s.
Proof.
  intros Hm. unfold star_row, usable_cutout, bind, orelse.
  destruct (Cutout2D _ _ _ _) as [cut|]; [|eexists; reflexivity].
  specialize (Hm cut eq_refl).
  destruct (negb _); [eexists; reflexivity|].
  destruct (mask (fst cut)) as [m|]; [|congruence].
  cbn. destruct (5 <=? count_true m); cbn; [eexists; reflexivity|].
  destruct (refined_center (fst cut)); eexists; reflexivity.
Qed.

Lemma star_rows_outcomes (data_ : ndarray) (wcs_ : Wcs)
  (coords : list SkyCoord) (s : IState) :
  (exists rows, star_rows data_ wcs_ coords s = Ok rows s)
  \/ (exists msg, star_rows data_ wcs_ coords s = Raise (AttributeError msg) s).
Proof.
  induction coords as [|c coords IH]; [left; eexists; reflexivity|].
  destruct (star_row_outcomes data_ wcs_ c s) as [[o Ho] | [msg Ho]].
  - destruct IH as [[rows Hr] | [msg Hr]]; [left | right];
      eexists; simpl; unfold bind; rewrite Ho, Hr; reflexivity.
  - right. eexists. simpl. unfold bind. rewrite Ho. reflexivity.
Qed.

(** X5.  On masked-array data a bad star never stops the batch: the loop
    over the entries returns, with at most one row per entry, and leaves
    the object and the files alone. *)
Theorem star_rows_masked_returns (data_ : ndarray) (wcs_ : Wcs)
  (coords : list SkyCoord) (s : IState) :
  (forall coord cut, In coord coords ->
                     Cutout2D data_ coord (Fz 7) wcs_ = Some cut ->
                     mask (fst cut) <> None) ->
  exists rows, star_rows data_ wcs_ coords s = Ok rows s
               /\ (length rows <= length coords)%nat.
Proof.
  induction coords as [|c coords IH]; intros Hm.
  - exists []. split; [reflexivity | apply Nat.le_refl].
  - simpl. unfold bind at 1.
    destruct (star_row_masked data_ wcs_ c s) as [o ->].
    { intros cut Hc. apply (Hm c cut); [left; reflexivity | exact Hc]. }
    unfold bind at 1.
    destruct IH as (rows & -> & Hlen).
    { intros coord cut Hin. apply Hm. right; exact Hin. }
    cbn. destruct o; eexists; (split; [reflexivity | simpl; lia]).
Qed.

(** X6.  On a plain array the loop cannot get past a star whose cutout is
    finite: the [mask] attribute is missing, so the whole batch ends in
    [AttributeError] and no table is made. *)
Theorem star_rows_plain_raises (data_ : ndarray) (wcs_ : Wcs)
  (coords : list SkyCoord) (s : IState) (coord : SkyCoord)
  (cut : ndarray * Wcs) :
  In coord coords ->
  Cutout2D data_ coord (Fz 7) wcs_ = Some cut ->
  mask (fst cut) = None ->
  forallb Num.isfinite (concat (values (fst cut))) = true ->
  exists msg, star_rows data_ wcs_ coords s = Raise (AttributeError msg) s.
Proof.
  intros Hin Hc Hm Hf.
  induction coords as [|c coords IH]; [destruct Hin|].
  simpl. unfold bind at 1.
  destruct (star_row_outcomes data_ wcs_ c s) as [[o Ho] | [msg ->]];
    [|eexists; reflexivity].
  destruct Hin as [-> | Hin].
  - exfalso.
    destruct (usable_cutout_plain data_ wcs_ coord s cut Hc Hm Hf) as [msg Hr].
    unfold star_row, bind in Ho. rewrite Hr in Ho. discriminate.
  - rewrite Ho. unfold bind at 1.
    destruct (IH Hin) as [msg ->]. eexists; reflexivity.
Qed.

(** X7.  [build_startable] needs the exclusion region for its plot: on an
    object without one it always ends in [AttributeError], whatever the
    stars, and returns no table. *)
Theorem build_startable_needs_galaxy (coords : list SkyCoord) (data_ : ndarray)
  (wcs_ : Wcs) (save show : bool) (i : Image) (d : Disk) :
  let s := mkIState (set_galaxy None i) d in
  exists msg,
    build_startable coords data_ wcs_ save show s = Raise (AttributeError msg) s.
Proof.
  intros s. unfold build_startable. unfold bind at 1.
  destruct (star_rows_outcomes data_ wcs_ coords s) as [[rows ->] | [msg ->]];
    [|eexists; reflexivity].
  subst s. destruct i. cbn. eexists; reflexivity.
Qed.

End StarTable.

Open Scope string_scope.

Lemma star_rows_masked_returns_witness :
  exists rows,
    star_rows (C:=toy_four) pixels tt [here; here] (state0 toy_four tt "adu")
    = Ok rows (state0 toy_four tt "adu")
    /\ (length rows <= 2)%nat.
Proof.
  apply (star_rows_masked_returns (C:=toy_four) pixels tt [here; here]
           (state0 toy_four tt "adu")).
  intros coord cut _ H. injection H as <-. discriminate.
Defined.

Close Scope string_scope.

Lemma star_rows_plain_raises_witness :
  exists msg,
    star_rows (C:=toy_plain) pixels tt [here] (state0 toy_plain tt "adu"%string)
    = Raise (AttributeError msg) (state0 toy_plain tt "adu"%string).
Proof.
  apply (star_rows_plain_raises (C:=toy_plain) pixels tt [here]
           (state0 toy_plain tt "adu"%string) here (pixels, tt)).
  - left; reflexivity.
  - reflexivity.
  - reflexivity.
  - reflexivity.
Defined.

(** ** Building: what a run needs, and what a failed run leaves *)

Section BuildRuns.

Context {C : Collab}.

Lemma same_galaxy_refl (s : IState) : same_galaxy s s.
Proof. reflexivity. Qed.

Lemma same_galaxy_trans (s t u : IState) :
  same_galaxy s t -> same_galaxy t u -> same_galaxy s u.
Proof. unfold same_galaxy; congruence. Qed.

Lemma working_grid_same_galaxy (pixscale : option Num.float) :
  keeps same_galaxy (working_grid pixscale).
Proof.
  unfold working_grid.
  frame same_galaxy_refl same_galaxy_trans;
    try (apply (keeps_unchanged _ _ same_galaxy_refl);
         apply resample_pixscale_copy_state);
    intros st; destruct st as [[] dk]; reflexivity.
Qed.

Lemma working_grid_scale (p : Num.float) (s s1 : IState) (dw : ndarray * Wcs) :
  working_grid (Some p) s = Ok dw s1 -> psfscale (self s1) = Some p.
Proof.
  unfold working_grid, bind. destruct s as [i d].
  rewrite resample_pixscale_spec.
  destruct (d _); [|discriminate].
  destruct (mpdaf_resampled _ _); [|discriminate].
  cbn. intros H; injection H as _ <-. destruct i; reflexivity.
Qed.

(** X8.  Without an exclusion region and without a star file [build_psf]
    never builds: the run always raises, [self.psf] is what it was and
    no FITS file is written. *)
Theorem build_psf_needs_exclusion_region (center : SkyCoord)
  (gmin gmax radius : Num.float) (npix : Z) (pixscale : option Num.float)
  (oversampling : Z) (save show : bool) (i : Image) (d : Disk) :
  let s := mkIState (set_galaxy None i) d in
  exists e s',
    build_psf center gmin gmax None radius npix pixscale oversampling
      save show s = Raise e s'
    /\ psf (self s') = psf i
    /\ no_new_fits d (disk s').
Proof.
  intros s.
  pose proof (build_inputs_psf_untouched center gmin gmax None radius
                pixscale save show s) as Hkeep.
  unfold build_psf, bind.
  destruct (build_inputs center gmin gmax None radius pixscale save show s)
    as [inp s1|e s1] eqn:Hin.
  - exfalso. unfold build_inputs, bind in Hin.
    pose proof (working_grid_same_galaxy pixscale s) as Hgal.
    destruct (working_grid pixscale s) as [dw s0|e s0]; [|discriminate].
    cbn in Hgal. unfold same_galaxy in Hgal.
    unfold star_positions, bind in Hin.
    destruct (get_gaia_catalog center gmin gmax radius s0) as [[] s2|e s2] eqn:Hg;
      [|discriminate].
    destruct (get_gaia_catalog_returns _ _ _ _ _ _ Hg) as (g & Hsome & _).
    rewrite Hgal in Hsome. subst s. destruct i; discriminate.
  - exists e, s1. split; [reflexivity|].
    destruct Hkeep as [Hpsf Hfits]. cbn in Hpsf, Hfits.
    split; [|exact Hfits].
    rewrite Hpsf. subst s. destruct i; reflexivity.
Qed.

(** X9.  A star file is enough: with one on disk, [build_psf] on the
    native grid queries no catalogue and needs no exclusion region; if
    the builder accepts a star, the run returns with the stars of the
    file in [self.stars], the rounded pixel scale in [self.psfscale] and
    the normalised kernel stored and written. *)
Theorem build_psf_from_star_file (center : SkyCoord)
  (gmin gmax radius : Num.float) (npix oversampling : Z) (save show : bool)
  (sf : string) (rows : list (Num.float * Num.float)) (s : IState)
  (star0 : Star) :
  let cat := map (fun r => mkSky (fst r) (snd r)) rows in
  let scale := Num.around
                 (Num.mul (fst (proj_plane_pixel_scales (wcs (self s))))
                    (Fz 3600)) 3 in
  let stars_ := cutouts (data (self s))
                  (map (world_to_pixel (wcs (self s))) cat) npix in
  let kernel := normalized (evaluated (fst (built stars_ oversampling)) star0) in
  disk s sf = Some (AsciiFile rows) ->
  hd_error stars_ = Some star0 ->
  0 < n_good_stars stars_ oversampling ->
  build_psf center gmin gmax (Some sf) radius npix None oversampling
    save show s
  = Ok tt (mkIState
             (set_psf (Some kernel)
                (set_stars (Some (RaDecTable cat))
                   (set_psfscale (Some scale) (self s))))
             (write_file (disk s) (psf_path (self s))
                (psf_file kernel scale))).
Proof.
  intros cat scale stars_ kernel Hfile Hhd Hgood.
  unfold build_psf. unfold bind at 1.
  assert (Hin : build_inputs center gmin gmax (Some sf) radius None save show s
                = Ok (data (self s), map (world_to_pixel (wcs (self s))) cat)
                     (mkIState (set_stars (Some (RaDecTable cat))
                                  (set_psfscale (Some scale) (self s)))
                        (disk s))).
  { unfold build_inputs, working_grid, star_positions, bind, the_self,
      the_disk, on_self, modify, orelse, ret.
    cbn [self disk fst snd]. rewrite Hfile.
    destruct s as [[] d]. reflexivity. }
  rewrite Hin. cbn [fst snd]. rewrite build_from_spec.
  cbn [self disk]. fold stars_. rewrite Hhd. fold kernel.
  apply Z.ltb_lt in Hgood. rewrite Hgood.
  destruct s as [[] d]. reflexivity.
Qed.

(** X10.  A build that fails at the builder has already recorded the new
    pixel scale: after [build_psf(pixscale=p)] with no good star,
    [self.psfscale] is [p] while [self.psf] is still the kernel the
    object held before. *)
Theorem build_psf_failure_keeps_new_scale (center : SkyCoord)
  (gmin gmax : Num.float) (stars_file : option string) (radius : Num.float)
  (npix : Z) (p : Num.float) (oversampling : Z) (save show : bool)
  (s s1 : IState) (data_ : ndarray) (stars_tbl : list (Num.float * Num.float)) :
  build_inputs center gmin gmax stars_file radius (Some p) save show s
  = Ok (data_, stars_tbl) s1 ->
  n_good_stars (cutouts data_ stars_tbl npix) oversampling <= 0 ->
  let s' := final_state
              (build_psf center gmin gmax stars_file radius npix (Some p)
                 oversampling save show s) in
  raised (build_psf center gmin gmax stars_file radius npix (Some p)
            oversampling save show s) <> None
  /\ psfscale (self s') = Some p
  /\ psf (self s') = psf (self s).
Proof.
  intros Hin Hn.
  pose proof (build_inputs_psf_untouched center gmin gmax stars_file radius
                (Some p) save show s) as [Hpsf _].
  rewrite Hin in Hpsf. cbn in Hpsf.
  assert (Hscale : psfscale (self s1) = Some p).
  { unfold build_inputs, bind in Hin.
    destruct (working_grid (Some p) s) as [dw s0|e s0] eqn:Hw; [|discriminate].
    pose proof (star_positions_same_psfscale center gmin gmax stars_file
                  radius (fst dw) (snd dw) save show s0) as Hk.
    destruct (star_positions _ _ _ _ _ _ _ _ _ s0) as [tbl s2|e s2];
      [|discriminate].
    cbn in Hin. injection Hin as _ _ <-.
    cbn in Hk. unfold same_psfscale in Hk. rewrite Hk.
    eapply working_grid_scale; exact Hw. }
  unfold build_psf, bind. rewrite Hin. cbn [fst snd].
  rewrite build_from_spec. apply Z.ltb_ge in Hn. rewrite Hn.
  destruct (hd_error _); cbn; (split; [discriminate | split; assumption]).
Qed.

(** X11.  What [build_from] writes, [open_psf] reads back into any
    object that sees the same files: the kernel and the scale it loads
    are those the builder stored, and nothing else of the object
    changes. *)
Theorem psf_round_trip (data_ : ndarray)
  (stars_tbl : list (Num.float * Num.float)) (npix oversampling : Z)
  (s s' : IState) (other : Image) :
  build_from data_ stars_tbl npix oversampling s = Ok tt s' ->
  open_psf (psf_path (self s')) (mkIState other (disk s'))
  = Ok tt (mkIState
             (set_psfscale (psfscale (self s')) (set_psf (psf (self s')) other))
             (disk s')).
Proof.
  rewrite build_from_spec.
  destruct (hd_error _) as [star0|]; [|discriminate]. cbv zeta.
  destruct (0 <? _); [|discriminate].
  destruct (psfscale (self s)) as [scale|] eqn:Hs; [|discriminate].
  intros H; injection H as <-.
  unfold open_psf, bind, the_disk, orelse. cbn [disk self].
  rewrite psf_path_set_psf.
  unfold write_file at 1. rewrite String.eqb_refl. cbn.
  destruct s as [[] d]. cbn in *. subst. reflexivity.
Qed.

(** X12.  [open_psf] on a FITS file that has no [PSFSCALE] card raises
    [KeyError] after it has replaced the kernel: the object is left with
    the new [psf] and the scale it had before. *)
Theorem open_psf_without_scale (name : string) (a : ndarray) (head : Header)
  (rest : list (ndarray * Header)) (i : Image) (d : Disk) :
  d name = Some (FitsFile ((a, head) :: rest)) ->
  header_get head "PSFSCALE" = None ->
  exists msg,
    open_psf name (mkIState i d)
    = Raise (KeyError msg) (mkIState (set_psf (Some (values a)) i) d)
    /\ psfscale (set_psf (Some (values a)) i) = psfscale i.
Proof.
  intros Hd Hk. unfold open_psf, bind, the_disk, orelse. cbn [disk self].
  rewrite Hd. cbn. rewrite Hk. eexists. split; [reflexivity|].
  destruct i; reflexivity.
Qed.

End BuildRuns.

Open Scope string_scope.

(** X9 on the star file of [disk0]: the build returns with the kernel of
    the builder stored. *)
Lemma build_psf_from_star_file_witness :
  exists s',
    build_psf (C:=toy0) here (Num.Fin 10) (Num.Fin 20) (Some "stars.dat")
      (Num.Fin 10) 35 None 4 true true (state0 toy0 tt "adu") = Ok tt s'
    /\ psf (self s') = Some [[Num.one]]
    /\ stars (self s') = Some (RaDecTable [here]).
Proof.
  eexists. split.
  - apply (build_psf_from_star_file (C:=toy0) here (Num.Fin 10) (Num.Fin 20)
             (Num.Fin 10) 35 4 true true "stars.dat" [(Num.Fin 1, Num.Fin 1)]
             (state0 toy0 tt "adu") (mkStar [[Num.one]] (Num.zero, Num.zero)));
      reflexivity.
  - split; reflexivity.
Defined.

(** X10 on a reference that holds a kernel made at 0.2 arcsec per pixel:
    a failed build at 0.3 leaves that kernel with the scale 0.3. *)
Lemma build_psf_failure_keeps_new_scale_witness :
  let s := mkIState (reference_with_psf toy_no_good tt "adu") disk0 in
  let s' := final_state
              (build_psf (C:=toy_no_good) here (Num.Fin 10) (Num.Fin 20)
                 (Some "stars.dat") (Num.Fin 10) 35 (Some (Num.Fin (3 # 10)))
                 4 true true s) in
  psfscale (self s) = Some scale02
  /\ psfscale (self s') = Some (Num.Fin (3 # 10))
  /\ psf (self s') = Some [[Num.one]].
Proof.
  cbv zeta. split; [reflexivity|].
  destruct (build_psf_failure_keeps_new_scale (C:=toy_no_good) here
              (Num.Fin 10) (Num.Fin 20) (Some "stars.dat") (Num.Fin 10) 35
              (Num.Fin (3 # 10)) 4 true true
              (mkIState (reference_with_psf toy_no_good tt "adu") disk0)
              (mkIState
                 (set_stars (Some (RaDecTable [here]))
                    (set_psfscale (Some (Num.Fin (3 # 10)))
                       (reference_with_psf toy_no_good tt "adu")))
                 disk0)
              pixels [(Num.one, Num.one)] eq_refl)
    as (_ & Hscale & Hpsf).
  - intros H. discriminate H.
  - split; [exact Hscale | exact Hpsf].
Defined.

(** X11 on the kernel of flux 4: a second object opening the file gets
    the normalised kernel and the scale 0.2. *)
Lemma psf_round_trip_witness :
  let s := state_scaled toy_flux4 tt "adu" in
  let s' := final_state
              (build_from (C:=toy_flux4) pixels [(Num.one, Num.one)] 35 4 s) in
  exists t,
    open_psf (C:=toy_flux4) "./img.psf.fits"
      (mkIState (image0 (C:=toy_flux4) tt "Jy") (disk s')) = Ok tt t
    /\ psf (self t) = psf (self s')
    /\ psfscale (self t) = Some scale02
    /\ units (self t) = "Jy".
Proof.
  cbv zeta. eexists. split.
  - apply (psf_round_trip (C:=toy_flux4) pixels [(Num.one, Num.one)] 35 4
             (state_scaled toy_flux4 tt "adu")
             (final_state
                (build_from (C:=toy_flux4) pixels [(Num.one, Num.one)] 35 4
                   (state_scaled toy_flux4 tt "adu")))
             (image0 (C:=toy_flux4) tt "Jy")).
    reflexivity.
  - repeat split; reflexivity.
Defined.

(** X12 on a PSF file with an empty header: the kernel of the file is
    loaded, the scale stays 0.2. *)
Lemma open_psf_without_scale_witness :
  let i := reference_with_psf toy0 tt "adu" in
  exists msg s',
    open_psf (C:=toy0) "bare.psf.fits" (mkIState i unscaled_psf_disk)
    = Raise (KeyError msg) s'
    /\ psf i = Some [[Num.one]]
    /\ psf (self s') = Some [[Num.Fin 7]]
    /\ psfscale (self s') = Some scale02.
Proof.
  cbv zeta.
  destruct (open_psf_without_scale (C:=toy0) "bare.psf.fits"
              (plain [[Num.Fin 7]]) [] [] (reference_with_psf toy0 tt "adu")
              unscaled_psf_disk eq_refl eq_refl) as (msg & Hrun & _).
  exists msg. eexists. split; [exact Hrun|]. repeat split; reflexivity.
Defined.

Close Scope string_scope.

(** ** Calibration and fit: what a run leaves in the target *)

Section FitRuns.

Context {C : Collab}.

Lemma bind_ok {S A B : Type} (m : M S A) (k : A -> M S B) (s s' : S) (b : B) :
  bind m k s = Ok b s' -> exists a s1, m s = Ok a s1 /\ k a s1 = Ok b s'.
Proof. unfold bind. destruct (m s) as [a s1|e s1]; [eauto | discriminate]. Qed.

(** The two ways [check_flux_calibration] ends on an array: raising with
    the two objects as they were, or returning with the data of the
    target rescaled. *)
Lemma check_flux_calibration_outcomes (r : ndarray) (bin_size : Z)
  (plot save show : bool) (s : MState) :
  match check_flux_calibration (RefArray r) bin_size plot save show false s with
  | Raise _ s' => muse s' = muse s /\ reference s' = reference s
  | Ok _ s' =>
      reference s' = reference s
      /\ exists beta,
           muse s' = set_base
                       (set_data (amap (calibrated (fst beta) (snd beta))
                                    (data (base (muse s))))
                          (base (muse s))) (muse s)
  end.
Proof.
  unfold check_flux_calibration. cbv iota.
  unfold bind at 1. cbn [ret]. unfold bind at 1. unfold the_muse at 1.
  destruct (bin_image (data (base (muse s))) bin_size) as [mm ms].
  destruct (bin_image r bin_size) as [rm rs].
  destruct s as [m rf d]. cbn [muse reference mdisk].
  unfold bind, orelse, ret, raise, mwrite, modify, on_muse.
  destruct (gzip valid_block mm rm) as [vm|]; [|split; reflexivity].
  destruct (gselect mm vm); [|split; reflexivity].
  destruct (gselect ms vm); [|split; reflexivity].
  destruct (gselect rm vm); [|split; reflexivity].
  destruct (gselect rs vm); [|split; reflexivity].
  destruct (plot && save); cbn [muse reference mdisk];
    (destruct (gzip Num.div (values (data (base m))) (values r));
     [split; [reflexivity | eexists; reflexivity] | split; reflexivity]).
Qed.

(** X13.  [check_flux_calibration] on an array is all or nothing for the
    two objects: when it raises - the shapes of the two images or of
    their binned maps differ - the target and the reference are as they
    were. *)
Theorem check_flux_calibration_raise_keeps_objects (r : ndarray) (bin_size : Z)
  (plot save show : bool) (s s' : MState) (e : exn) :
  check_flux_calibration (RefArray r) bin_size plot save show false s
  = Raise e s' ->
  muse s' = muse s /\ reference s' = reference s.
Proof.
  intros H.
  pose proof (check_flux_calibration_outcomes r bin_size plot save show s) as Ho.
  rewrite H in Ho. exact Ho.
Qed.

Lemma pixel_at_gmap2 {A B : Type} (f : A -> B) (g : grid A) (r c : nat) :
  pixel_at (gmap2 f g) r c = option_map f (pixel_at g r c).
Proof.
  unfold pixel_at, gmap2. rewrite nth_error_map.
  destruct (nth_error g r) as [row|]; [|reflexivity]. cbn.
  apply nth_error_map.
Qed.

Lemma calibrated_nan (gamma offset : Num.float) :
  calibrated gamma offset Num.NaN = Num.NaN.
Proof. destruct gamma, offset; reflexivity. Qed.

(** X14.  A calibration that returns keeps the shape and the mask of the
    target data, and a pixel that was NaN is NaN afterwards. *)
Theorem check_flux_calibration_keeps_nan (r : ndarray) (bin_size : Z)
  (plot save show : bool) (s s' : MState) :
  check_flux_calibration (RefArray r) bin_size plot save show false s
  = Ok tt s' ->
  let before := data (base (muse s)) in
  let after := data (base (muse s')) in
  mask after = mask before
  /\ row_lengths (values after) = row_lengths (values before)
  /\ forall row col,
       pixel_at (values before) row col = Some Num.NaN ->
       pixel_at (values after) row col = Some Num.NaN.
Proof.
  intros H.
  pose proof (check_flux_calibration_outcomes r bin_size plot save show s) as Ho.
  rewrite H in Ho. destruct Ho as (_ & beta & Hm).
  cbv zeta. rewrite Hm.
  destruct (muse s) as [b sc rd rs sp sm bf]. cbn [base set_base].
  destruct b; cbn [data set_data amap mask values].
  split; [reflexivity|]. split.
  - unfold row_lengths, gmap2. rewrite map_map.
    apply map_ext. intros row. apply length_map.
  - intros row col Hnan. rewrite pixel_at_gmap2, Hnan. cbn.
    rewrite calibrated_nan. reflexivity.
Qed.

Lemma on_muse_ok (f : MUSEImage -> MUSEImage) (s s' : MState) (u : unit) :
  on_muse f s = Ok u s' ->
  s' = mkMState (f (muse s)) (reference s) (mdisk s).
Proof. unfold on_muse, modify. intros H; injection H as _ <-. reflexivity. Qed.

Lemma orelse_ok {S A : Type} (o : option A) (e : exn) (s s' : S) (a : A) :
  orelse o e s = Ok a s' -> o = Some a /\ s' = s.
Proof.
  destruct o; cbn; intros H; [injection H as <- <-; auto | discriminate].
Qed.

Ltac name_fit H :=
  match type of H with
  | _ = set_best_fit _ (set_fit ?r ?p ?k _) =>
      set (R := r) in *; set (P := p) in *; set (K := k) in *;
      clearbody R P K
  end.

(** What a run of the fit that returns has gone through. *)
Lemma fit_resampled_returns (fit_alpha plot save show offset : bool)
  (oversample : option Z) (kwargs : Kwargs) (s s' : MState) :
  fit_resampled fit_alpha plot save show offset oversample kwargs s = Ok tt s' ->
  exists beta mh tpl r p k b,
    main_header (base (muse s)) = Some mh
    /\ header_get mh "HIERARCH ESO TPL ID" = Some tpl
    /\ hd_error r = Some b
    /\ reference s' = reference s
    /\ muse s'
       = set_best_fit b
           (set_fit r p k
              (set_base
                 (set_data
                    (let cal := amap (calibrated (fst beta) (snd beta))
                                  (data (base (muse s))) in
                     if oversampled oversample then amap nan_to_zero cal
                     else cal)
                    (base (muse s)))
                 (muse s))).
Proof.
  intros H. unfold fit_resampled in H.
  apply bind_ok in H as (m & s1 & Hm & H).
  unfold the_muse in Hm. injection Hm as <- <-.
  apply bind_ok in H as (r0 & s1 & Hr & H).
  unfold the_reference in Hr. injection Hr as <- <-.
  apply bind_ok in H as (u1 & s1 & Hc & H).
  pose proof (check_flux_calibration_outcomes (data (reference s)) 15 plot save
                show s) as Ho.
  rewrite Hc in Ho. destruct Ho as (Href & beta & Hmuse).
  apply bind_ok in H as (m1 & s2 & Hm1 & H).
  unfold the_muse in Hm1. injection Hm1 as <- <-.
  apply bind_ok in H as (mh & s2 & Hmh & H).
  apply orelse_ok in Hmh as [Hmh ->].
  apply bind_ok in H as (tpl & s2 & Htpl & H).
  apply orelse_ok in Htpl as [Htpl ->].
  apply bind_ok in H as (located & s2 & Hloc & H).
  assert (Hs2 : muse s2 = muse s1 /\ reference s2 = reference s1).
  { destruct (pop (kw_mask_stars kwargs) true).
    - apply bind_ok in Hloc as (d & s3 & Hd & Hloc).
      unfold the_mdisk in Hd. injection Hd as <- <-.
      destruct (mdisk s1 _).
      + injection Hloc as _ <-. auto.
      + apply bind_ok in Hloc as (u2 & s3 & Hw & Hloc).
        injection Hloc as _ <-.
        destruct (fst (locate_stars _ _ _)).
        * unfold mwrite, modify in Hw. injection Hw as _ <-. auto.
        * injection Hw as _ <-. auto.
    - injection Hloc as _ <-. auto. }
  destruct Hs2 as [Hmuse2 Href2].
  apply bind_ok in H as (r1 & s3 & Hr1 & H).
  unfold the_reference in Hr1. injection Hr1 as <- <-.
  apply bind_ok in H as (ref_psf & s3 & Hp & H).
  apply orelse_ok in Hp as [Hp ->].
  assert (Hmh0 : main_header (base (muse s)) = Some mh).
  { rewrite Hmuse in Hmh. destruct (muse s) as [b0 ? ? ? ? ? ?].
    destruct b0; exact Hmh. }
  assert (Hfin : forall (s0 : MState) r p k,
             reference s0 = reference s ->
             (on_muse (set_fit r p k) ;;;
              b <- orelse (hd_error r) (IndexError "index out of range") ;;
              on_muse (set_best_fit b))%method s0 = Ok tt s' ->
             exists b, hd_error r = Some b
                       /\ reference s' = reference s
                       /\ muse s' = set_best_fit b (set_fit r p k (muse s0))).
  { intros s0 r p k Hs0 Hrun.
    apply bind_ok in Hrun as (u3 & s4 & Hfit & Hrun).
    apply on_muse_ok in Hfit. subst s4.
    apply bind_ok in Hrun as (b & s4 & Hb & Hrun).
    apply orelse_ok in Hb as [Hb ->].
    apply on_muse_ok in Hrun. subst s'. cbn [muse reference mdisk].
    exists b. split; [exact Hb|]. split; [exact Hs0 | reflexivity]. }
  assert (Href0 : reference s2 = reference s) by congruence.
  assert (Hdata : forall g,
             set_base (set_data g (base (muse s1))) (muse s1)
             = set_base (set_data g (base (muse s))) (muse s)).
  { intros g. rewrite Hmuse. destruct (muse s) as [b0 ? ? ? ? ? ?].
    destruct b0; reflexivity. }
  destruct oversample as [o|]; [destruct (1 <? o) eqn:Ho|]; cbn [oversampled];
    rewrite ?Ho in *.
  - apply bind_ok in H as (u3 & s4 & Hz & H).
    apply on_muse_ok in Hz. subst s4.
    apply Hfin in H as (b & Hb & Hre & Hmu); [|exact Href0]. name_fit Hmu.
    cbn [muse] in Hmu.
    exists beta, mh, tpl, R, P, K, b.
    split; [exact Hmh0|]. split; [exact Htpl|]. split; [exact Hb|].
    split; [exact Hre|]. rewrite Hmu, Hmuse2, Hdata.
    rewrite Hmuse. destruct (muse s) as [b0 ? ? ? ? ? ?].
    destruct b0; reflexivity.
  - apply Hfin in H as (b & Hb & Hre & Hmu); [|exact Href0]. name_fit Hmu.
    exists beta, mh, tpl, R, P, K, b.
    split; [exact Hmh0|]. split; [exact Htpl|]. split; [exact Hb|].
    split; [exact Hre|]. rewrite Hmu, Hmuse2, Hmuse. reflexivity.
  - apply Hfin in H as (b & Hb & Hre & Hmu); [|exact Href0]. name_fit Hmu.
    exists beta, mh, tpl, R, P, K, b.
    split; [exact Hmh0|]. split; [exact Htpl|]. split; [exact Hb|].
    split; [exact Hre|]. rewrite Hmu, Hmuse2, Hmuse. reflexivity.
Qed.

Lemma measure_psf_returns (fit_alpha plot save show offset : bool)
  (oversample : option Z) (kwargs : Kwargs) (s s' : MState) :
  measure_psf fit_alpha plot save show offset oversample kwargs s = Ok tt s' ->
  exists beta mh tpl r p k b,
    main_header (base (muse s)) = Some mh
    /\ header_get mh "HIERARCH ESO TPL ID" = Some tpl
    /\ hd_error r = Some b
    /\ muse s'
       = set_best_fit b
           (set_fit r p k
              (set_base
                 (set_data
                    (let cal := amap (calibrated (fst beta) (snd beta))
                                  (data (base (muse s))) in
                     if oversampled oversample then amap nan_to_zero cal
                     else cal)
                    (base (muse s)))
                 (muse s))).
Proof.
  intros H. unfold measure_psf in H.
  apply bind_ok in H as (u0 & s1 & Hpre & H).
  assert (Hs1 : s1 = s).
  { destruct (fit_preconditions s) eqn:Hb.
    - rewrite (preconditions_ok s Hb) in Hpre. injection Hpre as _ Hs.
      symmetry. exact Hs.
    - destruct (preconditions_fail s Hb) as (e & He & _).
      rewrite He in Hpre. discriminate. }
  subst s1.
  apply bind_ok in H as (m & s1 & Hm & H).
  unfold the_muse in Hm. injection Hm as <- <-.
  apply bind_ok in H as (u1 & s1 & Hr & H).
  assert (Hmuse : muse s1 = muse s).
  { unfold on_reference in Hr.
    destruct (resample _ _ _ _) as [a t|e t]; [|discriminate].
    injection Hr as _ <-. reflexivity. }
  apply fit_resampled_returns in H
    as (beta & mh & tpl & r & p & k & b & H1 & H2 & H3 & _ & H5).
  rewrite Hmuse in H1, H5.
  exists beta, mh, tpl, r, p, k, b. auto.
Qed.

(** X15.  A call of [measure_psf] that returns has recorded a fit: [res]
    is a non-empty list, [best_fit] is its first item, [star_pos] and
    [starmask] are set; the scale, the region directory, the name, the
    headers, the WCS and the units of the target are as they were. *)
Theorem measure_psf_records_fit (fit_alpha plot save show offset : bool)
  (oversample : option Z) (kwargs : Kwargs) (s s' : MState) :
  measure_psf fit_alpha plot save show offset oversample kwargs s = Ok tt s' ->
  (exists r b,
     res (muse s') = Some r /\ hd_error r = Some b
     /\ best_fit (muse s') = Some b)
  /\ star_pos (muse s') <> None
  /\ starmask (muse s') <> None
  /\ scale (muse s') = scale (muse s)
  /\ region_dir (muse s') = region_dir (muse s)
  /\ filename (base (muse s')) = filename (base (muse s))
  /\ header (base (muse s')) = header (base (muse s))
  /\ main_header (base (muse s')) = main_header (base (muse s))
  /\ wcs (base (muse s')) = wcs (base (muse s))
  /\ units (base (muse s')) = units (base (muse s)).
Proof.
  intros H. apply measure_psf_returns in H
    as (beta & mh & tpl & r & p & k & b & _ & _ & Hb & Hm).
  rewrite Hm. destruct (muse s) as [b0 ? ? ? ? ? ?]. destruct b0.
  cbn. split; [exists r, b; auto|].
  repeat split; discriminate.
Qed.

(** X16.  [measure_psf] cannot return on a target read without its
    primary header, or whose primary header has no [HIERARCH ESO TPL ID]
    card: the call raises. *)
Theorem measure_psf_needs_tpl_id (fit_alpha plot save show offset : bool)
  (oversample : option Z) (kwargs : Kwargs) (s : MState) :
  (forall mh, main_header (base (muse s)) = Some mh ->
              header_get mh "HIERARCH ESO TPL ID" = None) ->
  exists e s',
    measure_psf fit_alpha plot save show offset oversample kwargs s
    = Raise e s'.
Proof.
  intros Hno.
  destruct (measure_psf fit_alpha plot save show offset oversample kwargs s)
    as [[] s'|e s'] eqn:H; [|eauto].
  apply measure_psf_returns in H
    as (beta & mh & tpl & r & p & k & b & Hmh & Htpl & _).
  rewrite (Hno mh Hmh) in Htpl. discriminate.
Qed.

Lemma nan_to_zero_not_nan (g : grid Num.float) :
  Forall not_nan (concat (gmap2 nan_to_zero g)).
Proof.
  unfold gmap2. rewrite <- concat_map. rewrite Forall_map.
  apply Forall_forall. intros x _. unfold not_nan, nan_to_zero.
  destruct x; reflexivity.
Qed.

(** X17.  With [oversample] above 1, a call of [measure_psf] that returns
    has written zeros over the NaN pixels of the target: no pixel of
    [self.data] is NaN afterwards. *)
Theorem measure_psf_oversampled_clears_nan
  (fit_alpha plot save show offset : bool) (o : Z) (kwargs : Kwargs)
  (s s' : MState) :
  1 < o ->
  measure_psf fit_alpha plot save show offset (Some o) kwargs s = Ok tt s' ->
  Forall not_nan (concat (values (data (base (muse s'))))).
Proof.
  intros Ho H. apply measure_psf_returns in H
    as (beta & mh & tpl & r & p & k & b & _ & _ & _ & Hm).
  rewrite Hm. cbn [oversampled]. apply Z.ltb_lt in Ho. rewrite Ho.
  destruct (muse s) as [b0 ? ? ? ? ? ?]. destruct b0.
  cbn. apply nan_to_zero_not_nan.
Qed.

(** X18.  An [oversample] of 1 or less is no oversampling: the call does
    what it does with [oversample=None]. *)
Theorem measure_psf_oversample_threshold
  (fit_alpha plot save show offset : bool) (o : Z) (kwargs : Kwargs)
  (s : MState) :
  o <= 1 ->
  measure_psf fit_alpha plot save show offset (Some o) kwargs s
  = measure_psf fit_alpha plot save show offset None kwargs s.
Proof.
  intros Ho. unfold measure_psf, fit_resampled.
  destruct (1 <? o) eqn:E; [apply Z.ltb_lt in E; lia | reflexivity].
Qed.

End FitRuns.

Open Scope string_scope.

(** X13 on a reference of another shape: the calibration raises and the
    target keeps its data. *)
Lemma check_flux_calibration_raise_keeps_objects_witness :
  let s := fit_state toy0 tt "adu" in
  exists e s',
    check_flux_calibration (C:=toy0) (RefArray (plain [[Num.one]])) 15 false
      false false false s = Raise e s'
    /\ muse s' = muse s /\ reference s' = reference s.
Proof.
  cbv zeta. eexists. eexists. split; [reflexivity|].
  apply (check_flux_calibration_raise_keeps_objects (C:=toy0)
           (plain [[Num.one]]) 15 false false false (fit_state toy0 tt "adu")
           _ _ eq_refl).
Defined.

(** X14 on the target of [fit_state], which has a NaN in its second
    row. *)
Lemma check_flux_calibration_keeps_nan_witness :
  let s := fit_state toy0 tt "adu" in
  let s' := final_state
              (check_flux_calibration (C:=toy0) (RefArray pixels) 15 false
                 false false false s) in
  pixel_at (values (data (base (muse s)))) 1 0 = Some Num.NaN
  /\ pixel_at (values (data (base (muse s')))) 1 0 = Some Num.NaN.
Proof.
  cbv zeta. split; [reflexivity|].
  apply (check_flux_calibration_keeps_nan (C:=toy0) pixels 15 false false
           false (fit_state toy0 tt "adu") _ eq_refl).
  reflexivity.
Defined.

(** X15 on the run of [fit_state]. *)
Lemma measure_psf_records_fit_witness :
  let s := fit_state toy0 tt "adu" in
  let s' := final_state
              (measure_psf (C:=toy0) false false false false false None
                 (no_kwargs toy0 tt) s) in
  exists r b,
    res (muse s') = Some r /\ hd_error r = Some b
    /\ best_fit (muse s') = Some b.
Proof.
  cbv zeta.
  assert (Hrun : measure_psf (C:=toy0) false false false false false None
                   (no_kwargs toy0 tt) (fit_state toy0 tt "adu")
                 = Ok tt (final_state
                            (measure_psf (C:=toy0) false false false false
                               false None (no_kwargs toy0 tt)
                               (fit_state toy0 tt "adu"))))
    by (vm_compute; reflexivity).
  destruct (measure_psf_records_fit (C:=toy0) false false false false false
              None (no_kwargs toy0 tt) (fit_state toy0 tt "adu") _ Hrun)
    as [H _].
  exact H.
Defined.

(** X16 on the target read without its primary header. *)
Lemma measure_psf_needs_tpl_id_witness :
  exists e s',
    measure_psf (C:=toy0) false false false false false None
      (no_kwargs toy0 tt) (headless_state toy0 tt "adu") = Raise e s'.
Proof.
  apply (measure_psf_needs_tpl_id (C:=toy0) false false false false false None
           (no_kwargs toy0 tt) (headless_state toy0 tt "adu")).
  intros mh H. discriminate H.
Defined.

(** X17 on the target of [fit_state], oversampled twice. *)
Lemma measure_psf_oversampled_clears_nan_witness :
  let s := fit_state toy0 tt "adu" in
  let s' := final_state
              (measure_psf (C:=toy0) false false false false false (Some 2)
                 (no_kwargs toy0 tt) s) in
  In Num.NaN (concat (values (data (base (muse s)))))
  /\ Forall not_nan (concat (values (data (base (muse s'))))).
Proof.
  cbv zeta. split; [right; right; left; reflexivity|].
  assert (Hrun : measure_psf (C:=toy0) false false false false false (Some 2)
                   (no_kwargs toy0 tt) (fit_state toy0 tt "adu")
                 = Ok tt (final_state
                            (measure_psf (C:=toy0) false false false false
                               false (Some 2) (no_kwargs toy0 tt)
                               (fit_state toy0 tt "adu"))))
    by (vm_compute; reflexivity).
  apply (measure_psf_oversampled_clears_nan (C:=toy0) false false false false
           false 2 (no_kwargs toy0 tt) (fit_state toy0 tt "adu") _ eq_refl
           Hrun).
Defined.

(** X18 at [oversample=1]. *)
Lemma measure_psf_oversample_threshold_witness :
  measure_psf (C:=toy0) false false false false false (Some 1)
    (no_kwargs toy0 tt) (fit_state toy0 tt "adu")
  = measure_psf (C:=toy0) false false false false false None
      (no_kwargs toy0 tt) (fit_state toy0 tt "adu").
Proof.
  apply (measure_psf_oversample_threshold (C:=toy0) false false false false
           false 1 (no_kwargs toy0 tt) (fit_state toy0 tt "adu")).
  lia.
Defined.

Close Scope string_scope.

(** ** Names, units and construction *)

Section NamesAndUnits.

Context {C : Collab}.

Lemma replace_fuel_absent (old new : string) (n : nat) (s : string) :
  occurs old s = false -> replace_fuel n old new s = s.
Proof.
  revert s. induction n as [|n IH]; intros s Hs; [reflexivity|].
  destruct s as [|c rest]; [reflexivity|].
  cbn [occurs] in Hs. apply orb_false_iff in Hs as [Hp Hrest].
  cbn [replace_fuel]. rewrite Hp, (IH rest Hrest). reflexivity.
Qed.

Lemma replace_absent (old new s : string) :
  occurs old s = false -> replace old new s = s.
Proof. apply replace_fuel_absent. Qed.

(** X19.  The output names are made by replacing [.fits] in the file
    name; when the name has no [.fits] in it and the two directories are
    the same, the PSF file is written over the image file: after a build
    that returns, the path of the image holds the kernel. *)
Theorem psf_file_overwrites_image (data_ : ndarray)
  (stars_tbl : list (Num.float * Num.float)) (npix oversampling : Z)
  (s s' : IState) :
  occurs ".fits" (filename (self s)) = false ->
  output_dir (self s) = input_dir (self s) ->
  build_from data_ stars_tbl npix oversampling s = Ok tt s' ->
  exists kernel scale,
    psf (self s') = Some kernel
    /\ image_path (self s') = image_path (self s)
    /\ disk s' (image_path (self s')) = Some (psf_file kernel scale).
Proof.
  intros Hname Hdir. rewrite build_from_spec.
  destruct (hd_error _) as [star0|]; [|discriminate]. cbv zeta.
  destruct (0 <? _); [|discriminate].
  destruct (psfscale (self s)) as [scale|]; [|discriminate].
  intros H; injection H as <-.
  eexists. exists scale. cbn [self disk].
  assert (Hpath : psf_path (self s) = image_path (self s)).
  { unfold psf_path, image_path. rewrite (replace_absent _ _ _ Hname), Hdir.
    reflexivity. }
  assert (Himg : image_path (set_psf
                   (Some (normalized (evaluated
                      (fst (built (cutouts data_ stars_tbl npix) oversampling))
                      star0))) (self s)) = image_path (self s))
    by (destruct (self s); reflexivity).
  split; [destruct (self s); reflexivity|].
  split; [exact Himg|].
  rewrite Himg. unfold write_file. rewrite Hpath, String.eqb_refl.
  reflexivity.
Qed.

(** X20.  After [convert_units], [resample(pixscale=p)] in place brings
    back the data of the file under the new unit: the object ends with
    the data it would have had without the conversion and with
    [units = out_units]. *)
Theorem convert_units_lost_by_resample (out_units : Units)
  (equivalency : option Equivalency) (p : Num.float) (s : IState) :
  let converted := final_state (convert_units out_units equivalency s) in
  match resample None (Some p) true s with
  | Ok _ t =>
      exists t',
        resample None (Some p) true converted = Ok None t'
        /\ data (self t') = data (self t)
        /\ units (self t') = out_units
  | Raise e _ => resample None (Some p) true converted = Raise e converted
  end.
Proof.
  destruct s as [i d]. unfold convert_units, bind, the_self, on_self, modify.
  cbn [self disk final_state]. cbv zeta.
  rewrite !resample_pixscale_spec.
  assert (Hp : forall a, image_path (set_units out_units (set_data a i))
                         = image_path i)
    by (intros a; destruct i; reflexivity).
  rewrite Hp.
  destruct (d _); [|reflexivity].
  destruct (mpdaf_resampled _ _); [|reflexivity].
  eexists. split; [reflexivity|].
  destruct i; split; reflexivity.
Qed.

(** X21.  Once [mask_galaxy] has been called, curation returns (given
    one proximity flag per catalogue row): the region is the ellipse of
    width [2 * amin] and height [2 * amax], and no curated star lies in
    it. *)
Theorem curation_after_mask_galaxy (i : Image) (d : Disk)
  (c : SkyCoord) (amax amin pa : Num.float)
  (center : SkyCoord) (gmin gmax radius : Num.float) :
  length (remove_close_stars (map row_coord (query_gaia center radius)))
  = length (query_gaia center radius) ->
  let g := mkRegion c (Num.mul (Fz 2) amin) (Num.mul (Fz 2) amax) pa in
  exists rows s',
    bind (mask_galaxy c amax amin pa)
      (fun _ => get_gaia_catalog center gmin gmax radius) (mkIState i d)
    = Ok tt s'
    /\ galaxy (self s') = Some g
    /\ stars (self s') = Some (GaiaTable rows)
    /\ forall r, In r rows -> region_contains g (row_coord r) (wcs i) = false.
Proof.
  intros Hlen g. unfold bind, mask_galaxy, on_self, modify. cbn [self disk].
  fold g.
  destruct (get_gaia_catalog_with_galaxy g i d center gmin gmax radius Hlen)
    as [rows Hrun].
  exists rows. eexists. split; [exact Hrun|].
  destruct (get_gaia_catalog_returns _ _ _ _ _ _ Hrun) as (g' & Hg & Hs).
  assert (g' = g) by (destruct i; cbn in Hg; congruence). subst g'.
  cbn [self].
  split; [destruct i; reflexivity|].
  split; [destruct i; reflexivity|].
  intros r Hr.
  assert (Hrows : rows = filter (well_placed (set_galaxy (Some g) i) g)
                           (filter (in_magnitude gmin gmax)
                              (isolated center radius))).
  { apply (f_equal (fun st => stars (self st))) in Hs.
    destruct i; cbn [self stars set_stars set_galaxy] in Hs.
    injection Hs as Hs. exact Hs. }
  rewrite Hrows in Hr. apply filter_In in Hr as [_ Hr].
  unfold well_placed in Hr. rewrite !andb_true_iff, negb_true_iff in Hr.
  destruct Hr as [[_ Hout] _]. destruct i; exact Hout.
Qed.

End NamesAndUnits.

Section ConstructionProperties.

Context {C : Collab}.

Variable Unit : card -> option Units.
Variable times_pix : Units -> Units.
Variable create_sdss_psf :
  ndarray -> Header -> string -> Num.float -> grid Num.float + exn.
Variable plot_psf :
  grid Num.float -> string -> string -> bool -> bool -> option exn.

(** X22.  [Image(...)] with no [units] argument on a file whose data
    header has no [BUNIT] card raises [KeyError]: the [except ValueError]
    of the constructor, which covers a value that is no unit, does not
    cover the missing card, and no object is made. *)
Theorem init_missing_bunit (filename_ input_dir_ output_dir_ : string)
  (datahdu : Z) (headerhdu : option Z) (debug_ : bool) (d : Disk)
  (hdus : list (ndarray * Header)) (data_ : ndarray) (header_ : Header) :
  d (path_join input_dir_ filename_) = Some (FitsFile hdus) ->
  hdu_at hdus datahdu = Some (data_, header_) ->
  (forall k, headerhdu = Some k -> hdu_at hdus k <> None) ->
  header_get header_ "BUNIT" = None ->
  init Unit times_pix filename_ input_dir_ output_dir_ datahdu headerhdu
    debug_ None d
  = NotBuilt (KeyError "Keyword 'BUNIT' not found.").
Proof.
  intros Hd Hdata Hmain Hcard. unfold init. rewrite Hd, Hdata.
  destruct headerhdu as [k|].
  - specialize (Hmain k eq_refl).
    destruct (hdu_at hdus k) as [[a main]|]; [|congruence].
    rewrite Hcard. reflexivity.
  - rewrite Hcard. reflexivity.
Qed.

Lemma init_built_fresh (filename_ input_dir_ output_dir_ : string)
  (datahdu : Z) (headerhdu : option Z) (debug_ : bool)
  (units_ : option Units) (d : Disk) (i : Image) :
  init Unit times_pix filename_ input_dir_ output_dir_ datahdu headerhdu
    debug_ units_ d = Built i ->
  psf i = None /\ stars i = None /\ galaxy i = None /\ psfscale i = None
  /\ image_path i = path_join input_dir_ filename_
  /\ d (image_path i) <> None.
Proof.
  unfold init.
  destruct (d (path_join input_dir_ filename_)) as [[hdus| |]|] eqn:Hd;
    try discriminate.
  destruct (hdu_at hdus datahdu) as [[data_ header_]|]; [|discriminate].
  assert (Hfin : forall main,
             match units_ with
             | Some u =>
                 Built (mkImage filename_ input_dir_ output_dir_ data_ header_
                          main (WCS header_) u None debug_ None None None)
             | None =>
                 match header_get header_ "BUNIT" with
                 | Some c =>
                     match Unit c with
                     | Some u =>
                         Built (mkImage filename_ input_dir_ output_dir_ data_
                                  header_ main (WCS header_) (times_pix u) None
                                  debug_ None None None)
                     | None =>
                         BuiltWithoutUnits
                           (fun u =>
                              mkImage filename_ input_dir_ output_dir_ data_
                                header_ main (WCS header_) u None debug_ None
                                None None)
                     end
                 | None => NotBuilt (KeyError "Keyword 'BUNIT' not found.")
                 end
             end = Built i ->
             psf i = None /\ stars i = None /\ galaxy i = None
             /\ psfscale i = None
             /\ image_path i = path_join input_dir_ filename_
             /\ d (image_path i) <> None).
  { intros main H.
    assert (Hshape : exists u,
               i = mkImage filename_ input_dir_ output_dir_ data_ header_
                     main (WCS header_) u None debug_ None None None).
    { destruct units_ as [u|].
      - injection H as <-. eauto.
      - destruct (header_get header_ "BUNIT") as [c|]; [|discriminate].
        destruct (Unit c) as [u|]; [|discriminate].
        injection H as <-. eauto. }
    destruct Hshape as [u ->]. unfold image_path. cbn.
    repeat split. rewrite Hd. discriminate. }
  destruct headerhdu as [k|].
  - destruct (hdu_at hdus k) as [[a main]|]; [|discriminate]. apply Hfin.
  - apply Hfin.
Qed.

(** X23.  An object straight from the constructor cannot serve as the
    reference of [measure_psf]: it has no PSF, so the call stops at an
    assertion with nothing changed, until [build_psf], [open_psf] or
    [recover_SDSS_PSF] has given it one. *)
Theorem init_reference_has_no_psf (filename_ input_dir_ output_dir_ : string)
  (datahdu : Z) (headerhdu : option Z) (debug_ : bool)
  (units_ : option Units) (d : Disk) (i : Image)
  (fit_alpha plot save show offset : bool) (oversample : option Z)
  (kwargs : Kwargs) (m : MUSEImage) :
  init Unit times_pix filename_ input_dir_ output_dir_ datahdu headerhdu
    debug_ units_ d = Built i ->
  exists msg,
    measure_psf fit_alpha plot save show offset oversample kwargs
      (mkMState m i d)
    = Raise (AssertionError msg) (mkMState m i d).
Proof.
  intros H. apply init_built_fresh in H as (Hpsf & _).
  unfold measure_psf, preconditions, bind, the_muse, the_reference, assert.
  cbn [muse reference]. destruct (units_eq _ _); [|eexists; reflexivity].
  rewrite Hpsf. eexists; reflexivity.
Qed.


End ConstructionProperties.

(** ** The centre of a cutout without peaks *)

Section FallbackCentre.

Context {C : Collab}.

Lemma rectangular_same_rows {A B : Type} (n : nat) (g : grid A) (h : grid B) :
  rectangular n g -> row_lengths h = row_lengths g -> rectangular n h.
Proof.
  unfold rectangular. revert h.
  induction g as [|r g IH]; intros [|r' h] Hg Hh; try discriminate;
    [constructor|].
  inversion Hg; subst. cbn in Hh. injection Hh as Hr Hh.
  constructor; [exact Hr | apply IH; assumption].
Qed.

(** The flat index of a pixel of a rectangular grid. *)
Lemma nth_concat_rectangular {A : Type} (n : nat) (g : grid A) :
  (0 < n)%nat -> rectangular n g ->
  forall k, nth_error (concat g) k = pixel_at g (k / n) (k mod n).
Proof.
  intros Hn Hg. unfold rectangular in Hg.
  induction Hg as [|row g Hrow Hg IH]; intros k.
  - unfold pixel_at. cbn. rewrite !nth_error_nil. reflexivity.
  - cbn [concat]. destruct (Nat.lt_ge_cases k n) as [Hk | Hk].
    + rewrite nth_error_app1 by lia.
      rewrite Nat.div_small, Nat.mod_small by exact Hk. reflexivity.
    + rewrite nth_error_app2 by lia. rewrite Hrow, IH.
      assert (Hd : (k / n = S ((k - n) / n))%nat).
      { replace k with ((k - n) + 1 * n)%nat at 1 by lia.
        rewrite Nat.div_add by lia. lia. }
      assert (Hmod : (k mod n = (k - n) mod n)%nat).
      { replace k with ((k - n) + 1 * n)%nat at 1 by lia.
        apply Nat.Div0.mod_add. }
      rewrite Hd, Hmod. reflexivity.
Qed.

Lemma pixel_in_concat {A : Type} (g : grid A) (r c : nat) (x : A) :
  pixel_at g r c = Some x -> In x (concat g).
Proof.
  unfold pixel_at. destruct (nth_error g r) as [row|] eqn:Hr; [|discriminate].
  intros Hc. apply in_concat. exists row.
  split; [eapply nth_error_In; exact Hr | eapply nth_error_In; exact Hc].
Qed.

(** Flagged pixels filled with the smallest value, unflagged ones finite:
    no NaN is left for [argmax] to prefer. *)
Lemma filled_not_nan (l : list Num.float) (fl : list bool) :
  forallb Num.isfinite (select l (map negb fl)) = true ->
  Forall not_nan
    (zip_with (fun x (b : bool) => if b then Num.NInf else x) l fl).
Proof.
  revert fl. induction l as [|x l IH]; intros [|b fl] H; cbn; try constructor.
  - destruct b; cbn in H.
    + reflexivity.
    + apply andb_true_iff in H as [Hx _]. destruct x; try discriminate;
        reflexivity.
  - apply IH. destruct b; cbn in H; [exact H|].
    apply andb_true_iff in H as [_ H]. exact H.
Qed.

(** X25.  On a masked, rectangular cutout that has passed the finiteness
    test and in which no peak is found, the centre the loop falls back to
    is the place of a largest pixel: no pixel of the cutout, the flagged
    ones counting as minus infinity, is larger than the one at the row
    and column returned. *)
Theorem fallback_center_is_maximum (a : ndarray) (m : grid bool) (n : nat) :
  mask a = Some m ->
  row_lengths m = row_lengths (values a) ->
  rectangular n (values a) ->
  (0 < n)%nat ->
  values a <> [] ->
  truth (isfinite_all a) = true ->
  find_peaks_2d a (peak_threshold a) = [] ->
  exists (row col : nat) (v : Num.float),
    refined_center a = Some (Fz (Z.of_nat row), Fz (Z.of_nat col))
    /\ pixel_at (filled a) row col = Some v
    /\ forall row' col' x,
         pixel_at (filled a) row' col' = Some x -> Num.leb x v = true.
Proof.
  intros Hm Hrows Hrect Hn Hne Hfin Hpeaks.
  destruct (concat_zip_with (fun x (b : bool) => if b then Num.NInf else x)
              (values a) m (eq_sym Hrows)) as [Hflat Hfrows].
  assert (Hfilled : filled_min a = concat (filled a)).
  { unfold filled_min, filled. rewrite Hm. symmetry. exact Hflat. }
  assert (Hfrect : rectangular n (filled a)).
  { apply (rectangular_same_rows n (values a)); [exact Hrect|].
    unfold filled. rewrite Hm. exact Hfrows. }
  assert (Hnan : Forall not_nan (filled_min a)).
  { unfold filled_min. rewrite Hm. apply filled_not_nan.
    unfold isfinite_all in Hfin. rewrite Hm in Hfin.
    destruct (forallb (fun b => b) (concat m)
              && negb (Nat.eqb (length (concat m)) 0)); [discriminate|].
    unfold unmasked in Hfin. rewrite Hm in Hfin. exact Hfin. }
  assert (Hcols : snd (shape a) = Z.of_nat n).
  { unfold shape, gshape. destruct (values a) as [|r0 g]; [congruence|].
    inversion Hrect; subst. reflexivity. }
  assert (Hsome : filled_min a <> []).
  { rewrite Hfilled. unfold filled. rewrite Hm.
    destruct (values a) as [|r0 g]; [congruence|].
    destruct m as [|m0 m']; [discriminate|].
    inversion Hrect; subst. cbn in Hrows. injection Hrows as Hr0 _.
    destruct r0 as [|x r0]; [cbn in Hn; lia|].
    destruct m0 as [|b m0]; [discriminate|]. discriminate. }
  destruct (argmax_is_first_largest a Hsome Hnan)
    as (v & Hv & Hpos & Hmax & _).
  set (k := Z.to_nat (argmax a)) in *.
  assert (Hk : argmax a = Z.of_nat k) by (subst k; lia).
  exists (k / n)%nat, (k mod n)%nat, v.
  split.
  { unfold refined_center. rewrite Hpeaks. cbn [length Nat.ltb Nat.leb Nat.eqb].
    unfold unravel_index. cbn [fst snd]. rewrite Hcols, Hk.
    rewrite Nat2Z.inj_div, Nat2Z.inj_mod. reflexivity. }
  split.
  { rewrite <- (nth_concat_rectangular n (filled a) Hn Hfrect).
    rewrite <- Hfilled. exact Hv. }
  intros row' col' x Hx. apply pixel_in_concat in Hx.
  rewrite <- Hfilled in Hx. rewrite Forall_forall in Hmax.
  apply Hmax. exact Hx.
Qed.

End FallbackCentre.

(** ** The centre of a cutout: threshold, peaks, fallback *)

Section CentreRefinement.

Context {C : Collab}.













End CentreRefinement.

Open Scope string_scope.

(** X19 on an image called [img.fit]: the build leaves a PSF file where
    the image was. *)
Lemma psf_file_overwrites_image_witness :
  let s := mkIState (fit_image (C:=toy0) tt "adu") fit_disk in
  let s' := final_state
              (build_from (C:=toy0) pixels [(Num.one, Num.one)] 35 4 s) in
  disk s (image_path (self s)) = Some (FitsFile [(pixels, image_header)])
  /\ exists kernel scale,
       disk s' (image_path (self s')) = Some (psf_file kernel scale).
Proof.
  cbv zeta. split; [reflexivity|].
  assert (Hrun : build_from (C:=toy0) pixels [(Num.one, Num.one)] 35 4
                   (mkIState (fit_image (C:=toy0) tt "adu") fit_disk)
                 = Ok tt (final_state
                            (build_from (C:=toy0) pixels [(Num.one, Num.one)]
                               35 4
                               (mkIState (fit_image (C:=toy0) tt "adu")
                                  fit_disk))))
    by reflexivity.
  destruct (psf_file_overwrites_image (C:=toy0) pixels [(Num.one, Num.one)]
              35 4 (mkIState (fit_image (C:=toy0) tt "adu") fit_disk) _
              eq_refl eq_refl Hrun) as (kernel & scale & _ & _ & H).
  exists kernel, scale. exact H.
Defined.

(** X21 on the image of [state0]. *)
Lemma curation_after_mask_galaxy_witness :
  exists rows s',
    bind (mask_galaxy (C:=toy0) here Num.one Num.one Num.zero)
      (fun _ => get_gaia_catalog (C:=toy0) here (Num.Fin 10) (Num.Fin 20)
                  (Num.Fin 10))
      (state0 toy0 tt "adu") = Ok tt s'
    /\ stars (self s') = Some (GaiaTable rows).
Proof.
  destruct (curation_after_mask_galaxy (C:=toy0) (image0 (C:=toy0) tt "adu")
              disk0 here Num.one Num.one Num.zero here (Num.Fin 10)
              (Num.Fin 20) (Num.Fin 10) eq_refl)
    as (rows & s' & H1 & _ & H3 & _).
  exists rows, s'. split; [exact H1 | exact H3].
Defined.

(** X22 on a file whose header is empty. *)
Lemma init_missing_bunit_witness :
  init (C:=toy0) adu_only per_pix "bare.fits" "./" "./" 0 None false None
    no_bunit_disk
  = NotBuilt (KeyError "Keyword 'BUNIT' not found.").
Proof.
  apply (init_missing_bunit (C:=toy0) adu_only per_pix "bare.fits" "./" "./"
           0 None false no_bunit_disk [(pixels, [])] pixels []);
    try reflexivity.
  intros k H. discriminate H.
Defined.

(** X23 on the image of [disk0], read with its [BUNIT] card. *)
Lemma init_reference_has_no_psf_witness :
  let i := image0 (C:=toy0) tt "adu pix" in
  init (C:=toy0) adu_only per_pix "img.fits" "./" "./" 0 None false None disk0
  = Built i
  /\ exists msg,
       measure_psf (C:=toy0) false false false false false None
         (no_kwargs toy0 tt) (mkMState (muse0 toy0 tt "adu") i disk0)
       = Raise (AssertionError msg) (mkMState (muse0 toy0 tt "adu") i disk0).
Proof.
  cbv zeta. split; [reflexivity|].
  apply (init_reference_has_no_psf (C:=toy0) adu_only per_pix "img.fits" "./"
           "./" 0 None false None disk0 (image0 (C:=toy0) tt "adu pix")
           false false false false false None (no_kwargs toy0 tt)
           (muse0 toy0 tt "adu") eq_refl).
Defined.

Close Scope string_scope.

(** [recover_SDSS_PSF] on a reference that holds a kernel made at 0.2
    arcsec per pixel, with a synthetic-kernel helper that raises: the
    call raises and leaves that kernel with the scale 0.3. *)
Example recover_sdss_psf_failed_create_run :
  let s := mkIState (reference_with_psf toy0 tt "adu"%string) disk0 in
  let run := recover_SDSS_PSF (C:=toy0)
               (fun _ _ _ _ => inr (ValueError "no star in the field"%string))
               (fun _ _ _ _ _ => None) true false
               (Some (Num.Fin (3 # 10))) s in
  raised run = Some (ValueError "no star in the field"%string)
  /\ psfscale (self s) = Some scale02
  /\ psfscale (self (final_state run)) = Some (Num.Fin (3 # 10))
  /\ psf (self (final_state run)) = Some [[Num.one]]
  /\ disk (final_state run) = disk s.
Proof. cbv zeta. repeat split. Qed.

(** X25 on the cutout with four flagged pixels and its brightest pixel
    in the middle. *)
Lemma fallback_center_is_maximum_witness :
  refined_center (C:=toy_four) cut4 = Some (Fz 1, Fz 1)
  /\ exists (row col : nat) (v : Num.float),
       refined_center (C:=toy_four) cut4
       = Some (Fz (Z.of_nat row), Fz (Z.of_nat col))
       /\ pixel_at (filled cut4) row col = Some v
       /\ forall row' col' x,
            pixel_at (filled cut4) row' col' = Some x -> Num.leb x v = true.
Proof.
  split; [reflexivity|].
  apply (fallback_center_is_maximum (C:=toy_four) cut4 four_flags 3 eq_refl
           eq_refl).
  - repeat constructor.
  - lia.
  - discriminate.
  - reflexivity.
  - reflexivity.
Defined.


(** ** The grid of the build, and the checks of the fit *)

Section GridAndChecks.

Context {C : Collab}.

(** X26.  [build_psf(pixscale=p)] records [p] as the scale of the PSF,
    but [p] reaches MPDAF through the new dimensions alone: the stars
    are measured on the file resampled with a step of 0.2, whatever [p]
    is. *)
Theorem build_inputs_fixed_step (center : SkyCoord) (gmin gmax : Num.float)
  (stars_file : option string) (radius : Num.float) (p : Num.float)
  (save show : bool) (s s1 : IState) (data_ : ndarray)
  (stars_tbl : list (Num.float * Num.float)) :
  build_inputs center gmin gmax stars_file radius (Some p) save show s
  = Ok (data_, stars_tbl) s1 ->
  exists f newdim,
    disk s (image_path (self s)) = Some f
    /\ data_ = mpdaf_data
                 (mpdaf_resample (mpdaf_crop (mpdaf_open f)) newdim
                    (Num.Fin (2 # 10)) true 3)
    /\ psfscale (self s1) = Some p.
Proof.
  intros Hin. unfold build_inputs, bind in Hin.
  destruct (working_grid (Some p) s) as [dw s0|e s0] eqn:Hw; [|discriminate].
  pose proof (star_positions_same_psfscale center gmin gmax stars_file
                radius (fst dw) (snd dw) save show s0) as Hk.
  destruct (star_positions _ _ _ _ _ _ _ _ _ s0) as [tbl s2|e s2];
    [|discriminate].
  cbn in Hin. injection Hin as Hdata _ <-.
  cbn in Hk. unfold same_psfscale in Hk.
  pose proof (working_grid_scale p s s0 dw Hw) as Hscale.
  unfold working_grid, bind in Hw. destruct s as [i d].
  rewrite resample_pixscale_spec in Hw. cbn [self disk].
  destruct (d (image_path i)) as [f|]; [|discriminate].
  unfold mpdaf_resampled in Hw.
  destruct (int_of_float (fst _)) as [ny|e]; [|discriminate].
  destruct (int_of_float (snd _)) as [nx|e]; [|discriminate].
  cbn in Hw. injection Hw as Hdw _.
  exists f, (ny, nx). split; [reflexivity|].
  split; [|congruence].
  rewrite <- Hdata, <- Hdw. reflexivity.
Qed.

Lemma same_checked_refl (s : MState) : same_checked s s.
Proof. repeat split. Qed.

Lemma same_checked_trans (s t u : MState) :
  same_checked s t -> same_checked t u -> same_checked s u.
Proof.
  unfold same_checked. intros (A1 & A2 & A3 & A4 & A5) (B1 & B2 & B3 & B4 & B5).
  repeat split; congruence.
Qed.

Lemma measure_psf_same_checked (fit_alpha plot save show offset : bool)
  (oversample : option Z) (kwargs : Kwargs) :
  keeps same_checked
    (measure_psf fit_alpha plot save show offset oversample kwargs).
Proof.
  unfold measure_psf, preconditions, fit_resampled, check_flux_calibration.
  cbv iota.
  frame same_checked_refl same_checked_trans;
    intros st; unfold on_reference; rewrite ?resample_header_inplace;
    destruct st as [[[] ? ? ? ? ? ?] [] dk]; repeat split.
Qed.

(** X27.  [measure_psf] never touches what its three checks read: the
    units and the WCS of the target, the units, the PSF and the PSF scale
    of the reference.  Returning or raising, it leaves a pair of objects
    on which the checks give what they gave before. *)
Theorem measure_psf_checks_stable (fit_alpha plot save show offset : bool)
  (oversample : option Z) (kwargs : Kwargs) (s : MState) :
  let s' := final_state
              (measure_psf fit_alpha plot save show offset oversample kwargs s) in
  same_checked s s' /\ fit_preconditions s' = fit_preconditions s.
Proof.
  cbv zeta.
  pose proof (measure_psf_same_checked fit_alpha plot save show offset
                oversample kwargs s) as Hk.
  split; [exact Hk|].
  destruct Hk as (H1 & H2 & H3 & H4 & H5).
  unfold fit_preconditions, target_scale. rewrite H1, H2, H3, H4, H5.
  reflexivity.
Qed.

End GridAndChecks.

Open Scope string_scope.

(** X26 at [pixscale=0.3]. *)
Lemma build_inputs_fixed_step_witness :
  let s := state0 toy0 tt "adu" in
  exists f newdim,
    disk s (image_path (self s)) = Some f
    /\ pixels = mpdaf_data (Collab:=toy0)
                  (mpdaf_resample (mpdaf_crop (mpdaf_open f)) newdim
                     (Num.Fin (2 # 10)) true 3).
Proof.
  cbv zeta.
  destruct (build_inputs_fixed_step (C:=toy0) here (Num.Fin 10) (Num.Fin 20)
              (Some "stars.dat") (Num.Fin 10) (Num.Fin (3 # 10)) true true
              (state0 toy0 tt "adu")
              (mkIState
                 (set_stars (Some (RaDecTable [here]))
                    (set_psfscale (Some (Num.Fin (3 # 10)))
                       (image0 (C:=toy0) tt "adu")))
                 disk0)
              pixels [(Num.one, Num.one)] eq_refl)
    as (f & newdim & H1 & H2 & _).
  exists f, newdim. split; [exact H1 | exact H2].
Defined.

Close Scope string_scope.
